(** * Qallm: the desktop front-ends of the document-extraction pipeline

    A shallow embedding of the coordination logic of the two front-ends
    (the Tkinter one, [extraction-system-ui.py] continued in
    [completed-ui-code.py], and the PyQt6 one,
    [pyqt6-document-extraction-ui.py]): file selection, input validation,
    the background worker and the results table.

    The window is a record of widget states that the handlers pass along;
    the worker is a program in a small writer-and-error monad whose output
    is the list of effects it performs, in program order.  The external
    collaborators ([LocalLLMProcessor], [DataProcessor], [ResultsExporter])
    and the file system are a record of functions that may raise. *)

From Stdlib Require Import ZArith String Ascii List Bool Lia Floats DecimalString
  Permutation.
Import ListNotations.

Set Warnings "-register-all,-inexact-float".

Local Open Scope string_scope.
Local Open Scope list_scope.

(** ** Python values *)

(** The objects the external processor hands back: JSON-like data.  A dict
    keeps its items in insertion order, as Python's does; lookups take the
    first item with the key. *)
Inductive PyVal : Type :=
| PyNone
| PyBool (b : bool)
| PyInt (z : Z)
| PyFloat (f : float)
| PyStr (s : string)
| PyList (l : list PyVal)
| PyDict (d : list (string * PyVal)).

(** [bool(v)]: the truth value Python's [if] and [not] use. *)
Definition py_truthy (v : PyVal) : bool :=
  match v with
  | PyNone => false
  | PyBool b => b
  | PyInt z => negb (Z.eqb z 0)
  | PyFloat f => negb (PrimFloat.eqb f 0%float)
  | PyStr s => negb (String.eqb s "")
  | PyList l => match l with [] => false | _ :: _ => true end
  | PyDict d => match d with [] => false | _ :: _ => true end
  end.

(** Exceptions.  The ones Python itself raises on ill-typed data keep the
    offending object; [NameError] is raised for a variable that is read
    when it is not bound, [NoAttribute] is the [AttributeError] for an
    attribute the window itself does not have; [Raised] is an exception of
    an external collaborator, with the text [str(e)] gives, and says
    whether its class derives from [Exception] ([SystemExit] and
    [KeyboardInterrupt] do not). *)
Inductive exn : Type :=
| KeyError (key : string)
| TypeError (culprit : PyVal)
| AttributeError (obj : PyVal) (attr : string)
| NameError (name : string)
| NoAttribute (attr : string)
| Raised (is_exception : bool) (msg : string).

(** [isinstance(e, Exception)] *)
Definition is_Exception (e : exn) : bool :=
  match e with
  | Raised b _ => b
  | _ => true
  end.

Inductive result (A : Type) : Type :=
| Ok (a : A)
| Raise (e : exn).
Arguments Ok {A} a.
Arguments Raise {A} e.

Definition rbind {A B} (r : result A) (k : A -> result B) : result B :=
  match r with
  | Ok a => k a
  | Raise e => Raise e
  end.

Declare Scope result_scope.
Delimit Scope result_scope with result.
Notation "x <- r ;; k" := (rbind r (fun x => k))
  (at level 61, r at next level, right associativity) : result_scope.

(** ** Displayed text *)

(** What [str()] and f-strings produce.  The text of a string, an int, a
    bool or [None] is computed; the text Python prints for a float, a list,
    a dict or an exception is kept as a reference to the object. *)
Inductive piece : Type :=
| Lit (s : string)
| Repr (v : PyVal)
| ExnStr (e : exn).

Definition text := list piece.

(** [str(z)] for an int *)
Definition str_int (z : Z) : string := NilZero.string_of_int (Z.to_int z).

(** [str(v)] *)
Definition py_str (v : PyVal) : text :=
  match v with
  | PyNone => [Lit "None"]
  | PyBool true => [Lit "True"]
  | PyBool false => [Lit "False"]
  | PyInt z => [Lit (str_int z)]
  | PyStr s => [Lit s]
  | PyFloat _ | PyList _ | PyDict _ => [Repr v]
  end.

(** [str(p)] for an attribute that holds [None] or a string *)
Definition str_path (p : option string) : string :=
  match p with
  | None => "None"
  | Some s => s
  end.

(** ** Dict and sequence operations *)

Fixpoint assoc (k : string) (d : list (string * PyVal)) : option PyVal :=
  match d with
  | [] => None
  | (k', v) :: d' => if String.eqb k k' then Some v else assoc k d'
  end.

(** [k in d] for a dict [d] *)
Definition has_key (k : string) (d : list (string * PyVal)) : bool :=
  match assoc k d with
  | Some _ => true
  | None => false
  end.

(** [d.get(k, default)] for a dict [d] *)
Definition dict_get (d : list (string * PyVal)) (k : string) (default : PyVal) : PyVal :=
  match assoc k d with
  | Some v => v
  | None => default
  end.

(** The receiver of a [.get(...)] call: only a dict has the method. *)
Definition as_dict (v : PyVal) : result (list (string * PyVal)) :=
  match v with
  | PyDict d => Ok d
  | _ => Raise (AttributeError v "get")
  end.

(** [v[k]] with a string key *)
Definition py_getitem (v : PyVal) (k : string) : result PyVal :=
  match v with
  | PyDict d =>
      match assoc k d with
      | Some x => Ok x
      | None => Raise (KeyError k)
      end
  | _ => Raise (TypeError v)
  end.

Fixpoint chars (s : string) : list PyVal :=
  match s with
  | EmptyString => []
  | String c s' => PyStr (String c EmptyString) :: chars s'
  end.

(** The items a [for] loop takes from [v]: the elements of a list, the keys
    of a dict, the characters of a string; the other objects are not
    iterable. *)
Definition py_iter (v : PyVal) : result (list PyVal) :=
  match v with
  | PyList l => Ok l
  | PyDict d => Ok (map (fun kv => PyStr (fst kv)) d)
  | PyStr s => Ok (chars s)
  | _ => Raise (TypeError v)
  end.

(** ** [os.path], POSIX flavour *)

Module posixpath.

Definition sep : ascii := "/"%char.
Definition extsep : ascii := "."%char.

(** [s.rfind(c)], [None] for -1 *)
Fixpoint rfind (c : ascii) (s : string) : option nat :=
  match s with
  | EmptyString => None
  | String a s' =>
      match rfind c s' with
      | Some i => Some (S i)
      | None => if Ascii.eqb a c then Some 0 else None
      end
  end.

(** [s[:i]] and [s[i:]] *)
Definition take (i : nat) (s : string) : string := substring 0 i s.
Definition drop (i : nat) (s : string) : string := substring i (String.length s - i) s.

(** [i = p.rfind(sep) + 1] *)
Definition after_sep (p : string) : nat :=
  match rfind sep p with
  | Some i => S i
  | None => 0
  end.

Fixpoint all_char (c : ascii) (s : string) : bool :=
  match s with
  | EmptyString => true
  | String a s' => Ascii.eqb a c && all_char c s'
  end.

(** [s.rstrip(c)] *)
Fixpoint rstrip (c : ascii) (s : string) : string :=
  match s with
  | EmptyString => EmptyString
  | String a s' =>
      match rstrip c s' with
      | EmptyString => if Ascii.eqb a c then EmptyString else String a EmptyString
      | r => String a r
      end
  end.

Definition basename (p : string) : string := drop (after_sep p) p.

(** [head = p[:i]; if head and head != sep*len(head): head = head.rstrip(sep)] *)
Definition dirname (p : string) : string :=
  let head := take (after_sep p) p in
  if negb (String.eqb head "") && negb (all_char sep head)
  then rstrip sep head
  else head.

(** [genericpath._splitext]: the extension starts at the last dot of the
    last component, unless only dots come before it. *)
Definition splitext (p : string) : string * string :=
  match rfind extsep p with
  | Some dotIndex =>
      let filenameIndex := after_sep p in
      if (filenameIndex <=? dotIndex)%nat
         && negb (all_char extsep (substring filenameIndex (dotIndex - filenameIndex) p))
      then (take dotIndex p, drop dotIndex p)
      else (p, "")
  | None => (p, "")
  end.

Definition startswith_sep (s : string) : bool :=
  match s with
  | String a _ => Ascii.eqb a sep
  | EmptyString => false
  end.

Fixpoint endswith_sep (s : string) : bool :=
  match s with
  | EmptyString => false
  | String a EmptyString => Ascii.eqb a sep
  | String _ s' => endswith_sep s'
  end.

(** [join(a, b)] *)
Definition join (a b : string) : string :=
  if startswith_sep b then b
  else if String.eqb a "" || endswith_sep a then a ++ b
  else a ++ String sep b.

End posixpath.

(** [os.path.basename(v)]: the argument must be a string. *)
Definition os_path_basename (v : PyVal) : result string :=
  match v with
  | PyStr s => Ok (posixpath.basename s)
  | _ => Raise (TypeError v)
  end.

(** ** The window *)

Inductive level : Type := INFO | ERROR.

(** [showerror] / [QMessageBox.critical] and [showinfo] /
    [QMessageBox.information] *)
Inductive dialog_kind : Type := Critical | Information.

Record dialog : Type := mk_dialog {
  dialog_kind_of : dialog_kind;
  dialog_title : string;
  dialog_text : text
}.

(** The attributes and widgets of [DocumentExtractionUI], over the type [R]
    of a row of the results tree.  [log_text] and [dialogs] list what was
    appended and shown, oldest first; [progress_set] lists every value
    given to the progress bar, oldest first, and [progress_bar] is the last
    of them. *)
Record ui (R : Type) : Type := mk_ui {
  input_file_path : option string;
  output_file_path : option string;
  input_file_entry : string;
  output_file_entry : string;
  selected_model : string;
  use_8bit : bool;
  start_button : bool;
  stop_button : bool;
  progress_bar : Z;
  progress_set : list Z;
  results_tree : list R;
  log_text : list (level * text);
  dialogs : list dialog
}.
Arguments mk_ui {R}.
Arguments input_file_path {R}.
Arguments output_file_path {R}.
Arguments input_file_entry {R}.
Arguments output_file_entry {R}.
Arguments selected_model {R}.
Arguments use_8bit {R}.
Arguments start_button {R}.
Arguments stop_button {R}.
Arguments progress_bar {R}.
Arguments progress_set {R}.
Arguments results_tree {R}.
Arguments log_text {R}.
Arguments dialogs {R}.

(** A window that has all its attributes, with the values the statements
    of [__init__] and of the [create_*] methods give them: no file chosen,
    the first model, the checkbox ticked, Start enabled, Stop disabled, no
    progress, no rows.  It is the window a constructor would build that
    ran all these statements; [__init__] as written does not ([new_window]
    below), so [initial] serves as a sample of the windows the handlers
    are taken on, and nothing is said to be reached from it. *)
Definition initial {R} : ui R :=
  mk_ui None None "" "" "mistralai/Mistral-7B-Instruct-v0.2" true
        true false 0%Z [] [] [] [].

(** *** Building the window *)

(** What a statement of [__init__], or of a method it calls, does with an
    attribute of [self]: it assigns it or it reads it. *)
Inductive access : Type :=
| Assign (attr : string)
| Use (attr : string).

(** The statements run in order on an object that has the attributes
    [has] (at first those of its class): an assignment gives the object
    the attribute, the read of an attribute it has not raises
    [AttributeError]. *)
Fixpoint construct (body : list access) (has : list string) : result (list string) :=
  match body with
  | [] => Ok has
  | Assign attr :: rest => construct rest (attr :: has)
  | Use attr :: rest =>
      if existsb (String.eqb attr) has then construct rest has
      else Raise (NoAttribute attr)
  end.

Section Setters.
Context {R : Type}.

Definition set_input (p : string) (w : ui R) : ui R :=
  mk_ui (Some p) (output_file_path w) p (output_file_entry w)
        (selected_model w) (use_8bit w) (start_button w) (stop_button w)
        (progress_bar w) (progress_set w) (results_tree w) (log_text w) (dialogs w).

Definition set_output (p : string) (w : ui R) : ui R :=
  mk_ui (input_file_path w) (Some p) (input_file_entry w) p
        (selected_model w) (use_8bit w) (start_button w) (stop_button w)
        (progress_bar w) (progress_set w) (results_tree w) (log_text w) (dialogs w).

Definition set_start_enabled (b : bool) (w : ui R) : ui R :=
  mk_ui (input_file_path w) (output_file_path w) (input_file_entry w) (output_file_entry w)
        (selected_model w) (use_8bit w) b (stop_button w)
        (progress_bar w) (progress_set w) (results_tree w) (log_text w) (dialogs w).

Definition set_stop_enabled (b : bool) (w : ui R) : ui R :=
  mk_ui (input_file_path w) (output_file_path w) (input_file_entry w) (output_file_entry w)
        (selected_model w) (use_8bit w) (start_button w) b
        (progress_bar w) (progress_set w) (results_tree w) (log_text w) (dialogs w).

(** [progress_var.set(value)] / [progress_bar.setValue(value)] *)
Definition update_progress (value : Z) (w : ui R) : ui R :=
  mk_ui (input_file_path w) (output_file_path w) (input_file_entry w) (output_file_entry w)
        (selected_model w) (use_8bit w) (start_button w) (stop_button w)
        value (progress_set w ++ [value]) (results_tree w) (log_text w) (dialogs w).

Definition set_results_tree (rows : list R) (w : ui R) : ui R :=
  mk_ui (input_file_path w) (output_file_path w) (input_file_entry w) (output_file_entry w)
        (selected_model w) (use_8bit w) (start_button w) (stop_button w)
        (progress_bar w) (progress_set w) rows (log_text w) (dialogs w).

(** What the window's logging handler does with a record. *)
Definition append_log (lv : level) (msg : text) (w : ui R) : ui R :=
  mk_ui (input_file_path w) (output_file_path w) (input_file_entry w) (output_file_entry w)
        (selected_model w) (use_8bit w) (start_button w) (stop_button w)
        (progress_bar w) (progress_set w) (results_tree w) (log_text w ++ [(lv, msg)]) (dialogs w).

Definition message_box (k : dialog_kind) (title : string) (msg : text) (w : ui R) : ui R :=
  mk_ui (input_file_path w) (output_file_path w) (input_file_entry w) (output_file_entry w)
        (selected_model w) (use_8bit w) (start_button w) (stop_button w)
        (progress_bar w) (progress_set w) (results_tree w) (log_text w)
        (dialogs w ++ [mk_dialog k title msg]).

(** [update_selected_model] and a click on the quantization checkbox *)
Definition update_selected_model (model_name : string) (w : ui R) : ui R :=
  mk_ui (input_file_path w) (output_file_path w) (input_file_entry w) (output_file_entry w)
        model_name (use_8bit w) (start_button w) (stop_button w)
        (progress_bar w) (progress_set w) (results_tree w) (log_text w) (dialogs w).

Definition toggle_use_8bit (w : ui R) : ui R :=
  mk_ui (input_file_path w) (output_file_path w) (input_file_entry w) (output_file_entry w)
        (selected_model w) (negb (use_8bit w)) (start_button w) (stop_button w)
        (progress_bar w) (progress_set w) (results_tree w) (log_text w) (dialogs w).

(** [clear_results]: empty the tree, reset the progress bar. *)
Definition clear_results (w : ui R) : ui R :=
  update_progress 0 (set_results_tree [] w).

(** [browse_input_file], the same in both front-ends; [file_path] is what
    the file dialog returned, empty when it was cancelled. *)
Definition browse_input_file (file_path : string) (w : ui R) : ui R :=
  if negb (String.eqb file_path "") then
    let w := set_input file_path w in
    if String.eqb (output_file_entry w) "" then
      let output_dir := posixpath.dirname file_path in
      let input_name := fst (posixpath.splitext (posixpath.basename file_path)) in
      let output_path := posixpath.join output_dir (input_name ++ "_results.xlsx") in
      set_output output_path w
    else w
  else w.

End Setters.

(** [not p] for an attribute that holds [None] or a string *)
Definition path_unset (p : option string) : bool :=
  match p with
  | None => true
  | Some s => String.eqb s ""
  end.

(** ** The worker's effects *)

(** What is done to a widget, by the thread that does it or by a callback
    handed to the UI thread.  [CallbackRaises] is a callback that raises
    before it reaches any widget: the toolkit reports the exception and
    goes on, and the window stays as it is. *)
Inductive widget_op : Type :=
| SetStartEnabled (b : bool)
| SetStopEnabled (b : bool)
| SetProgress (value : Z)
| UpdateResultsTree (results : PyVal)
| AppendLog (lv : level) (msg : text)
| MessageBox (k : dialog_kind) (title : string) (msg : text)
| ProcessEvents
| CallbackRaises (e : exn).

Inductive call : Type :=
| NewLocalLLMProcessor (model_name : string) (use_8bit_arg : option bool)
| NewDataProcessor
| ProcessExcel (path : option string)
| ExportToExcel (results : PyVal) (path : option string).

(** One step of the worker: a widget call made on the worker thread itself
    ([Direct]), a widget call handed to the UI thread ([Posted]:
    [root.after(0, ...)], a signal's [emit], a log record), or a call of an
    external collaborator. *)
Inductive effect : Type :=
| Direct (op : widget_op)
| Posted (op : widget_op)
| Extern (c : call).

(** The external collaborators and the file system. *)
Record Env : Type := mk_env {
  llm : Type;
  dp : Type;
  LocalLLMProcessor : string -> option bool -> result llm;
  DataProcessor : llm -> result dp;
  process_excel : dp -> option string -> result PyVal;
  export_to_excel : PyVal -> option string -> result PyVal;
  os_path_exists : string -> bool
}.

(** The worker monad: the effects so far, and a value or an exception. *)
Definition W (A : Type) : Type := (list effect * result A)%type.

Definition wret {A} (a : A) : W A := ([], Ok a).

Definition wbind {A B} (m : W A) (k : A -> W B) : W B :=
  match m with
  | (t, Ok a) => let '(t', r) := k a in (t ++ t', r)
  | (t, Raise e) => (t, Raise e)
  end.

Definition tell (e : effect) : W unit := ([e], Ok tt).
Definition extern {A} (c : call) (r : result A) : W A := ([Extern c], r).
Definition lift {A} (r : result A) : W A := ([], r).

Declare Scope worker_scope.
Delimit Scope worker_scope with worker.
Notation "x <- m ;; k" := (wbind m (fun x => k))
  (at level 61, m at next level, right associativity) : worker_scope.
Notation "m ;; k" := (wbind m (fun _ => k))
  (at level 61, right associativity) : worker_scope.

(** [logging.info] and [logging.error]: the window's handler hands the
    record to the UI thread. *)
Definition logging_info (msg : text) : W unit := tell (Posted (AppendLog INFO msg)).
Definition logging_error (msg : text) : W unit := tell (Posted (AppendLog ERROR msg)).

(** ** One document result *)

(** The branch both [update_results_tree] share: the value and confidence
    to show for the document result [d]. *)
Definition doc_cells (d : list (string * PyVal)) : result (PyVal * PyVal) :=
  (if py_truthy (dict_get d "success" (PyBool false)) && has_key "extraction" d then
     extraction <- py_getitem (PyDict d) "extraction" ;;
     e <- as_dict extraction ;;
     let value := dict_get e "value" (PyStr "N/A") in
     let found := dict_get e "found" (PyBool false) in
     let confidence :=
       if has_key "confidence" e then dict_get e "confidence" (PyStr "N/A")
       else PyStr "N/A" in
     Ok (value, confidence)
   else
     let error := dict_get d "error" (PyStr "Extraction failed") in
     Ok (PyStr "ERROR", PyStr "N/A"))%result.

(** ** The two loops of [update_results_tree] *)

(** Both front-ends run the same nested loops; they differ in the row they
    build for a document result, [doc_row]. *)
Section Loops.
Context {R : Type}.
Variable doc_row : Z -> PyVal -> PyVal -> result R.

(** The inner loop: the rows of the tree and the counter are passed along;
    an exception leaves the rows inserted so far. *)
Fixpoint insert_docs (element_name : PyVal) (docs : list PyVal)
         (row_id : Z) (rows : list R) : list R * result Z :=
  match docs with
  | [] => (rows, Ok row_id)
  | doc_result :: rest =>
      match doc_row row_id element_name doc_result with
      | Ok r => insert_docs element_name rest (row_id + 1)%Z (rows ++ [r])
      | Raise e => (rows, Raise e)
      end
  end.

(** What the outer loop reads from one element result. *)
Definition element_parts (element_result : PyVal) : result (PyVal * list PyVal) :=
  (e <- as_dict element_result ;;
   let element_name := dict_get e "element_name" (PyStr "") in
   docs <- py_iter (dict_get e "document_results" (PyList [])) ;;
   Ok (element_name, docs))%result.

Fixpoint insert_elements (elements : list PyVal)
         (row_id : Z) (rows : list R) : list R * result Z :=
  match elements with
  | [] => (rows, Ok row_id)
  | element_result :: rest =>
      match element_parts element_result with
      | Ok (element_name, docs) =>
          match insert_docs element_name docs row_id rows with
          | (rows', Ok row_id') => insert_elements rest row_id' rows'
          | (rows', Raise e) => (rows', Raise e)
          end
      | Raise e => (rows, Raise e)
      end
  end.

(** The [try] block: [row_id = 1], then the loops over
    [results.get("results", [])]. *)
Definition fill_tree (results : PyVal) : list R * result Z :=
  match (d <- as_dict results ;; py_iter (dict_get d "results" (PyList [])))%result with
  | Ok elements => insert_elements elements 1%Z []
  | Raise e => ([], Raise e)
  end.

End Loops.

(** ** The two threads *)

(** Whose turn it is: the worker performs its next effect, or the UI
    thread runs the callback that has been pending longest. *)
Inductive turn : Type :=
| WorkerTurn
| UiTurn.

(** ** The Tkinter front-end *)

Module Tk.

(** A row of the [ttk.Treeview]: [insert("", "end", text=..., values=(...))]. *)
Record row : Type := mk_row {
  row_text : string;
  row_element : PyVal;
  row_document : string;
  row_value : PyVal;
  row_confidence : PyVal
}.

(** The body of the inner loop of [update_results_tree]: the row inserted
    for [doc_result] when the counter is [row_id]. *)
Definition doc_row (row_id : Z) (element_name doc_result : PyVal) : result row :=
  (d <- as_dict doc_result ;;
   doc_path <- os_path_basename (dict_get d "document_path" (PyStr "")) ;;
   cells <- doc_cells d ;;
   Ok (mk_row (str_int row_id) element_name doc_path (fst cells) (snd cells)))%result.

(** [update_results_tree]: the tree is emptied, then filled; every
    exception the filling can raise is an [Exception], and is logged.  The
    window given is the one with the record in the log; when other
    callbacks are pending the record comes behind them ([run_op] below). *)
Definition update_results_tree (results : PyVal) (w : ui row) : ui row :=
  let w := set_results_tree [] w in
  let '(rows, r) := fill_tree doc_row results in
  let w := set_results_tree rows w in
  match r with
  | Ok _ => w
  | Raise e => append_log ERROR [Lit "Error updating results tree: "; ExnStr e] w
  end.

(** [browse_output_file]: the dialog adds the default extension itself. *)
Definition browse_output_file (file_path : string) (w : ui row) : ui row :=
  if negb (String.eqb file_path "") then set_output file_path w else w.

(** [start_processing]: the new state, and whether a thread was started. *)
Definition start_processing (E : Env) (w : ui row) : ui row * bool :=
  if path_unset (input_file_path w)
     || negb (os_path_exists E (str_path (input_file_path w))) then
    (append_log ERROR [Lit "Input file not found or not specified"] w, false)
  else if path_unset (output_file_path w) then
    (append_log ERROR [Lit "Output file not specified"] w, false)
  else
    let w := set_start_enabled false w in
    let w := set_stop_enabled true w in
    let w := update_progress 0 w in
    let w := clear_results w in
    (w, true).

(** The [try] block of [process_data]; [self.update_progress] is called on
    the worker thread, the other widget calls go through [root.after]. *)
Definition process_data_try (E : Env) (w : ui row) : W unit :=
  (let model_name := selected_model w in
   logging_info [Lit "Initializing LLM processor with model: "; Lit model_name] ;;
   tell (Direct (SetProgress 10)) ;;
   llm_processor <- extern (NewLocalLLMProcessor model_name None)
                           (LocalLLMProcessor E model_name None) ;;
   logging_info [Lit "Initializing data processor"] ;;
   tell (Direct (SetProgress 20)) ;;
   data_processor <- extern NewDataProcessor (DataProcessor E llm_processor) ;;
   logging_info [Lit "Processing Excel file: "; Lit (str_path (input_file_path w))] ;;
   tell (Direct (SetProgress 30)) ;;
   results <- extern (ProcessExcel (input_file_path w))
                     (process_excel E data_processor (input_file_path w)) ;;
   success <- lift (py_getitem results "success") ;;
   if negb (py_truthy success) then
     d <- lift (as_dict results) ;;
     let error_msg := dict_get d "error" (PyStr "Unknown error") in
     logging_error (Lit "Failed to process Excel file: " :: py_str error_msg) ;;
     tell (Posted (MessageBox Critical "Processing Error"
                              (Lit "Failed to process Excel file: " :: py_str error_msg))) ;;
     tell (Direct (SetProgress 0)) ;;
     tell (Posted (SetStartEnabled true)) ;;
     tell (Posted (SetStopEnabled false)) ;;
     wret tt
   else
     tell (Direct (SetProgress 80)) ;;
     tell (Posted (UpdateResultsTree results)) ;;
     logging_info [Lit "Exporting results to: "; Lit (str_path (output_file_path w))] ;;
     export_success <- extern (ExportToExcel results (output_file_path w))
                              (export_to_excel E results (output_file_path w)) ;;
     (if negb (py_truthy export_success) then
        logging_error [Lit "Failed to export results"] ;;
        tell (Posted (MessageBox Critical "Export Error"
                                 [Lit "Failed to export results to Excel file"]))
      else
        logging_info [Lit "Processing completed successfully"] ;;
        tell (Posted (MessageBox Information "Success"
                [Lit "Processing completed successfully. Results exported to ";
                 Lit (str_path (output_file_path w))]))) ;;
     tell (Direct (SetProgress 100)))%worker.

(** The [except Exception] clause.  The record is logged in the clause.
    The dialog is left to a posted callback, [lambda: showerror(...,
    f"An error occurred: {str(e)}")], which reads [e] when the UI thread
    runs it; by then the clause has ended and unbound its [e], so the
    callback raises [NameError] before it reaches [showerror], and no
    dialog is shown. *)
Definition process_data_except (e : exn) : list effect :=
  if is_Exception e then
    [Posted (AppendLog ERROR [Lit "Error in processing thread: "; ExnStr e]);
     Posted (CallbackRaises (NameError "e"))]
  else [].

(** The [finally] clause. *)
Definition process_data_finally : list effect :=
  [Posted (SetStartEnabled true); Posted (SetStopEnabled false)].

(** [process_data]: everything the worker does, in program order. *)
Definition process_data (E : Env) (w : ui row) : list effect :=
  let '(t, r) := process_data_try E w in
  t ++ match r with
       | Ok _ => []
       | Raise e => process_data_except e
       end
    ++ process_data_finally.

Definition apply_op (op : widget_op) (w : ui row) : ui row :=
  match op with
  | SetStartEnabled b => set_start_enabled b w
  | SetStopEnabled b => set_stop_enabled b w
  | SetProgress v => update_progress v w
  | UpdateResultsTree results => update_results_tree results w
  | AppendLog lv msg => append_log lv msg w
  | MessageBox k title msg => message_box k title msg w
  | ProcessEvents => w
  | CallbackRaises _ => w
  end.

(** What a thread that runs [op] does to the window at once, and the
    records it logs.  In this front-end no record is appended by the thread
    that logs it: [TextHandler.emit] hands the record to
    [text_widget.after(0, ...)], so it joins the pending callbacks and is
    appended when its turn comes.  Of the widget calls only
    [update_results_tree] logs. *)
Definition run_op (op : widget_op) (w : ui row) : ui row * list widget_op :=
  match op with
  | UpdateResultsTree results =>
      let '(rows, r) := fill_tree doc_row results in
      (set_results_tree rows (set_results_tree [] w),
       match r with
       | Ok _ => []
       | Raise e => [AppendLog ERROR [Lit "Error updating results tree: "; ExnStr e]]
       end)
  | _ => (apply_op op w, [])
  end.

(** A turn of the worker: it makes a direct call itself, puts a callback
    behind the pending ones, or calls a collaborator. *)
Definition worker_step (e : effect) (pending : list widget_op) (w : ui row)
  : list widget_op * ui row :=
  match e with
  | Direct op => let '(w', logged) := run_op op w in (pending ++ logged, w')
  | Posted op => (pending ++ [op], w)
  | Extern _ => (pending, w)
  end.

(** A turn of the UI thread: it runs the first pending callback, if there
    is one. *)
Definition ui_step (pending : list widget_op) (w : ui row) : list widget_op * ui row :=
  match pending with
  | [] => ([], w)
  | op :: rest => let '(w', logged) := run_op op w in (rest ++ logged, w')
  end.

(** The two threads take turns as [sched] says, on the effects [t] the
    worker has still to perform and the callbacks pending. *)
Fixpoint take_turns (sched : list turn) (t : list effect) (pending : list widget_op)
         (w : ui row) : list effect * list widget_op * ui row :=
  match sched with
  | [] => (t, pending, w)
  | WorkerTurn :: sched' =>
      match t with
      | [] => take_turns sched' [] pending w
      | e :: t' =>
          let '(pending', w') := worker_step e pending w in
          take_turns sched' t' pending' w'
      end
  | UiTurn :: sched' =>
      let '(pending', w') := ui_step pending w in
      take_turns sched' t pending' w'
  end.

(** The worker runs to its end. *)
Fixpoint finish (t : list effect) (pending : list widget_op) (w : ui row)
  : list widget_op * ui row :=
  match t with
  | [] => (pending, w)
  | e :: t' =>
      let '(pending', w') := worker_step e pending w in
      finish t' pending' w'
  end.

(** The UI thread runs the callbacks of [pending] in their order; the
    result is the window and the records they logged. *)
Fixpoint run_pending (pending : list widget_op) (w : ui row) : ui row * list widget_op :=
  match pending with
  | [] => (w, [])
  | op :: rest =>
      let '(w', logged) := run_op op w in
      let '(w'', later) := run_pending rest w' in
      (w'', logged ++ later)
  end.

(** The UI thread runs all that is pending: the callbacks, then the
    records they logged, which came behind them (appending a record logs
    nothing). *)
Definition drain (pending : list widget_op) (w : ui row) : ui row :=
  let '(w', logged) := run_pending pending w in
  fst (run_pending logged w').

(** The window once every effect of the trace [t] has reached it, the
    window being [w] when the worker starts and no callback pending: the
    threads take turns as [sched] says, then the worker runs to its end,
    then the UI thread runs what is pending.  Every way the two threads
    can interleave is a [sched]. *)
Definition deliver (sched : list turn) (t : list effect) (w : ui row) : ui row :=
  let '(t', pending, w') := take_turns sched t [] w in
  let '(pending', w'') := finish t' pending w' in
  drain pending' w''.

(** The output entry is a plain [ttk.Entry] with nothing bound to it: the
    user can type in it, and that changes its text and nothing else. *)
Definition edit_output_entry (text : string) (w : ui row) : ui row :=
  mk_ui (input_file_path w) (output_file_path w) (input_file_entry w) text
        (selected_model w) (use_8bit w) (start_button w) (stop_button w)
        (progress_bar w) (progress_set w) (results_tree w) (log_text w) (dialogs w).

(** *** [__init__] *)

(** The attributes every window has from its class: the methods of [DocumentExtractionUI]. *)
Definition class_attributes : list string :=
  ["create_input_frame"; "create_model_selection_frame";
   "create_log_frame"; "create_results_frame"; "create_button_frame";
   "browse_input_file"; "browse_output_file"; "update_progress";
   "update_results_tree"; "start_processing"; "process_data";
   "stop_processing"; "clear_results"].

(** [create_input_frame], lines 45 to 60 of [extraction-system-ui.py] *)
Definition create_input_frame : list access :=
  [Use "main_frame"; Assign "input_file_entry"; Use "input_file_entry";
   Use "browse_input_file"; Assign "output_file_entry";
   Use "output_file_entry"; Use "browse_output_file"].

(** [create_model_selection_frame], lines 62 to 86 of [extraction-system-ui.py] *)
Definition create_model_selection_frame : list access :=
  [Use "main_frame"; Use "selected_model"; Assign "use_8bit";
   Use "use_8bit"].

(** [create_log_frame], lines 88 to 120 of [extraction-system-ui.py] *)
Definition create_log_frame : list access :=
  [Use "main_frame"; Assign "log_text"; Use "log_text"; Use "log_text";
   Use "log_text"].

(** [create_results_frame], lines 122 to 147 of [extraction-system-ui.py] *)
Definition create_results_frame : list access :=
  [Use "main_frame"; Assign "results_tree"; Use "results_tree";
   Use "results_tree"; Use "results_tree"; Use "results_tree";
   Use "results_tree"; Use "results_tree"; Use "results_tree";
   Use "results_tree"; Use "results_tree"; Use "results_tree";
   Use "results_tree"; Use "results_tree"; Use "results_tree"].

(** [create_button_frame], lines 149 to 167 of [extraction-system-ui.py] *)
Definition create_button_frame : list access :=
  [Use "main_frame"; Assign "progress_var"; Use "progress_var";
   Assign "progress_bar"; Use "progress_bar"; Use "start_processing";
   Assign "start_button"; Use "start_button"; Use "stop_processing";
   Assign "stop_button"; Use "stop_button"; Use "clear_results";
   Use "root"].

(** [__init__]: the root window and the main frame, the five frames, then the state variables. *)
Definition init_body : list access :=
  [Assign "root"; Use "root"; Use "root"; Assign "main_frame"; Use "main_frame"]
  ++ create_input_frame ++ create_model_selection_frame ++ create_log_frame
  ++ create_results_frame ++ create_button_frame
  ++ [Assign "input_file_path";
      Assign "output_file_path";
      Assign "selected_model";
      Assign "processing_thread";
      Assign "llm_processor";
      Assign "data_processor"].

(** The window [DocumentExtractionUI(root)] builds, or the exception that ends it. *)
Definition new_window : result (ui row) :=
  (_ <- construct init_body class_attributes ;; Ok initial)%result.

End Tk.

(** ** The PyQt6 front-end *)

Module Qt.

(** A [QTreeWidgetItem]: the text of its five columns. *)
Record row : Type := mk_row {
  row_text : string;
  row_element : string;
  row_document : string;
  row_value : text;
  row_confidence : text
}.

(** A Python object passed where Qt expects a [QString]: a string, or
    [None] for the null string; anything else is a [TypeError]. *)
Definition qstring (v : PyVal) : result string :=
  match v with
  | PyStr s => Ok s
  | PyNone => Ok ""
  | _ => Raise (TypeError v)
  end.

(** The body of the inner loop of [update_results_tree]: the item added
    for [doc_result] when the counter is [row_id]. *)
Definition doc_row (row_id : Z) (element_name doc_result : PyVal) : result row :=
  (d <- as_dict doc_result ;;
   doc_path <- os_path_basename (dict_get d "document_path" (PyStr "")) ;;
   element_text <- qstring element_name ;;
   cells <- doc_cells d ;;
   Ok (mk_row (str_int row_id) element_text doc_path
              (py_str (fst cells)) (py_str (snd cells))))%result.

(** [update_results_tree] *)
Definition update_results_tree (results : PyVal) (w : ui row) : ui row :=
  let w := set_results_tree [] w in
  let '(rows, r) := fill_tree doc_row results in
  let w := set_results_tree rows w in
  match r with
  | Ok _ => w
  | Raise e => append_log ERROR [Lit "Error updating results tree: "; ExnStr e] w
  end.

(** [c.lower()] on the letters A to Z *)
Definition lower_ascii (c : ascii) : ascii :=
  let n := nat_of_ascii c in
  if ((65 <=? n) && (n <=? 90))%nat then ascii_of_nat (n + 32) else c.

Fixpoint lower (s : string) : string :=
  match s with
  | EmptyString => EmptyString
  | String c s' => String (lower_ascii c) (lower s')
  end.

(** [s.endswith(suffix)] *)
Definition endswith (s suffix : string) : bool :=
  (String.length suffix <=? String.length s)%nat
  && String.eqb (substring (String.length s - String.length suffix)
                           (String.length suffix) s) suffix.

(** [browse_output_file]: a name without the extension gets it. *)
Definition browse_output_file (file_path : string) (w : ui row) : ui row :=
  if negb (String.eqb file_path "") then
    let file_path :=
      if negb (endswith (lower file_path) ".xlsx") then (file_path ++ ".xlsx")%string
      else file_path in
    set_output file_path w
  else w.

(** [start_processing]: the new state, and whether a thread was started. *)
Definition start_processing (E : Env) (w : ui row) : ui row * bool :=
  if path_unset (input_file_path w)
     || negb (os_path_exists E (str_path (input_file_path w))) then
    let w := append_log ERROR [Lit "Input file not found or not specified"] w in
    (message_box Critical "Input Error" [Lit "Please select a valid input Excel file"] w,
     false)
  else if path_unset (output_file_path w) then
    let w := append_log ERROR [Lit "Output file not specified"] w in
    (message_box Critical "Output Error" [Lit "Please specify an output Excel file"] w,
     false)
  else
    let w := set_start_enabled false w in
    let w := set_stop_enabled true w in
    let w := update_progress 0 w in
    let w := clear_results w in
    (w, true).

(** The [try] block of [process_data]: [progress_update.emit] is a signal,
    the other widget calls are made on the worker thread. *)
Definition process_data_try (E : Env) (w : ui row) : W unit :=
  (let model_name := selected_model w in
   logging_info [Lit "Initializing LLM processor with model: "; Lit model_name] ;;
   tell (Posted (SetProgress 10)) ;;
   let use_8bit := use_8bit w in
   llm_processor <- extern (NewLocalLLMProcessor model_name (Some use_8bit))
                           (LocalLLMProcessor E model_name (Some use_8bit)) ;;
   logging_info [Lit "Initializing data processor"] ;;
   tell (Posted (SetProgress 20)) ;;
   data_processor <- extern NewDataProcessor (DataProcessor E llm_processor) ;;
   logging_info [Lit "Processing Excel file: "; Lit (str_path (input_file_path w))] ;;
   tell (Posted (SetProgress 30)) ;;
   results <- extern (ProcessExcel (input_file_path w))
                     (process_excel E data_processor (input_file_path w)) ;;
   success <- lift (py_getitem results "success") ;;
   if negb (py_truthy success) then
     d <- lift (as_dict results) ;;
     let error_msg := dict_get d "error" (PyStr "Unknown error") in
     logging_error (Lit "Failed to process Excel file: " :: py_str error_msg) ;;
     tell (Direct ProcessEvents) ;;
     tell (Direct (MessageBox Critical "Processing Error"
                              (Lit "Failed to process Excel file: " :: py_str error_msg))) ;;
     tell (Posted (SetProgress 0)) ;;
     tell (Direct (SetStartEnabled true)) ;;
     tell (Direct (SetStopEnabled false)) ;;
     wret tt
   else
     tell (Posted (SetProgress 80)) ;;
     tell (Direct ProcessEvents) ;;
     tell (Direct (UpdateResultsTree results)) ;;
     logging_info [Lit "Exporting results to: "; Lit (str_path (output_file_path w))] ;;
     export_success <- extern (ExportToExcel results (output_file_path w))
                              (export_to_excel E results (output_file_path w)) ;;
     (if negb (py_truthy export_success) then
        logging_error [Lit "Failed to export results"] ;;
        tell (Direct (MessageBox Critical "Export Error"
                                 [Lit "Failed to export results to Excel file"]))
      else
        logging_info [Lit "Processing completed successfully"] ;;
        tell (Direct (MessageBox Information "Success"
                [Lit "Processing completed successfully. Results exported to ";
                 Lit (str_path (output_file_path w))]))) ;;
     tell (Posted (SetProgress 100)))%worker.

(** The [except Exception] clause. *)
Definition process_data_except (e : exn) : list effect :=
  if is_Exception e then
    [Posted (AppendLog ERROR [Lit "Error in processing thread: "; ExnStr e]);
     Direct ProcessEvents;
     Direct (MessageBox Critical "Processing Error" [Lit "An error occurred: "; ExnStr e])]
  else [].

(** The [finally] clause. *)
Definition process_data_finally : list effect :=
  [Direct (SetStartEnabled true); Direct (SetStopEnabled false)].

(** [process_data]: everything the worker does, in program order. *)
Definition process_data (E : Env) (w : ui row) : list effect :=
  let '(t, r) := process_data_try E w in
  t ++ match r with
       | Ok _ => []
       | Raise e => process_data_except e
       end
    ++ process_data_finally.

Definition apply_op (op : widget_op) (w : ui row) : ui row :=
  match op with
  | SetStartEnabled b => set_start_enabled b w
  | SetStopEnabled b => set_stop_enabled b w
  | SetProgress v => update_progress v w
  | UpdateResultsTree results => update_results_tree results w
  | AppendLog lv msg => append_log lv msg w
  | MessageBox k title msg => message_box k title msg w
  | ProcessEvents => w
  | CallbackRaises _ => w
  end.

Definition apply_effect (w : ui row) (e : effect) : ui row :=
  match e with
  | Direct op => apply_op op w
  | Posted op => apply_op op w
  | Extern _ => w
  end.

Definition deliver (t : list effect) (w : ui row) : ui row :=
  fold_left apply_effect t w.

(** [stop_processing]; [alive] says whether a thread was started and is
    still running.  Nothing here reaches the worker. *)
Definition stop_processing (alive : bool) (w : ui row) : ui row :=
  if alive then
    let w := append_log INFO [Lit "Processing stopped by user"] w in
    let w := set_stop_enabled false w in
    message_box Information "Processing Stopped"
      [Lit "Processing stop requested. The current operation will terminate after the current document completes."]
      w
  else w.

(** *** [__init__] *)

(** The attributes every window has from its class: the methods and the signal of [DocumentExtractionUI] and the methods of [QMainWindow] it calls. *)
Definition class_attributes : list string :=
  ["create_input_frame"; "create_model_selection_frame";
   "create_log_frame"; "create_results_frame"; "create_button_frame";
   "browse_input_file"; "browse_output_file"; "update_selected_model";
   "update_progress"; "append_log"; "update_results_tree";
   "start_processing"; "process_data"; "stop_processing"; "clear_results";
   "progress_update"; "setWindowTitle"; "setGeometry"; "setCentralWidget";
   "close"].

(** [create_input_frame], lines 78 to 113 of [pyqt6-document-extraction-ui.py] *)
Definition create_input_frame : list access :=
  [Assign "input_file_entry"; Use "input_file_entry";
   Use "browse_input_file"; Use "input_file_entry";
   Assign "output_file_entry"; Use "output_file_entry";
   Use "browse_output_file"; Use "output_file_entry"; Use "main_layout"].

(** [create_model_selection_frame], lines 115 to 152 of [pyqt6-document-extraction-ui.py] *)
Definition create_model_selection_frame : list access :=
  [Assign "model_dropdown"; Use "model_dropdown"; Use "model_dropdown";
   Use "selected_model"; Use "model_dropdown";
   Use "update_selected_model"; Use "model_dropdown";
   Assign "use_8bit_checkbox"; Use "use_8bit_checkbox";
   Use "use_8bit_checkbox"; Use "main_layout"].

(** [create_log_frame], lines 154 to 167 of [pyqt6-document-extraction-ui.py] *)
Definition create_log_frame : list access :=
  [Assign "log_text"; Use "log_text"; Use "log_text"; Use "main_layout"].

(** [create_results_frame], lines 169 to 190 of [pyqt6-document-extraction-ui.py] *)
Definition create_results_frame : list access :=
  [Assign "results_tree"; Use "results_tree"; Use "results_tree";
   Use "results_tree"; Use "results_tree"; Use "results_tree";
   Use "results_tree"; Use "results_tree"; Use "results_tree";
   Use "main_layout"].

(** [create_button_frame], lines 192 to 229 of [pyqt6-document-extraction-ui.py] *)
Definition create_button_frame : list access :=
  [Assign "progress_bar"; Use "progress_bar"; Use "progress_bar";
   Use "progress_bar"; Assign "start_button"; Use "start_button";
   Use "start_processing"; Assign "stop_button"; Use "stop_button";
   Use "stop_processing"; Use "stop_button"; Assign "clear_button";
   Use "clear_button"; Use "clear_results"; Assign "exit_button";
   Use "exit_button"; Use "close"; Use "start_button"; Use "stop_button";
   Use "clear_button"; Use "exit_button"; Use "main_layout"].

(** [__init__]: the central widget and the main layout, the five frames, then the state variables, the signal connection and the log handler. *)
Definition init_body : list access :=
  [Use "setWindowTitle"; Use "setGeometry"; Assign "central_widget"; Use "setCentralWidget"; Use "central_widget"; Use "central_widget"; Assign "main_layout"]
  ++ create_input_frame ++ create_model_selection_frame ++ create_log_frame
  ++ create_results_frame ++ create_button_frame
  ++ [Assign "input_file_path";
      Assign "output_file_path";
      Assign "selected_model";
      Assign "processing_thread";
      Assign "llm_processor";
      Assign "data_processor";
      Use "progress_update";
      Use "update_progress";
      Assign "log_handler";
      Use "log_handler";
      Use "append_log";
      Use "log_handler"].

(** The window [DocumentExtractionUI()] builds, or the exception that ends it. *)
Definition new_window : result (ui row) :=
  (_ <- construct init_body class_attributes ;; Ok initial)%result.

End Qt.

(** ** The shape of an extraction result *)

(** The contract of [process_excel]: [results] is a list of element results,
    each with a list [document_results] of document results; a document
    path is a string; a document result that succeeded carries its
    extraction as a dict.  A missing key stands for its default. *)
Definition wf_doc (doc_result : PyVal) : bool :=
  match doc_result with
  | PyDict d =>
      match dict_get d "document_path" (PyStr "") with
      | PyStr _ => true
      | _ => false
      end
      && (if py_truthy (dict_get d "success" (PyBool false)) then
            match assoc "extraction" d with
            | Some (PyDict _) | None => true
            | Some _ => false
            end
          else true)
  | _ => false
  end.

Definition wf_element (element_result : PyVal) : bool :=
  match element_result with
  | PyDict e =>
      match dict_get e "document_results" (PyList []) with
      | PyList docs => forallb wf_doc docs
      | _ => false
      end
  | _ => false
  end.

Definition wf_results (results : PyVal) : bool :=
  match results with
  | PyDict d =>
      match dict_get d "results" (PyList []) with
      | PyList elements => forallb wf_element elements
      | _ => false
      end
  | _ => false
  end.

(** The element results of a result, the document results of an element
    result and its name. *)
Definition elements_of (results : PyVal) : list PyVal :=
  match results with
  | PyDict d =>
      match dict_get d "results" (PyList []) with
      | PyList elements => elements
      | _ => []
      end
  | _ => []
  end.

Definition docs_of (element_result : PyVal) : list PyVal :=
  match element_result with
  | PyDict e =>
      match dict_get e "document_results" (PyList []) with
      | PyList docs => docs
      | _ => []
      end
  | _ => []
  end.

Definition name_of (element_result : PyVal) : PyVal :=
  match element_result with
  | PyDict e => dict_get e "element_name" (PyStr "")
  | _ => PyStr ""
  end.

(** Every document result with the name of its element, in element order
    then document order. *)
Definition flat_docs (results : PyVal) : list (PyVal * PyVal) :=
  flat_map (fun el => map (pair (name_of el)) (docs_of el)) (elements_of results).

(** The fields of a document result. *)
Definition doc_basename (doc_result : PyVal) : string :=
  match doc_result with
  | PyDict d =>
      match dict_get d "document_path" (PyStr "") with
      | PyStr s => posixpath.basename s
      | _ => ""
      end
  | _ => ""
  end.

Definition doc_success (doc_result : PyVal) : bool :=
  match doc_result with
  | PyDict d => py_truthy (dict_get d "success" (PyBool false))
  | _ => false
  end.

Definition doc_has_extraction (doc_result : PyVal) : bool :=
  match doc_result with
  | PyDict d => has_key "extraction" d
  | _ => false
  end.

(** The value and the confidence of the extraction of a document result
    that has one. *)
Definition doc_extraction (doc_result : PyVal) : PyVal * PyVal :=
  match doc_result with
  | PyDict d =>
      match assoc "extraction" d with
      | Some (PyDict e) => (dict_get e "value" (PyStr "N/A"),
                            dict_get e "confidence" (PyStr "N/A"))
      | _ => (PyNone, PyNone)
      end
  | _ => (PyNone, PyNone)
  end.

(** What the table shows for a document result: its extraction when it
    succeeded and has one, the error marks otherwise. *)
Definition shown_cells (doc_result : PyVal) : PyVal * PyVal :=
  if doc_success doc_result && doc_has_extraction doc_result
  then doc_extraction doc_result
  else (PyStr "ERROR", PyStr "N/A").

(** The name of the element result is a string. *)
Definition qt_name (element_result : PyVal) : bool :=
  match name_of element_result with
  | PyStr _ => true
  | _ => false
  end.

Definition name_text (element_name : PyVal) : string :=
  match element_name with
  | PyStr s => s
  | _ => ""
  end.

(** [rows] are the rows [doc_row] builds for [items], numbered from
    [row_id] on. *)
Fixpoint rows_match {R : Type} (doc_row : Z -> PyVal -> PyVal -> result R)
         (row_id : Z) (items : list (PyVal * PyVal)) (rows : list R) : Prop :=
  match items, rows with
  | [], [] => True
  | (element_name, doc_result) :: items', r :: rows' =>
      doc_row row_id element_name doc_result = Ok r
      /\ rows_match doc_row (row_id + 1)%Z items' rows'
  | _, _ => False
  end.

(** ** Runs *)

(** What the pipeline answers to the worker's three calls. *)
Definition pipeline_answer (E : Env) (model_name : string) (flag : option bool)
           (path : option string) : result PyVal :=
  (llm_processor <- LocalLLMProcessor E model_name flag ;;
   data_processor <- DataProcessor E llm_processor ;;
   process_excel E data_processor path)%result.

(** The answer is a result whose [success] is false. *)
Definition reports_failure (answer : result PyVal) : bool :=
  match answer with
  | Ok results =>
      match py_getitem results "success" with
      | Ok success => negb (py_truthy success)
      | Raise _ => false
      end
  | Raise _ => false
  end.

Definition is_export (e : effect) : bool :=
  match e with
  | Extern (ExportToExcel _ _) => true
  | _ => false
  end.

Definition is_render (e : effect) : bool :=
  match e with
  | Direct (UpdateResultsTree _) | Posted (UpdateResultsTree _) => true
  | _ => false
  end.

(** The values a trace gives to the progress bar, in order. *)
Definition progress_of (e : effect) : list Z :=
  match e with
  | Direct (SetProgress v) | Posted (SetProgress v) => [v]
  | _ => []
  end.

Definition progress_values (t : list effect) : list Z := flat_map progress_of t.

Fixpoint nondecreasing (l : list Z) : Prop :=
  match l with
  | a :: t => match t with
              | b :: _ => (a <= b)%Z /\ nondecreasing t
              | [] => True
              end
  | [] => True
  end.

(** The widgets a click on Start may change are those of [w]. *)
Definition same_widgets {R} (w w' : ui R) : Prop :=
  start_button w' = start_button w
  /\ stop_button w' = stop_button w
  /\ progress_bar w' = progress_bar w
  /\ progress_set w' = progress_set w
  /\ results_tree w' = results_tree w.

(** The effect touches the Start or the Stop button. *)
Definition sets_start (e : effect) : bool :=
  match e with
  | Direct (SetStartEnabled _) | Posted (SetStartEnabled _) => true
  | _ => false
  end.

Definition sets_stop (e : effect) : bool :=
  match e with
  | Direct (SetStopEnabled _) | Posted (SetStopEnabled _) => true
  | _ => false
  end.

(** If the effect touches Start it enables it, and if it touches Stop it
    disables it. *)
Definition restores (e : effect) : bool :=
  match e with
  | Direct (SetStartEnabled b) | Posted (SetStartEnabled b) => b
  | Direct (SetStopEnabled b) | Posted (SetStopEnabled b) => negb b
  | _ => true
  end.

(** The progress values of the worker, by whether the processor reports
    failure: 10, 20, 30 and back to 0, or else the checkpoints up to the
    one the run reaches. *)
Definition worker_progress (failure : bool) (pv : list Z) : Prop :=
  if failure then pv = [10; 20; 30; 0]%Z
  else exists n, 0 < n <= 5 /\ pv = firstn n [10; 20; 30; 80; 100]%Z.

(** The same three tests on a widget call. *)
Definition op_sets_start (op : widget_op) : bool :=
  match op with
  | SetStartEnabled _ => true
  | _ => false
  end.

Definition op_sets_stop (op : widget_op) : bool :=
  match op with
  | SetStopEnabled _ => true
  | _ => false
  end.

Definition op_restores (op : widget_op) : bool :=
  match op with
  | SetStartEnabled b => b
  | SetStopEnabled b => negb b
  | _ => true
  end.

(** The call sets the progress bar, fills the table, appends a record. *)
Definition op_is_progress (op : widget_op) : bool :=
  match op with
  | SetProgress _ => true
  | _ => false
  end.

Definition op_is_render (op : widget_op) : bool :=
  match op with
  | UpdateResultsTree _ => true
  | _ => false
  end.

Definition op_is_record (op : widget_op) : bool :=
  match op with
  | AppendLog _ _ => true
  | _ => false
  end.

(** The effect leaves it to the UI thread to set the progress bar. *)
Definition posts_progress (e : effect) : bool :=
  match e with
  | Posted (SetProgress _) => true
  | _ => false
  end.

(** What is still to come for the buttons while a run is delivered: every
    effect of the worker and every pending callback that touches a button
    enables Start or disables Stop, and each button is already as a
    finished run leaves it or is still to be touched. *)
Definition buttons_to_come {R}
    (t : list effect) (pending : list widget_op) (w : ui R) : Prop :=
  forallb restores t = true
  /\ forallb op_restores pending = true
  /\ (start_button w = true \/ existsb sets_start t = true
      \/ existsb op_sets_start pending = true)
  /\ (stop_button w = false \/ existsb sets_stop t = true
      \/ existsb op_sets_stop pending = true).

(** For the progress bar, when the worker sets it itself: the values set so
    far followed by those of the effects to come are [values], and the last
    of them is [final]. *)
Definition progress_to_come {R} (values : list Z) (final : Z)
    (t : list effect) (pending : list widget_op) (w : ui R) : Prop :=
  existsb posts_progress t = false
  /\ existsb op_is_progress pending = false
  /\ progress_set w ++ progress_values t = values
  /\ last (progress_values t) (progress_bar w) = final.

(** For the table, when nothing fills it: it holds [rows]. *)
Definition no_render_to_come {R} (rows : list R)
    (t : list effect) (pending : list widget_op) (w : ui R) : Prop :=
  existsb is_render t = false
  /\ existsb op_is_render pending = false
  /\ results_tree w = rows.

(** The external calls of a trace, in order. *)
Definition call_of (e : effect) : list call :=
  match e with
  | Extern c => [c]
  | _ => []
  end.

Definition calls_of (t : list effect) : list call := flat_map call_of t.

(** The last result a trace hands to [update_results_tree]. *)
Fixpoint last_render (t : list effect) : option PyVal :=
  match t with
  | [] => None
  | e :: t' =>
      match last_render t' with
      | Some results => Some results
      | None =>
          match e with
          | Direct (UpdateResultsTree results) | Posted (UpdateResultsTree results) =>
              Some results
          | _ => None
          end
      end
  end.

(** The effect reports an error: an ERROR line of the log or an error
    dialog. *)
Definition is_report (e : effect) : bool :=
  match e with
  | Direct (AppendLog ERROR _) | Posted (AppendLog ERROR _) => true
  | Direct (MessageBox Critical _ _) | Posted (MessageBox Critical _ _) => true
  | _ => false
  end.

(** What a click on Stop does to the window, as effects. *)
Definition stop_effects : list effect :=
  [Direct (AppendLog INFO [Lit "Processing stopped by user"]);
   Direct (SetStopEnabled false);
   Direct (MessageBox Information "Processing Stopped"
     [Lit "Processing stop requested. The current operation will terminate after the current document completes."])].

(** The column [col] of [rows] counts from 1, and the counter [row_id] is
    one ahead. *)
Definition numbered {R} (col : R -> string) (rows : list R) (row_id : Z) : Prop :=
  map col rows = map (fun k => str_int (Z.of_nat k)) (seq 1 (length rows))
  /\ row_id = Z.of_nat (S (length rows)).

(** The inputs [start_processing] accepts. *)
Definition valid_inputs {R} (E : Env) (w : ui R) : Prop :=
  exists p o,
    input_file_path w = Some p /\ p <> "" /\ os_path_exists E p = true
    /\ output_file_path w = Some o /\ o <> "".

(** The first test of [start_processing]. *)
Definition input_refused {R} (E : Env) (w : ui R) : bool :=
  path_unset (input_file_path w)
  || negb (os_path_exists E (str_path (input_file_path w))).

(** [w'] is [w] with a run just started: Start disabled, Stop enabled, the
    progress bar at 0, no results, and the rest as in [w]. *)
Definition just_started {R} (w w' : ui R) : Prop :=
  start_button w' = false /\ stop_button w' = true
  /\ progress_bar w' = 0%Z /\ results_tree w' = []
  /\ input_file_path w' = input_file_path w
  /\ output_file_path w' = output_file_path w
  /\ selected_model w' = selected_model w /\ use_8bit w' = use_8bit w
  /\ log_text w' = log_text w /\ dialogs w' = dialogs w.

(** The result the worker goes on with: the answer of the processor when
    its [success] is true. *)
Definition processed (answer : result PyVal) : option PyVal :=
  match answer with
  | Ok results =>
      match py_getitem results "success" with
      | Ok success => if py_truthy success then Some results else None
      | Raise _ => None
      end
  | Raise _ => None
  end.

(** The calls of a run, by what the collaborators answer: the model
    runner is always built; the data processor is built when the runner
    was; [process_excel] is called when the data processor was built; and
    [export_to_excel] is called, on the answer of [process_excel], when
    that answer has a true [success]. *)
Definition calls_made (E : Env) (model_name : string) (flag : option bool)
           (input output : option string) : list call :=
  NewLocalLLMProcessor model_name flag ::
  match LocalLLMProcessor E model_name flag with
  | Raise _ => []
  | Ok llm_processor =>
      NewDataProcessor ::
      match DataProcessor E llm_processor with
      | Raise _ => []
      | Ok data_processor =>
          ProcessExcel input ::
          match processed (process_excel E data_processor input) with
          | Some results => [ExportToExcel results output]
          | None => []
          end
      end
  end.

(** The dialogs a trace shows, in order. *)
Definition dialog_of (e : effect) : list dialog :=
  match e with
  | Direct (MessageBox k title msg) | Posted (MessageBox k title msg) =>
      [mk_dialog k title msg]
  | _ => []
  end.

Definition dialogs_of (t : list effect) : list dialog := flat_map dialog_of t.

(** The records a trace leaves in the log of the PyQt6 window, in order:
    those it appends, and the one [update_results_tree] logs when the
    filling raises. *)
Definition qt_log_of (e : effect) : list (level * text) :=
  match e with
  | Direct (AppendLog lv msg) | Posted (AppendLog lv msg) => [(lv, msg)]
  | Direct (UpdateResultsTree results) | Posted (UpdateResultsTree results) =>
      match snd (fill_tree Qt.doc_row results) with
      | Ok _ => []
      | Raise e => [(ERROR, [Lit "Error updating results tree: "; ExnStr e])]
      end
  | _ => []
  end.

Definition qt_logs (t : list effect) : list (level * text) := flat_map qt_log_of t.

(** The files, the model and the checkbox of [w'] are those of [w]. *)
Definition same_selection {R} (w w' : ui R) : Prop :=
  input_file_path w' = input_file_path w
  /\ output_file_path w' = output_file_path w
  /\ input_file_entry w' = input_file_entry w
  /\ output_file_entry w' = output_file_entry w
  /\ selected_model w' = selected_model w
  /\ use_8bit w' = use_8bit w.

(** The dialog that ends a run whose export returned [export_success]. *)
Definition export_dialog (export_success : PyVal) (output : option string) : dialog :=
  if py_truthy export_success then
    mk_dialog Information "Success"
      [Lit "Processing completed successfully. Results exported to ";
       Lit (str_path output)]
  else
    mk_dialog Critical "Export Error" [Lit "Failed to export results to Excel file"].

(** The log record and the dialog of the [except] clause. *)
Definition exception_log (e : exn) : effect :=
  Posted (AppendLog ERROR [Lit "Error in processing thread: "; ExnStr e]).

Definition exception_dialog (e : exn) : dialog :=
  mk_dialog Critical "Processing Error" [Lit "An error occurred: "; ExnStr e].

(** The values a run that raises has given to the progress bar. *)
Definition stalled (pv : list Z) : Prop :=
  pv = [10]%Z \/ pv = [10; 20]%Z \/ pv = [10; 20; 30]%Z \/ pv = [10; 20; 30; 80]%Z.

(** The entry of the output file shows the stored output path. *)
Definition output_shown {R} (w : ui R) : Prop :=
  match output_file_path w with
  | None => output_file_entry w = ""
  | Some p => output_file_entry w = p /\ p <> ""
  end.

(** *** The suggested output path, in the words of the specification

    The specification names the suggestion by the parts of the input
    path: its directory, and the stem of its file name.  The definitions
    below say what these parts are on the text of the path alone, with no
    use of the functions of [os.path]; the theorems compare them with what
    the handler computes.  Paths are POSIX paths. *)

Section SuggestionInWords.
Local Open Scope string_scope.

(** The character [c] occurs in [s]. *)
Fixpoint occurs (c : ascii) (s : string) : bool :=
  match s with
  | EmptyString => false
  | String a s' => Ascii.eqb a c || occurs c s'
  end.

(** [n] times the character [c]. *)
Fixpoint copies (n : nat) (c : ascii) : string :=
  match n with
  | 0 => EmptyString
  | S n' => String c (copies n' c)
  end.

(** [stem] is the stem of the file name [name]: the name up to its last
    dot; a name with no dot, or with nothing but dots before its last dot,
    is its own stem. *)
Inductive stem_of (name : string) : string -> Prop :=
| stem_before_extension stem ext :
    name = stem ++ "." ++ ext ->
    occurs "." ext = false ->
    (forall k, stem <> copies k ".") ->
    stem_of name stem
| stem_whole_name k rest :
    name = copies k "." ++ rest ->
    occurs "." rest = false ->
    stem_of name name.

(** [out] is the stem of the file name of [path] followed by
    [_results.xlsx], in the directory of [path]: a bare file name has no
    directory, a file name right under the root keeps the slashes before
    it, and the directory of any other path is what comes before the
    slashes that end at its file name. *)
Inductive suggested : string -> string -> Prop :=
| suggested_bare name stem :
    occurs "/" name = false ->
    stem_of name stem ->
    suggested name (stem ++ "_results.xlsx")
| suggested_under_root n name stem :
    occurs "/" name = false ->
    stem_of name stem ->
    suggested (copies (S n) "/" ++ name)
              (copies (S n) "/" ++ stem ++ "_results.xlsx")
| suggested_in_directory dir n name stem :
    dir <> "" ->
    (forall u, dir <> u ++ "/") ->
    occurs "/" name = false ->
    stem_of name stem ->
    suggested (dir ++ copies (S n) "/" ++ name)
              (dir ++ "/" ++ stem ++ "_results.xlsx").

End SuggestionInWords.

(** What Qt takes for the text of a cell: a string, or [None]. *)
Definition qt_text (v : PyVal) : bool :=
  match v with
  | PyStr _ | PyNone => true
  | _ => false
  end.

(** The inputs [start_processing] turns down. *)
Definition invalid_inputs {R} (E : Env) (w : ui R) : Prop :=
  input_file_path w = None
  \/ (exists p, input_file_path w = Some p /\ (p = "" \/ os_path_exists E p = false))
  \/ output_file_path w = None
  \/ output_file_path w = Some "".

(** *** Sample collaborators and windows *)

(** A pipeline whose processor answers [answer] and whose exporter answers
    [exported]; every path exists. *)
Definition sample_env (answer : result PyVal) (exported : result PyVal) : Env :=
  mk_env unit unit
         (fun _ _ => Ok tt) (fun _ => Ok tt)
         (fun _ _ => answer) (fun _ _ => exported)
         (fun _ => true).

Definition failed_answer : PyVal :=
  PyDict [("success", PyBool false); ("error", PyStr "no sheet")].

(** The example result of the specification. *)
Definition invoice_answer : PyVal :=
  PyDict
    [("success", PyBool true);
     ("results",
      PyList
        [PyDict
           [("element_name", PyStr "Invoice Date");
            ("document_results",
             PyList
               [PyDict [("document_path", PyStr "/a/inv1.xlsx");
                        ("success", PyBool true);
                        ("extraction",
                         PyDict [("value", PyStr "2024-01-05");
                                 ("found", PyBool true);
                                 ("confidence", PyFloat 0.92%float)])];
                PyDict [("document_path", PyStr "/a/inv2.xlsx");
                        ("success", PyBool false);
                        ("error", PyStr "parse failed")]])]])].

(** A result whose only document result succeeded but has no extraction. *)
Definition bare_answer : PyVal :=
  PyDict
    [("success", PyBool true);
     ("results",
      PyList
        [PyDict
           [("element_name", PyStr "Total");
            ("document_results",
             PyList [PyDict [("document_path", PyStr "/a/inv3.xlsx");
                             ("success", PyBool true)]])]])].

(** A result whose element is named by a number. *)
Definition year_answer : PyVal :=
  PyDict
    [("success", PyBool true);
     ("results",
      PyList
        [PyDict
           [("element_name", PyInt 2024);
            ("document_results",
             PyList [PyDict [("document_path", PyStr "/a/b.xlsx")]])]])].

(** A result whose second document result is not a dict. *)
Definition torn_answer : PyVal :=
  PyDict
    [("success", PyBool true);
     ("results",
      PyList
        [PyDict
           [("element_name", PyStr "Total");
            ("document_results",
             PyList [PyDict [("document_path", PyStr "/a/b.xlsx")]; PyNone])]])].

(** A window with both files chosen. *)
Definition ready {R} : ui R :=
  set_output "/x/y/report_results.xlsx" (set_input "/x/y/report.xlsx" initial).

(** * Properties *)

(** ** The loops of the results table *)

Section LoopFacts.
Context {R : Type}.
Variable doc_row : Z -> PyVal -> PyVal -> result R.

Lemma rows_match_app k items1 rows1 items2 rows2 :
  rows_match doc_row k items1 rows1 ->
  rows_match doc_row (k + Z.of_nat (length items1)) items2 rows2 ->
  rows_match doc_row k (items1 ++ items2) (rows1 ++ rows2).
Proof.
  revert k rows1.
  induction items1 as [|[n d] items1 IH]; intros k rows1 H1 H2.
  - destruct rows1; [|contradiction].
    cbn [length Z.of_nat] in H2. rewrite Z.add_0_r in H2. exact H2.
  - destruct rows1 as [|r rows1]; [contradiction|].
    destruct H1 as [Hr H1]. cbn [app rows_match]. split; [exact Hr|].
    apply IH; [exact H1|].
    replace (k + 1 + Z.of_nat (length items1))%Z
      with (k + Z.of_nat (length ((n, d) :: items1)))%Z; [exact H2|].
    cbn [length]. lia.
Qed.

Lemma rows_match_length k items rows :
  rows_match doc_row k items rows -> length rows = length items.
Proof.
  revert k rows.
  induction items as [|[n d] items IH]; intros k [|r rows] H;
    try contradiction; [reflexivity|].
  destruct H as [_ H]. cbn [length]. f_equal. exact (IH _ _ H).
Qed.

Lemma rows_match_nth k items rows i n d :
  rows_match doc_row k items rows ->
  nth_error items i = Some (n, d) ->
  exists r, nth_error rows i = Some r /\ doc_row (k + Z.of_nat i) n d = Ok r.
Proof.
  revert k rows i.
  induction items as [|[n' d'] items IH]; intros k [|r rows] i H Hi;
    try contradiction.
  - destruct i; discriminate Hi.
  - destruct H as [Hr H]. destruct i as [|i].
    + injection Hi as -> ->. exists r. split; [reflexivity|].
      cbn [Z.of_nat]. rewrite Z.add_0_r. exact Hr.
    + destruct (IH _ _ _ H Hi) as [r' [Hn Hd]]. exists r'. split; [exact Hn|].
      replace (k + Z.of_nat (S i))%Z with (k + 1 + Z.of_nat i)%Z by lia. exact Hd.
Qed.

Lemma rows_match_ids (col : R -> string) :
  (forall k n d r, doc_row k n d = Ok r -> col r = str_int k) ->
  forall items rows s,
    rows_match doc_row (Z.of_nat s) items rows ->
    map col rows = map (fun k => str_int (Z.of_nat k)) (seq s (length items)).
Proof.
  intros Hcol. induction items as [|[n d] items IH]; intros [|r rows] s H;
    try contradiction; [reflexivity|].
  destruct H as [Hr H]. cbn [map length seq]. f_equal.
  - exact (Hcol _ _ _ _ Hr).
  - apply IH. replace (Z.of_nat (S s)) with (Z.of_nat s + 1)%Z by lia. exact H.
Qed.

Lemma rows_match_column {B : Type} (col : R -> B) (f : PyVal * PyVal -> B) items :
  (forall k n d r, In (n, d) items -> doc_row k n d = Ok r -> col r = f (n, d)) ->
  forall k rows, rows_match doc_row k items rows -> map col rows = map f items.
Proof.
  induction items as [|[n d] items IH]; intros Hcol k [|r rows] H;
    try contradiction; [reflexivity|].
  destruct H as [Hr H]. cbn [map]. f_equal.
  - exact (Hcol _ _ _ _ (or_introl eq_refl) Hr).
  - apply (IH (fun k n d r Hin => Hcol k n d r (or_intror Hin)) _ _ H).
Qed.

Lemma insert_docs_ok name docs :
  (forall k doc, In doc docs -> exists r, doc_row k name doc = Ok r) ->
  forall row_id rows,
  exists new,
    insert_docs doc_row name docs row_id rows
    = (rows ++ new, Ok (row_id + Z.of_nat (length docs))%Z)
    /\ rows_match doc_row row_id (map (pair name) docs) new.
Proof.
  induction docs as [|doc docs IH]; intros Hok row_id rows.
  - exists []. cbn [insert_docs length Z.of_nat map rows_match].
    rewrite app_nil_r, Z.add_0_r. split; [reflexivity|exact I].
  - destruct (Hok row_id doc (or_introl eq_refl)) as [r Hr].
    destruct (IH (fun k d H => Hok k d (or_intror H)) (row_id + 1)%Z (rows ++ [r]))
      as [new [Hins Hm]].
    exists (r :: new). cbn [insert_docs]. rewrite Hr, Hins. split.
    + rewrite <- app_assoc. cbn [app]. do 2 f_equal. cbn [length]. lia.
    + cbn [map rows_match]. split; assumption.
Qed.

Lemma insert_elements_ok elements :
  (forall el, In el elements ->
     element_parts el = Ok (name_of el, docs_of el)
     /\ forall k doc, In doc (docs_of el) -> exists r, doc_row k (name_of el) doc = Ok r) ->
  forall row_id rows,
  let items := flat_map (fun el => map (pair (name_of el)) (docs_of el)) elements in
  exists new,
    insert_elements doc_row elements row_id rows
    = (rows ++ new, Ok (row_id + Z.of_nat (length items))%Z)
    /\ rows_match doc_row row_id items new.
Proof.
  induction elements as [|el elements IH]; intros Hok row_id rows items.
  - exists []. subst items. cbn [insert_elements flat_map length Z.of_nat rows_match].
    rewrite app_nil_r, Z.add_0_r. split; [reflexivity|exact I].
  - destruct (Hok el (or_introl eq_refl)) as [Hparts Hdocs].
    destruct (insert_docs_ok (name_of el) (docs_of el) Hdocs row_id rows)
      as [new1 [H1 M1]].
    destruct (IH (fun e H => Hok e (or_intror H))
                 (row_id + Z.of_nat (length (docs_of el)))%Z (rows ++ new1))
      as [new2 [H2 M2]].
    exists (new1 ++ new2). subst items. cbn [insert_elements flat_map].
    rewrite Hparts, H1, H2. split.
    + rewrite <- app_assoc. do 2 f_equal.
      rewrite length_app, length_map. lia.
    + apply rows_match_app; [exact M1|].
      rewrite length_map. exact M2.
Qed.

End LoopFacts.

(** ** Well-formed results *)

Lemma wf_element_parts el :
  wf_element el = true -> element_parts el = Ok (name_of el, docs_of el).
Proof.
  intros H. destruct el; try discriminate H.
  unfold wf_element in H. unfold element_parts, name_of, docs_of.
  cbn [as_dict rbind].
  destruct (dict_get d "document_results" (PyList [])); try discriminate H.
  reflexivity.
Qed.

Lemma wf_element_docs el doc :
  wf_element el = true -> In doc (docs_of el) -> wf_doc doc = true.
Proof.
  intros H Hin. destruct el; try contradiction.
  unfold wf_element in H. unfold docs_of in Hin.
  destruct (dict_get d "document_results" (PyList [])); try contradiction.
  rewrite forallb_forall in H. exact (H _ Hin).
Qed.

Lemma wf_results_elements results el :
  wf_results results = true -> In el (elements_of results) -> wf_element el = true.
Proof.
  intros H Hin. destruct results; try contradiction.
  unfold wf_results in H. unfold elements_of in Hin.
  destruct (dict_get d "results" (PyList [])); try contradiction.
  rewrite forallb_forall in H. exact (H _ Hin).
Qed.

Lemma flat_docs_in results n d :
  In (n, d) (flat_docs results) ->
  exists el, In el (elements_of results) /\ n = name_of el /\ In d (docs_of el).
Proof.
  unfold flat_docs. intros H. apply in_flat_map in H. destruct H as [el [Hel H]].
  apply in_map_iff in H. destruct H as [d' [Heq Hd]].
  injection Heq as <- <-. exists el. auto.
Qed.

Lemma flat_docs_length results :
  length (flat_docs results)
  = list_sum (map (fun el => length (docs_of el)) (elements_of results)).
Proof.
  unfold flat_docs. induction (elements_of results) as [|el els IH]; [reflexivity|].
  cbn [flat_map map list_sum]. rewrite length_app, length_map, IH. reflexivity.
Qed.

Lemma doc_cells_wf d :
  wf_doc (PyDict d) = true -> doc_cells d = Ok (shown_cells (PyDict d)).
Proof.
  unfold wf_doc, doc_cells, shown_cells, doc_success, doc_has_extraction, doc_extraction.
  intros H. apply andb_true_iff in H. destruct H as [_ H].
  destruct (py_truthy (dict_get d "success" (PyBool false))); [|reflexivity].
  unfold has_key, py_getitem. cbn [andb].
  destruct (assoc "extraction" d) as [v|]; [|reflexivity].
  destruct v; try discriminate H. cbn [rbind as_dict].
  unfold dict_get. destruct (assoc "confidence" d0); reflexivity.
Qed.

Lemma tk_doc_row_wf k name doc :
  wf_doc doc = true ->
  Tk.doc_row k name doc
  = Ok (Tk.mk_row (str_int k) name (doc_basename doc)
                  (fst (shown_cells doc)) (snd (shown_cells doc))).
Proof.
  intros H. destruct doc; try discriminate H.
  unfold Tk.doc_row. cbn [as_dict rbind]. rewrite (doc_cells_wf _ H).
  unfold wf_doc in H. apply andb_true_iff in H. destruct H as [H _].
  unfold doc_basename.
  destruct (dict_get d "document_path" (PyStr "")); try discriminate H.
  reflexivity.
Qed.

Lemma qt_doc_row_wf k name doc :
  wf_doc doc = true ->
  match name with PyStr _ | PyNone => true | _ => false end = true ->
  Qt.doc_row k name doc
  = Ok (Qt.mk_row (str_int k) (name_text name) (doc_basename doc)
                  (py_str (fst (shown_cells doc))) (py_str (snd (shown_cells doc)))).
Proof.
  intros H Hn. destruct doc; try discriminate H.
  unfold Qt.doc_row. cbn [as_dict rbind]. rewrite (doc_cells_wf _ H).
  unfold wf_doc in H. apply andb_true_iff in H. destruct H as [H _].
  unfold doc_basename.
  destruct (dict_get d "document_path" (PyStr "")); try discriminate H.
  destruct name; try discriminate Hn; reflexivity.
Qed.

(** On a well-formed result the Tkinter table is filled to the end: one
    row per document result, and nothing is logged. *)
Lemma tk_table results (w : ui Tk.row) :
  wf_results results = true ->
  rows_match Tk.doc_row 1 (flat_docs results)
             (results_tree (Tk.update_results_tree results w))
  /\ log_text (Tk.update_results_tree results w) = log_text w.
Proof.
  intros H.
  assert (Hel : forall el, In el (elements_of results) ->
            element_parts el = Ok (name_of el, docs_of el)
            /\ forall k doc, In doc (docs_of el) ->
                 exists r, Tk.doc_row k (name_of el) doc = Ok r).
  { intros el Hin. pose proof (wf_results_elements _ _ H Hin) as Hwf. split.
    - apply wf_element_parts, Hwf.
    - intros k doc Hd. eexists. apply tk_doc_row_wf.
      exact (wf_element_docs _ _ Hwf Hd). }
  destruct (insert_elements_ok Tk.doc_row _ Hel 1%Z []) as [new [Hins Hm]].
  unfold Tk.update_results_tree, fill_tree, flat_docs.
  destruct results; try discriminate H. unfold wf_results in H.
  unfold elements_of in *. cbn [as_dict rbind].
  destruct (dict_get d "results" (PyList [])); try discriminate H.
  cbn [py_iter]. rewrite Hins. split; [exact Hm|reflexivity].
Qed.

(** The same for the PyQt6 table, when the element names are strings. *)
Lemma qt_table results (w : ui Qt.row) :
  wf_results results = true ->
  forallb qt_name (elements_of results) = true ->
  rows_match Qt.doc_row 1 (flat_docs results)
             (results_tree (Qt.update_results_tree results w))
  /\ log_text (Qt.update_results_tree results w) = log_text w.
Proof.
  intros H Hq.
  assert (Hel : forall el, In el (elements_of results) ->
            element_parts el = Ok (name_of el, docs_of el)
            /\ forall k doc, In doc (docs_of el) ->
                 exists r, Qt.doc_row k (name_of el) doc = Ok r).
  { intros el Hin. pose proof (wf_results_elements _ _ H Hin) as Hwf. split.
    - apply wf_element_parts, Hwf.
    - intros k doc Hd. eexists. apply qt_doc_row_wf.
      + exact (wf_element_docs _ _ Hwf Hd).
      + rewrite forallb_forall in Hq. specialize (Hq _ Hin). unfold qt_name in Hq.
        destruct (name_of el); try discriminate Hq; reflexivity. }
  destruct (insert_elements_ok Qt.doc_row _ Hel 1%Z []) as [new [Hins Hm]].
  unfold Qt.update_results_tree, fill_tree, flat_docs.
  destruct results; try discriminate H. unfold wf_results in H.
  unfold elements_of in *. cbn [as_dict rbind].
  destruct (dict_get d "results" (PyList [])); try discriminate H.
  cbn [py_iter]. rewrite Hins. split; [exact Hm|reflexivity].
Qed.

Lemma tk_doc_row_text k n d r : Tk.doc_row k n d = Ok r -> Tk.row_text r = str_int k.
Proof.
  unfold Tk.doc_row. destruct (as_dict d) as [x|]; [|discriminate]. cbn [rbind].
  destruct (os_path_basename _); [|discriminate]. cbn [rbind].
  destruct (doc_cells x); [|discriminate]. cbn [rbind].
  intros H. injection H as <-. reflexivity.
Qed.

Lemma qt_doc_row_text k n d r : Qt.doc_row k n d = Ok r -> Qt.row_text r = str_int k.
Proof.
  unfold Qt.doc_row. destruct (as_dict d) as [x|]; [|discriminate]. cbn [rbind].
  destruct (os_path_basename _); [|discriminate]. cbn [rbind].
  destruct (Qt.qstring n); [|discriminate]. cbn [rbind].
  destruct (doc_cells x); [|discriminate]. cbn [rbind].
  intros H. injection H as <-. reflexivity.
Qed.

Lemma flat_docs_wf results n d :
  wf_results results = true -> In (n, d) (flat_docs results) -> wf_doc d = true.
Proof.
  intros H Hin. destruct (flat_docs_in _ _ _ Hin) as [el [Hel [_ Hd]]].
  exact (wf_element_docs _ _ (wf_results_elements _ _ H Hel) Hd).
Qed.

Lemma flat_docs_qt_name results n d :
  forallb qt_name (elements_of results) = true ->
  In (n, d) (flat_docs results) ->
  match n with PyStr _ | PyNone => true | _ => false end = true.
Proof.
  intros H Hin. destruct (flat_docs_in _ _ _ Hin) as [el [Hel [-> _]]].
  rewrite forallb_forall in H. specialize (H _ Hel). unfold qt_name in H.
  destruct (name_of el); try discriminate H; reflexivity.
Qed.

(** The row of the [i]-th document result, counting from 0 over the whole
    result. *)
Lemma tk_row_at results (w : ui Tk.row) i name doc :
  wf_results results = true ->
  nth_error (flat_docs results) i = Some (name, doc) ->
  nth_error (results_tree (Tk.update_results_tree results w)) i
  = Some (Tk.mk_row (str_int (1 + Z.of_nat i)) name (doc_basename doc)
                    (fst (shown_cells doc)) (snd (shown_cells doc))).
Proof.
  intros H Hi. destruct (tk_table results w H) as [Hm _].
  destruct (rows_match_nth _ _ _ _ _ _ _ Hm Hi) as [r [Hr Hd]].
  rewrite tk_doc_row_wf in Hd
    by exact (flat_docs_wf _ _ _ H (nth_error_In _ _ Hi)).
  injection Hd as <-. exact Hr.
Qed.

Lemma qt_row_at results (w : ui Qt.row) i name doc :
  wf_results results = true ->
  forallb qt_name (elements_of results) = true ->
  nth_error (flat_docs results) i = Some (name, doc) ->
  nth_error (results_tree (Qt.update_results_tree results w)) i
  = Some (Qt.mk_row (str_int (1 + Z.of_nat i)) (name_text name) (doc_basename doc)
                    (py_str (fst (shown_cells doc))) (py_str (snd (shown_cells doc)))).
Proof.
  intros H Hq Hi. destruct (qt_table results w H Hq) as [Hm _].
  destruct (rows_match_nth _ _ _ _ _ _ _ Hm Hi) as [r [Hr Hd]].
  rewrite qt_doc_row_wf in Hd.
  - injection Hd as <-. exact Hr.
  - exact (flat_docs_wf _ _ _ H (nth_error_In _ _ Hi)).
  - exact (flat_docs_qt_name _ _ _ Hq (nth_error_In _ _ Hi)).
Qed.

(** ** The results table *)

(** C6. A document result whose success flag is false is shown with the
    value "ERROR" and the confidence "N/A", with or without an
    [extraction] field. *)
Theorem failed_document_row results (wt : ui Tk.row) (wq : ui Qt.row) i name doc :
  wf_results results = true ->
  nth_error (flat_docs results) i = Some (name, doc) ->
  doc_success doc = false ->
  (exists r,
      nth_error (results_tree (Tk.update_results_tree results wt)) i = Some r
      /\ Tk.row_value r = PyStr "ERROR" /\ Tk.row_confidence r = PyStr "N/A")
  /\ (forallb qt_name (elements_of results) = true ->
      exists r,
        nth_error (results_tree (Qt.update_results_tree results wq)) i = Some r
        /\ Qt.row_value r = [Lit "ERROR"] /\ Qt.row_confidence r = [Lit "N/A"]).
Proof.
  intros H Hi Hs.
  assert (Hc : shown_cells doc = (PyStr "ERROR", PyStr "N/A")).
  { unfold shown_cells. rewrite Hs. reflexivity. }
  split.
  - eexists. split; [exact (tk_row_at results wt i name doc H Hi)|].
    cbn [Tk.row_value Tk.row_confidence]. rewrite Hc. split; reflexivity.
  - intros Hq. eexists. split; [exact (qt_row_at results wq i name doc H Hq Hi)|].
    cbn [Qt.row_value Qt.row_confidence]. rewrite Hc. split; reflexivity.
Qed.

Lemma failed_document_row_witness :
  exists r,
    nth_error (results_tree (Tk.update_results_tree invoice_answer initial)) 1 = Some r
    /\ Tk.row_value r = PyStr "ERROR" /\ Tk.row_confidence r = PyStr "N/A".
Proof.
  exact (proj1 (failed_document_row invoice_answer initial initial 1
                  (PyStr "Invoice Date")
                  (PyDict [("document_path", PyStr "/a/inv2.xlsx");
                           ("success", PyBool false);
                           ("error", PyStr "parse failed")])
                  eq_refl eq_refl eq_refl)).
Defined.

(** C10. A document result whose success flag is true but which has no
    [extraction] field is shown like a failed one, with the value "ERROR"
    and the confidence "N/A". *)
Theorem bare_document_row results (wt : ui Tk.row) (wq : ui Qt.row) i name doc :
  wf_results results = true ->
  nth_error (flat_docs results) i = Some (name, doc) ->
  doc_success doc = true ->
  doc_has_extraction doc = false ->
  (exists r,
      nth_error (results_tree (Tk.update_results_tree results wt)) i = Some r
      /\ Tk.row_value r = PyStr "ERROR" /\ Tk.row_confidence r = PyStr "N/A")
  /\ (forallb qt_name (elements_of results) = true ->
      exists r,
        nth_error (results_tree (Qt.update_results_tree results wq)) i = Some r
        /\ Qt.row_value r = [Lit "ERROR"] /\ Qt.row_confidence r = [Lit "N/A"]).
Proof.
  intros H Hi Hs Hx.
  assert (Hc : shown_cells doc = (PyStr "ERROR", PyStr "N/A")).
  { unfold shown_cells. rewrite Hs, Hx. reflexivity. }
  split.
  - eexists. split; [exact (tk_row_at results wt i name doc H Hi)|].
    cbn [Tk.row_value Tk.row_confidence]. rewrite Hc. split; reflexivity.
  - intros Hq. eexists. split; [exact (qt_row_at results wq i name doc H Hq Hi)|].
    cbn [Qt.row_value Qt.row_confidence]. rewrite Hc. split; reflexivity.
Qed.

Lemma bare_document_row_witness :
  exists r,
    nth_error (results_tree (Tk.update_results_tree bare_answer initial)) 0 = Some r
    /\ Tk.row_value r = PyStr "ERROR" /\ Tk.row_confidence r = PyStr "N/A".
Proof.
  exact (proj1 (bare_document_row bare_answer initial initial 0
                  (PyStr "Total")
                  (PyDict [("document_path", PyStr "/a/inv3.xlsx");
                           ("success", PyBool true)])
                  eq_refl eq_refl eq_refl eq_refl)).
Defined.

(** With both the success flag and the extraction, the row shows the
    extraction. *)
Lemma extracted_document_row results (wt : ui Tk.row) i name doc :
  wf_results results = true ->
  nth_error (flat_docs results) i = Some (name, doc) ->
  doc_success doc = true ->
  doc_has_extraction doc = true ->
  exists r,
    nth_error (results_tree (Tk.update_results_tree results wt)) i = Some r
    /\ (Tk.row_value r, Tk.row_confidence r) = doc_extraction doc.
Proof.
  intros H Hi Hs Hx. eexists. split; [exact (tk_row_at results wt i name doc H Hi)|].
  cbn [Tk.row_value Tk.row_confidence]. unfold shown_cells. rewrite Hs, Hx.
  cbn [andb]. destruct (doc_extraction doc). reflexivity.
Qed.

(** The example of the specification, in both front-ends. *)
Example invoice_rows_tk :
  results_tree (Tk.update_results_tree invoice_answer initial)
  = [Tk.mk_row "1" (PyStr "Invoice Date") "inv1.xlsx"
               (PyStr "2024-01-05") (PyFloat 0.92%float);
     Tk.mk_row "2" (PyStr "Invoice Date") "inv2.xlsx" (PyStr "ERROR") (PyStr "N/A")].
Proof. reflexivity. Qed.

Example invoice_rows_qt :
  results_tree (Qt.update_results_tree invoice_answer initial)
  = [Qt.mk_row "1" "Invoice Date" "inv1.xlsx"
               [Lit "2024-01-05"] [Repr (PyFloat 0.92%float)];
     Qt.mk_row "2" "Invoice Date" "inv2.xlsx" [Lit "ERROR"] [Lit "N/A"]].
Proof. reflexivity. Qed.

(** An ill-typed document result stops the filling: the rows before it
    stay, and the exception is logged. *)
Example partial_rows_tk :
  let results :=
    PyDict [("results",
             PyList [PyDict [("element_name", PyStr "Total");
                             ("document_results",
                              PyList [PyDict [("document_path", PyStr "/a/b.xlsx")];
                                      PyNone;
                                      PyDict [("document_path", PyStr "/a/c.xlsx")]])]])] in
  let w := Tk.update_results_tree results initial in
  results_tree w = [Tk.mk_row "1" (PyStr "Total") "b.xlsx" (PyStr "ERROR") (PyStr "N/A")]
  /\ log_text w = [(ERROR, [Lit "Error updating results tree: ";
                            ExnStr (AttributeError PyNone "get")])].
Proof. split; reflexivity. Qed.

(** ** The worker *)

Lemma progress_values_app t1 t2 :
  progress_values (t1 ++ t2) = progress_values t1 ++ progress_values t2.
Proof. apply flat_map_app. Qed.

Lemma qt_deliver_app t1 t2 (w : ui Qt.row) :
  Qt.deliver (t1 ++ t2) w = Qt.deliver t2 (Qt.deliver t1 w).
Proof. apply fold_left_app. Qed.

(** Filling the table leaves the controls and the progress bar alone. *)
Lemma qt_update_results_tree_frame results (w : ui Qt.row) :
  let w' := Qt.update_results_tree results w in
  start_button w' = start_button w /\ stop_button w' = stop_button w
  /\ progress_bar w' = progress_bar w /\ progress_set w' = progress_set w.
Proof.
  unfold Qt.update_results_tree.
  destruct (fill_tree Qt.doc_row results) as [rows [z|e]]; cbn; auto.
Qed.

Lemma qt_apply_progress (w : ui Qt.row) e :
  progress_set (Qt.apply_effect w e) = progress_set w ++ progress_of e.
Proof.
  destruct e as [op|op|c]; [destruct op|destruct op|];
    cbn [Qt.apply_effect Qt.apply_op progress_of];
    try (rewrite app_nil_r);
    try reflexivity;
    apply (qt_update_results_tree_frame results w).
Qed.

(** The progress bar receives the values of the trace, in its order. *)
Lemma qt_deliver_progress t (w : ui Qt.row) :
  progress_set (Qt.deliver t w) = progress_set w ++ progress_values t.
Proof.
  revert w. induction t as [|e t IH]; intros w.
  - cbn. now rewrite app_nil_r.
  - cbn [Qt.deliver fold_left]. fold (Qt.deliver t (Qt.apply_effect w e)).
    rewrite IH, qt_apply_progress. unfold progress_values. cbn [flat_map].
    now rewrite app_assoc.
Qed.

(** *** The two threads of the Tkinter front-end *)

(** What a thread that runs a widget call does at once to the buttons, the
    progress bar and the table, and what it logs. *)
Lemma tk_run_op_parts op (w : ui Tk.row) :
  let w' := fst (Tk.run_op op w) in
  start_button w'
  = match op with SetStartEnabled b => b | _ => start_button w end
  /\ stop_button w'
     = match op with SetStopEnabled b => b | _ => stop_button w end
  /\ progress_set w'
     = match op with SetProgress v => progress_set w ++ [v] | _ => progress_set w end
  /\ progress_bar w'
     = match op with SetProgress v => v | _ => progress_bar w end
  /\ (op_is_render op = false -> results_tree w' = results_tree w)
  /\ log_text w'
     = match op with AppendLog lv msg => log_text w ++ [(lv, msg)] | _ => log_text w end
  /\ forallb op_is_record (snd (Tk.run_op op w)) = true
  /\ (op_is_render op = false -> snd (Tk.run_op op w) = []).
Proof.
  destruct op; cbn [Tk.run_op Tk.apply_op fst snd op_is_render];
    try (cbn; repeat split; reflexivity).
  destruct (fill_tree Tk.doc_row results) as [rows [z|e]]; cbn;
    repeat split; try reflexivity; discriminate.
Qed.

(** A record that is appended logs nothing. *)
Lemma tk_records_log_nothing pending (w : ui Tk.row) :
  forallb op_is_record pending = true -> snd (Tk.run_pending pending w) = [].
Proof.
  revert w. induction pending as [|op rest IH]; intros w H; [reflexivity|].
  cbn [forallb] in H. apply andb_true_iff in H. destruct H as [Hop Hrest].
  cbn [Tk.run_pending]. destruct op; try discriminate Hop.
  cbn [Tk.run_op Tk.apply_op].
  specialize (IH (append_log lv msg w) Hrest).
  destruct (Tk.run_pending rest (append_log lv msg w)) as [w'' later].
  cbn [snd] in *. rewrite IH. reflexivity.
Qed.

(** [update_results_tree] as a handler gives the window once the UI thread
    has run the call and appended the record it logged. *)
Lemma tk_update_results_tree_drained results (w : ui Tk.row) :
  Tk.drain [UpdateResultsTree results] w = Tk.update_results_tree results w.
Proof.
  unfold Tk.drain, Tk.update_results_tree. cbn [Tk.run_pending Tk.run_op].
  destruct (fill_tree Tk.doc_row results) as [rows [z|e]]; reflexivity.
Qed.

(** A property of the effects to come, the callbacks pending and the
    window that every turn keeps holds at the end of every delivery. *)
Section TkInvariant.
Variable P : list effect -> list widget_op -> ui Tk.row -> Prop.
Hypothesis worker_keeps :
  forall e t pending w,
    P (e :: t) pending w ->
    P t (fst (Tk.worker_step e pending w)) (snd (Tk.worker_step e pending w)).
Hypothesis ui_keeps :
  forall op pending t w,
    P t (op :: pending) w ->
    P t (pending ++ snd (Tk.run_op op w)) (fst (Tk.run_op op w)).

Lemma tk_take_turns_keeps sched :
  forall t pending w,
    P t pending w ->
    P (fst (fst (Tk.take_turns sched t pending w)))
      (snd (fst (Tk.take_turns sched t pending w)))
      (snd (Tk.take_turns sched t pending w)).
Proof.
  induction sched as [|[|] sched IH]; intros t pending w H; cbn [Tk.take_turns].
  - exact H.
  - destruct t as [|e t]; [apply IH, H|].
    pose proof (worker_keeps _ _ _ _ H) as H'.
    destruct (Tk.worker_step e pending w) as [pending' w']. apply IH, H'.
  - unfold Tk.ui_step. destruct pending as [|op rest]; [apply IH, H|].
    pose proof (ui_keeps _ _ _ _ H) as H'.
    destruct (Tk.run_op op w) as [w' logged]. apply IH, H'.
Qed.

Lemma tk_finish_keeps t :
  forall pending w,
    P t pending w ->
    P [] (fst (Tk.finish t pending w)) (snd (Tk.finish t pending w)).
Proof.
  induction t as [|e t IH]; intros pending w H; cbn [Tk.finish]; [exact H|].
  pose proof (worker_keeps _ _ _ _ H) as H'.
  destruct (Tk.worker_step e pending w) as [pending' w']. apply IH, H'.
Qed.

Lemma tk_run_pending_keeps pending :
  forall behind w,
    P [] (pending ++ behind) w ->
    P [] (behind ++ snd (Tk.run_pending pending w)) (fst (Tk.run_pending pending w)).
Proof.
  induction pending as [|op rest IH]; intros behind w H; cbn [Tk.run_pending].
  - cbn [fst snd]. rewrite app_nil_r. exact H.
  - cbn [app] in H. pose proof (ui_keeps _ _ _ _ H) as H'.
    destruct (Tk.run_op op w) as [w' logged]. cbn [fst snd] in H'.
    rewrite <- app_assoc in H'. specialize (IH _ _ H').
    destruct (Tk.run_pending rest w') as [w'' later]. cbn [fst snd] in *.
    rewrite <- app_assoc in IH. exact IH.
Qed.

Lemma tk_logged_are_records pending :
  forall w, forallb op_is_record (snd (Tk.run_pending pending w)) = true.
Proof.
  induction pending as [|op rest IH]; intros w; cbn [Tk.run_pending]; [reflexivity|].
  destruct (tk_run_op_parts op w) as [_ [_ [_ [_ [_ [_ [Hrec _]]]]]]].
  destruct (Tk.run_op op w) as [w' logged]. specialize (IH w').
  destruct (Tk.run_pending rest w') as [w'' later]. cbn [fst snd] in *.
  rewrite forallb_app, Hrec, IH. reflexivity.
Qed.

Lemma tk_drain_keeps pending w :
  P [] pending w -> P [] [] (Tk.drain pending w).
Proof.
  intros H. unfold Tk.drain.
  rewrite <- (app_nil_r pending) in H.
  pose proof (tk_run_pending_keeps _ _ _ H) as H1.
  pose proof (tk_logged_are_records pending w) as Hrec.
  destruct (Tk.run_pending pending w) as [w' logged]. cbn [fst snd app] in *.
  rewrite <- (app_nil_r logged) in H1.
  pose proof (tk_run_pending_keeps _ _ _ H1) as H2.
  rewrite (tk_records_log_nothing _ w' Hrec) in H2. exact H2.
Qed.

Lemma tk_deliver_keeps sched t w :
  P t [] w -> P [] [] (Tk.deliver sched t w).
Proof.
  intros H. unfold Tk.deliver.
  pose proof (tk_take_turns_keeps sched _ _ _ H) as H1.
  destruct (Tk.take_turns sched t [] w) as [[t' pending] w']. cbn [fst snd] in H1.
  pose proof (tk_finish_keeps _ _ _ H1) as H2.
  destruct (Tk.finish t' pending w') as [pending' w'']. cbn [fst snd] in H2.
  apply tk_drain_keeps, H2.
Qed.

End TkInvariant.

(** Records touch no button, set no progress and fill no table. *)
Lemma records_are_inert l :
  forallb op_is_record l = true ->
  forallb op_restores l = true
  /\ existsb op_sets_start l = false /\ existsb op_sets_stop l = false
  /\ existsb op_is_progress l = false /\ existsb op_is_render l = false.
Proof.
  induction l as [|op l IH]; intros H; [cbn; auto|].
  cbn [forallb] in H. apply andb_true_iff in H. destruct H as [Hop Hl].
  destruct (IH Hl) as [H1 [H2 [H3 [H4 H5]]]].
  destruct op; try discriminate Hop. cbn. auto.
Qed.

Lemma tk_logged_inert op (w : ui Tk.row) :
  let l := snd (Tk.run_op op w) in
  forallb op_restores l = true
  /\ existsb op_sets_start l = false /\ existsb op_sets_stop l = false
  /\ existsb op_is_progress l = false /\ existsb op_is_render l = false.
Proof.
  apply records_are_inert.
  exact (proj1 (proj2 (proj2 (proj2 (proj2 (proj2 (proj2 (tk_run_op_parts op w)))))))).
Qed.

Lemma tk_run_op_buttons op (w : ui Tk.row) :
  op_restores op = true ->
  start_button (fst (Tk.run_op op w))
  = (if op_sets_start op then true else start_button w)
  /\ stop_button (fst (Tk.run_op op w))
     = (if op_sets_stop op then false else stop_button w).
Proof.
  intros H. destruct (tk_run_op_parts op w) as [H1 [H2 _]]. rewrite H1, H2.
  destruct op; cbn in *; try (split; reflexivity); subst; try (split; reflexivity).
  apply negb_true_iff in H. subst. split; reflexivity.
Qed.

Lemma existsb_false_app {A} (f : A -> bool) l l' :
  existsb f l = false -> existsb f l' = false -> existsb f (l ++ l') = false.
Proof. intros H H'. now rewrite existsb_app, H, H'. Qed.

Lemma tk_buttons_worker_keeps e t pending (w : ui Tk.row) :
  buttons_to_come (e :: t) pending w ->
  buttons_to_come t (fst (Tk.worker_step e pending w))
                    (snd (Tk.worker_step e pending w)).
Proof.
  unfold buttons_to_come. cbn [forallb existsb].
  intros [Ht [Hq [Hs Hp]]]. apply andb_true_iff in Ht. destruct Ht as [He Ht].
  destruct e as [op|op|c]; cbn [Tk.worker_step].
  - destruct (tk_logged_inert op w) as [L1 [L2 [L3 _]]].
    assert (Hop : op_restores op = true) by (destruct op; exact He || reflexivity).
    destruct (tk_run_op_buttons op w Hop) as [B1 B2].
    destruct (Tk.run_op op w) as [w' logged]. cbn [fst snd] in *.
    rewrite forallb_app, !existsb_app, Hq, L1, L2, L3, !orb_false_r, B1, B2.
    repeat split; try assumption.
    + destruct op; cbn in *; tauto.
    + destruct op; cbn in *; tauto.
  - cbn [fst snd].
    assert (Hop : op_restores op = true) by (destruct op; exact He || reflexivity).
    assert (S1 : sets_start (Posted op) = op_sets_start op) by (destruct op; reflexivity).
    assert (S2 : sets_stop (Posted op) = op_sets_stop op) by (destruct op; reflexivity).
    rewrite S1 in Hs. rewrite S2 in Hp.
    rewrite forallb_app, !existsb_app. cbn [forallb existsb].
    rewrite Hq, Hop, !orb_false_r. cbn [andb].
    split; [exact Ht|split; [reflexivity|split]].
    + destruct Hs as [Hs|[Hs|Hs]]; auto.
      * apply orb_true_iff in Hs. destruct Hs as [Hs|Hs]; auto.
        right; right. rewrite Hs. apply orb_true_r.
      * right; right. now rewrite Hs.
    + destruct Hp as [Hp|[Hp|Hp]]; auto.
      * apply orb_true_iff in Hp. destruct Hp as [Hp|Hp]; auto.
        right; right. rewrite Hp. apply orb_true_r.
      * right; right. now rewrite Hp.
  - cbn [fst snd]. cbn in Hs, Hp. auto.
Qed.

Lemma tk_buttons_ui_keeps op pending t (w : ui Tk.row) :
  buttons_to_come t (op :: pending) w ->
  buttons_to_come t (pending ++ snd (Tk.run_op op w)) (fst (Tk.run_op op w)).
Proof.
  unfold buttons_to_come. cbn [forallb existsb].
  intros [Ht [Hq [Hs Hp]]]. apply andb_true_iff in Hq. destruct Hq as [Hop Hq].
  destruct (tk_logged_inert op w) as [L1 [L2 [L3 _]]].
  destruct (tk_run_op_buttons op w Hop) as [B1 B2].
  destruct (Tk.run_op op w) as [w' logged]. cbn [fst snd] in *.
  rewrite forallb_app, !existsb_app, Hq, L1, L2, L3, !orb_false_r, B1, B2.
  repeat split; try assumption.
  - destruct (op_sets_start op); auto.
  - destruct (op_sets_stop op); auto.
Qed.

(** Effects that only ever enable Start and disable Stop, and do both at
    least once, leave Start enabled and Stop disabled, however the two
    threads take turns. *)
Lemma tk_buttons_after sched t (w : ui Tk.row) :
  forallb restores t = true ->
  start_button w = true \/ existsb sets_start t = true ->
  stop_button w = false \/ existsb sets_stop t = true ->
  start_button (Tk.deliver sched t w) = true
  /\ stop_button (Tk.deliver sched t w) = false.
Proof.
  intros Hall Hs Hp.
  assert (H : buttons_to_come t [] w).
  { unfold buttons_to_come. cbn. repeat split; tauto. }
  apply (tk_deliver_keeps _ tk_buttons_worker_keeps tk_buttons_ui_keeps sched) in H.
  destruct H as [_ [_ [[H1|[H1|H1]] [H2|[H2|H2]]]]]; try discriminate.
  split; assumption.
Qed.

Lemma last_cons_default {A} (x : A) l d : last (x :: l) d = last l x.
Proof.
  revert x d. induction l as [|y l IH]; intros x d; [reflexivity|].
  change (last (x :: y :: l) d) with (last (y :: l) d).
  rewrite (IH y d), (IH y x). reflexivity.
Qed.

Lemma tk_progress_worker_keeps values final e t pending (w : ui Tk.row) :
  progress_to_come values final (e :: t) pending w ->
  progress_to_come values final t (fst (Tk.worker_step e pending w))
                                  (snd (Tk.worker_step e pending w)).
Proof.
  unfold progress_to_come, progress_values. cbn [existsb flat_map].
  intros [Ht [Hq [Hv Hf]]]. apply orb_false_iff in Ht. destruct Ht as [He Ht].
  destruct e as [op|op|c]; cbn [Tk.worker_step].
  - destruct (tk_logged_inert op w) as [_ [_ [_ [L4 _]]]].
    destruct (tk_run_op_parts op w) as [_ [_ [P3 [P4 _]]]].
    destruct (Tk.run_op op w) as [w' logged]. cbn [fst snd] in *.
    rewrite existsb_app, Hq, L4, P3, P4.
    split; [exact Ht|split; [reflexivity|]].
    destruct op; cbn [progress_of app] in Hv, Hf; try (split; assumption).
    rewrite <- app_assoc. cbn [app]. split; [exact Hv|].
    rewrite last_cons_default in Hf. exact Hf.
  - cbn [fst snd]. rewrite existsb_app. cbn [existsb]. rewrite Hq, orb_false_r.
    destruct op; try discriminate He; cbn [progress_of app] in Hv, Hf;
      repeat split; assumption.
  - cbn [fst snd]. cbn [progress_of app] in Hv, Hf. repeat split; assumption.
Qed.

Lemma tk_progress_ui_keeps values final op pending t (w : ui Tk.row) :
  progress_to_come values final t (op :: pending) w ->
  progress_to_come values final t (pending ++ snd (Tk.run_op op w))
                                  (fst (Tk.run_op op w)).
Proof.
  unfold progress_to_come. cbn [existsb].
  intros [Ht [Hq [Hv Hf]]]. apply orb_false_iff in Hq. destruct Hq as [Hop Hq].
  destruct (tk_logged_inert op w) as [_ [_ [_ [L4 _]]]].
  destruct (tk_run_op_parts op w) as [_ [_ [P3 [P4 _]]]].
  destruct (Tk.run_op op w) as [w' logged]. cbn [fst snd] in *.
  rewrite existsb_app, Hq, L4, P3, P4.
  destruct op; try discriminate Hop; repeat split; assumption.
Qed.

(** When the worker sets the progress bar itself, the bar receives the
    values of the trace in its order, however the two threads take turns. *)
Lemma tk_deliver_progress sched t (w : ui Tk.row) :
  existsb posts_progress t = false ->
  progress_set (Tk.deliver sched t w) = progress_set w ++ progress_values t
  /\ progress_bar (Tk.deliver sched t w) = last (progress_values t) (progress_bar w).
Proof.
  intros Hd.
  assert (H : progress_to_come (progress_set w ++ progress_values t)
                               (last (progress_values t) (progress_bar w)) t [] w).
  { unfold progress_to_come. cbn. auto. }
  apply (tk_deliver_keeps _ (tk_progress_worker_keeps _ _)
                          (tk_progress_ui_keeps _ _) sched) in H.
  destruct H as [_ [_ [Hv Hf]]]. cbn in Hv, Hf. rewrite app_nil_r in Hv. auto.
Qed.

Lemma tk_tree_worker_keeps rows e t pending (w : ui Tk.row) :
  no_render_to_come rows (e :: t) pending w ->
  no_render_to_come rows t (fst (Tk.worker_step e pending w))
                           (snd (Tk.worker_step e pending w)).
Proof.
  unfold no_render_to_come. cbn [existsb].
  intros [Ht [Hq Hr]]. apply orb_false_iff in Ht. destruct Ht as [He Ht].
  destruct e as [op|op|c]; cbn [Tk.worker_step].
  - assert (Hop : op_is_render op = false) by (destruct op; exact He || reflexivity).
    destruct (tk_logged_inert op w) as [_ [_ [_ [_ L5]]]].
    destruct (tk_run_op_parts op w) as [_ [_ [_ [_ [P5 _]]]]].
    destruct (Tk.run_op op w) as [w' logged]. cbn [fst snd] in *.
    rewrite existsb_app, Hq, L5, (P5 Hop). auto.
  - assert (Hop : op_is_render op = false) by (destruct op; exact He || reflexivity).
    cbn [fst snd]. rewrite existsb_app. cbn [existsb]. rewrite Hq, Hop. auto.
  - cbn [fst snd]. auto.
Qed.

Lemma tk_tree_ui_keeps rows op pending t (w : ui Tk.row) :
  no_render_to_come rows t (op :: pending) w ->
  no_render_to_come rows t (pending ++ snd (Tk.run_op op w)) (fst (Tk.run_op op w)).
Proof.
  unfold no_render_to_come. cbn [existsb].
  intros [Ht [Hq Hr]]. apply orb_false_iff in Hq. destruct Hq as [Hop Hq].
  destruct (tk_logged_inert op w) as [_ [_ [_ [_ L5]]]].
  destruct (tk_run_op_parts op w) as [_ [_ [_ [_ [P5 _]]]]].
  destruct (Tk.run_op op w) as [w' logged]. cbn [fst snd] in *.
  rewrite existsb_app, Hq, L5, (P5 Hop). auto.
Qed.

(** A trace that never fills the table leaves it as it was. *)
Lemma tk_deliver_no_render sched t (w : ui Tk.row) :
  existsb is_render t = false ->
  results_tree (Tk.deliver sched t w) = results_tree w.
Proof.
  intros Hd.
  assert (H : no_render_to_come (results_tree w) t [] w).
  { unfold no_render_to_come. cbn. auto. }
  apply (tk_deliver_keeps _ (tk_tree_worker_keeps _) (tk_tree_ui_keeps _) sched) in H.
  exact (proj2 (proj2 H)).
Qed.

(** Case analysis on the answers of the collaborators, down to the traces. *)
Ltac worker_simpl := cbn [wbind rbind app fst snd negb].

Ltac worker_cases :=
  unfold pipeline_answer, reports_failure, py_getitem, as_dict,
         logging_info, logging_error, tell, extern, lift, wret;
  worker_simpl;
  repeat match goal with
    | |- context [LocalLLMProcessor ?E ?m ?f] =>
        destruct (LocalLLMProcessor E m f); worker_simpl
    | |- context [DataProcessor ?E ?l] =>
        destruct (DataProcessor E l); worker_simpl
    | |- context [process_excel ?E ?p ?i] =>
        destruct (process_excel E p i) as [[]|]; worker_simpl
    | |- context [assoc "success" ?d] =>
        destruct (assoc "success" d); worker_simpl
    | |- context [export_to_excel ?E ?r ?o] =>
        destruct (export_to_excel E r o); worker_simpl
    | |- context [py_truthy ?s] =>
        destruct (py_truthy s); worker_simpl
    | |- context [is_Exception ?e] =>
        destruct (is_Exception e); worker_simpl
    end.

(** The Tkinter worker sets the progress bar itself, on its own thread. *)
Lemma tk_trace_sets_progress E (w : ui Tk.row) :
  existsb posts_progress (Tk.process_data E w) = false.
Proof.
  unfold Tk.process_data, Tk.process_data_try, Tk.process_data_except,
         Tk.process_data_finally.
  worker_cases; reflexivity.
Qed.

Lemma qt_apply_buttons (w : ui Qt.row) e :
  restores e = true ->
  start_button (Qt.apply_effect w e) = (if sets_start e then true else start_button w)
  /\ stop_button (Qt.apply_effect w e) = (if sets_stop e then false else stop_button w).
Proof.
  destruct e as [op|op|c]; [destruct op|destruct op|];
    cbn [restores sets_start sets_stop Qt.apply_effect Qt.apply_op]; intros H;
    try (split; reflexivity);
    try (destruct b; [|discriminate H]; split; reflexivity);
    try (destruct b; [discriminate H|]; split; reflexivity);
    destruct (qt_update_results_tree_frame results w) as [H1 [H2 _]];
    split; assumption.
Qed.

Lemma qt_buttons_after t (w : ui Qt.row) :
  forallb restores t = true ->
  start_button w = true \/ existsb sets_start t = true ->
  stop_button w = false \/ existsb sets_stop t = true ->
  start_button (Qt.deliver t w) = true /\ stop_button (Qt.deliver t w) = false.
Proof.
  revert w. induction t as [|e t IH]; intros w Hall Hs Hp.
  - destruct Hs as [Hs|Hs]; [|discriminate Hs].
    destruct Hp as [Hp|Hp]; [|discriminate Hp]. split; assumption.
  - cbn [forallb] in Hall. apply andb_true_iff in Hall. destruct Hall as [He Hall].
    cbn [existsb] in Hs, Hp.
    cbn [Qt.deliver fold_left]. fold (Qt.deliver t (Qt.apply_effect w e)).
    destruct (qt_apply_buttons w e He) as [E1 E2].
    apply IH; [exact Hall| |].
    + rewrite E1. destruct (sets_start e); [left; reflexivity|exact Hs].
    + rewrite E2. destruct (sets_stop e); [left; reflexivity|exact Hp].
Qed.

Lemma forallb_permutation {A} (f : A -> bool) l l' :
  Permutation l l' -> forallb f l' = true -> forallb f l = true.
Proof.
  intros Hp H. rewrite forallb_forall in *.
  intros x Hx. apply H. exact (Permutation_in _ Hp Hx).
Qed.

Lemma existsb_permutation {A} (f : A -> bool) l l' :
  Permutation l l' -> existsb f l' = true -> existsb f l = true.
Proof.
  intros Hp H. rewrite existsb_exists in *.
  destruct H as [x [Hx Hf]]. exists x. split; [|exact Hf].
  exact (Permutation_in _ (Permutation_sym Hp) Hx).
Qed.

(** Every button call of the worker enables Start or disables Stop, and
    every trace has both calls. *)
Lemma tk_trace_restores E (w : ui Tk.row) :
  let t := Tk.process_data E w in
  forallb restores t = true /\ existsb sets_start t = true /\ existsb sets_stop t = true.
Proof.
  cbv zeta.
  unfold Tk.process_data, Tk.process_data_try, Tk.process_data_except,
         Tk.process_data_finally.
  worker_cases; repeat split; reflexivity.
Qed.

Lemma qt_trace_restores E (w : ui Qt.row) :
  let t := Qt.process_data E w in
  forallb restores t = true /\ existsb sets_start t = true /\ existsb sets_stop t = true.
Proof.
  cbv zeta.
  unfold Qt.process_data, Qt.process_data_try, Qt.process_data_except,
         Qt.process_data_finally.
  worker_cases; repeat split; reflexivity.
Qed.

(** C2. Whatever the collaborators answer or raise (success, a failure the
    processor reports, a failed export, an exception of any class), the
    trace of the worker ends with its [finally] clause, and once its
    effects have reached the window Start is enabled and Stop is disabled.
    In the Tkinter front-end this holds however the worker and the UI
    thread take turns, and in both front-ends also when the effects are
    issued in any other order. *)
Theorem controls_restored Et (wt wt' : ui Tk.row) Eq (wq wq' : ui Qt.row) :
  ((exists before, Tk.process_data Et wt = before ++ Tk.process_data_finally)
   /\ (forall sched,
          start_button (Tk.deliver sched (Tk.process_data Et wt) wt') = true
          /\ stop_button (Tk.deliver sched (Tk.process_data Et wt) wt') = false)
   /\ forall sched t, Permutation t (Tk.process_data Et wt) ->
        start_button (Tk.deliver sched t wt') = true
        /\ stop_button (Tk.deliver sched t wt') = false)
  /\ ((exists before, Qt.process_data Eq wq = before ++ Qt.process_data_finally)
      /\ start_button (Qt.deliver (Qt.process_data Eq wq) wq') = true
      /\ stop_button (Qt.deliver (Qt.process_data Eq wq) wq') = false
      /\ forall t, Permutation t (Qt.process_data Eq wq) ->
           start_button (Qt.deliver t wq') = true /\ stop_button (Qt.deliver t wq') = false).
Proof.
  split.
  - assert (Hany : forall sched t, Permutation t (Tk.process_data Et wt) ->
             start_button (Tk.deliver sched t wt') = true
             /\ stop_button (Tk.deliver sched t wt') = false).
    { intros sched t Hp. destruct (tk_trace_restores Et wt) as [Ha [Hs Hq]].
      apply tk_buttons_after.
      - exact (forallb_permutation _ _ _ Hp Ha).
      - right. exact (existsb_permutation _ _ _ Hp Hs).
      - right. exact (existsb_permutation _ _ _ Hp Hq). }
    split; [|split].
    + unfold Tk.process_data. destruct (Tk.process_data_try Et wt) as [t r].
      eexists. rewrite app_assoc. reflexivity.
    + intros sched. exact (Hany sched _ (Permutation_refl _)).
    + exact Hany.
  - assert (Hany : forall t, Permutation t (Qt.process_data Eq wq) ->
             start_button (Qt.deliver t wq') = true
             /\ stop_button (Qt.deliver t wq') = false).
    { intros t Hp. destruct (qt_trace_restores Eq wq) as [Ha [Hs Hq]].
      apply qt_buttons_after.
      - exact (forallb_permutation _ _ _ Hp Ha).
      - right. exact (existsb_permutation _ _ _ Hp Hs).
      - right. exact (existsb_permutation _ _ _ Hp Hq). }
    split; [|split; [|split]].
    + unfold Qt.process_data. destruct (Qt.process_data_try Eq wq) as [t r].
      eexists. rewrite app_assoc. reflexivity.
    + exact (proj1 (Hany _ (Permutation_refl _))).
    + exact (proj2 (Hany _ (Permutation_refl _))).
    + exact Hany.
Qed.

(** The four outcomes of a run started by a click on the window [ready];
    in the Tkinter front-end the UI thread gets a turn after every two
    effects of the worker. *)
Example run_success :
  let E := sample_env (Ok invoice_answer) (Ok (PyBool true)) in
  let w := fst (Qt.start_processing E ready) in
  let w' := Qt.deliver (Qt.process_data E w) w in
  (start_button w', stop_button w', progress_set w', length (results_tree w'))
  = (true, false, [0; 0; 10; 20; 30; 80; 100]%Z, 2).
Proof. reflexivity. Qed.

Example run_pipeline_failure :
  let E := sample_env (Ok failed_answer) (Ok (PyBool true)) in
  let w := fst (Qt.start_processing E ready) in
  let w' := Qt.deliver (Qt.process_data E w) w in
  (start_button w', stop_button w', progress_set w', length (results_tree w'))
  = (true, false, [0; 0; 10; 20; 30; 0]%Z, 0).
Proof. reflexivity. Qed.

Example run_export_failure :
  let E := sample_env (Ok invoice_answer) (Ok (PyBool false)) in
  let w := fst (Tk.start_processing E ready) in
  let w' := Tk.deliver (concat (repeat [WorkerTurn; WorkerTurn; UiTurn] 8))
                       (Tk.process_data E w) w in
  (start_button w', stop_button w', progress_set w', length (results_tree w'),
   dialogs w')
  = (true, false, [0; 0; 10; 20; 30; 80; 100]%Z, 2,
     [mk_dialog Critical "Export Error" [Lit "Failed to export results to Excel file"]]).
Proof. reflexivity. Qed.

(** An exception in the Tkinter front-end: the error is logged, and the
    callback that should show it in a dialog raises instead. *)
Example run_exception :
  let E := sample_env (Raise (Raised true "out of memory")) (Ok PyNone) in
  let w := fst (Tk.start_processing E ready) in
  let w' := Tk.deliver (concat (repeat [WorkerTurn; WorkerTurn; UiTurn] 8))
                       (Tk.process_data E w) w in
  (start_button w', stop_button w', progress_set w', length (results_tree w'),
   dialogs w', last (log_text w') (INFO, []))
  = (true, false, [0; 0; 10; 20; 30]%Z, 0, [],
     (ERROR, [Lit "Error in processing thread: "; ExnStr (Raised true "out of memory")])).
Proof. reflexivity. Qed.

(** The record that [update_results_tree] logs when it fails is appended
    when its turn comes: before the later records of the worker if the UI
    thread runs in between, after them all if the worker runs to its end
    first. *)
Example late_record :
  let E := sample_env (Ok torn_answer) (Ok (PyBool true)) in
  let w := fst (Tk.start_processing E ready) in
  let t := Tk.process_data E w in
  let failed :=
    (ERROR, [Lit "Error updating results tree: "; ExnStr (AttributeError PyNone "get")]) in
  let exporting :=
    (INFO, [Lit "Exporting results to: "; Lit "/x/y/report_results.xlsx"]) in
  let completed := (INFO, [Lit "Processing completed successfully"]) in
  skipn 3 (log_text (Tk.deliver [] t w)) = [exporting; completed; failed]
  /\ skipn 3 (log_text (Tk.deliver (repeat WorkerTurn 11 ++ repeat UiTurn 5) t w))
     = [failed; exporting; completed].
Proof. split; reflexivity. Qed.
(** ** Progress *)

Lemma tk_progress_values E (w : ui Tk.row) :
  progress_values (Tk.process_data E w)
  = progress_values (fst (Tk.process_data_try E w)).
Proof.
  unfold Tk.process_data. destruct (Tk.process_data_try E w) as [t r].
  rewrite !progress_values_app. cbn [fst].
  destruct r as [|e]; [|unfold Tk.process_data_except; destruct (is_Exception e)];
    cbn; rewrite app_nil_r; reflexivity.
Qed.

Lemma qt_progress_values E (w : ui Qt.row) :
  progress_values (Qt.process_data E w)
  = progress_values (fst (Qt.process_data_try E w)).
Proof.
  unfold Qt.process_data. destruct (Qt.process_data_try E w) as [t r].
  rewrite !progress_values_app. cbn [fst].
  destruct r as [|e]; [|unfold Qt.process_data_except; destruct (is_Exception e)];
    cbn; rewrite app_nil_r; reflexivity.
Qed.

Lemma tk_progress_cases E (w : ui Tk.row) :
  let pv := progress_values (Tk.process_data E w) in
  if reports_failure (pipeline_answer E (selected_model w) None (input_file_path w))
  then pv = [10; 20; 30; 0]%Z
  else pv = [10]%Z \/ pv = [10; 20]%Z \/ pv = [10; 20; 30]%Z
       \/ pv = [10; 20; 30; 80]%Z \/ pv = [10; 20; 30; 80; 100]%Z.
Proof.
  cbv zeta. rewrite tk_progress_values. unfold Tk.process_data_try.
  worker_cases; cbn; auto 10.
Qed.

Lemma qt_progress_cases E (w : ui Qt.row) :
  let pv := progress_values (Qt.process_data E w) in
  if reports_failure
       (pipeline_answer E (selected_model w) (Some (use_8bit w)) (input_file_path w))
  then pv = [10; 20; 30; 0]%Z
  else pv = [10]%Z \/ pv = [10; 20]%Z \/ pv = [10; 20; 30]%Z
       \/ pv = [10; 20; 30; 80]%Z \/ pv = [10; 20; 30; 80; 100]%Z.
Proof.
  cbv zeta. rewrite qt_progress_values. unfold Qt.process_data_try.
  worker_cases; cbn; auto 10.
Qed.

Lemma nondecreasing_prefix pv :
  pv = [10]%Z \/ pv = [10; 20]%Z \/ pv = [10; 20; 30]%Z
  \/ pv = [10; 20; 30; 80]%Z \/ pv = [10; 20; 30; 80; 100]%Z ->
  nondecreasing (0 :: 0 :: pv)%Z.
Proof.
  intros [-> | [-> | [-> | [-> | ->]]]]; cbn; repeat split; lia.
Qed.

Lemma worker_progress_cases failure pv :
  (if failure : bool then pv = [10; 20; 30; 0]%Z
   else pv = [10]%Z \/ pv = [10; 20]%Z \/ pv = [10; 20; 30]%Z
        \/ pv = [10; 20; 30; 80]%Z \/ pv = [10; 20; 30; 80; 100]%Z) ->
  worker_progress failure pv
  /\ (failure = false -> nondecreasing (0 :: 0 :: pv)%Z).
Proof.
  unfold worker_progress. destruct failure; intros H.
  - split; [exact H|discriminate].
  - split; [|intros _; apply nondecreasing_prefix, H].
    destruct H as [-> | [-> | [-> | [-> | ->]]]];
      [exists 1|exists 2|exists 3|exists 4|exists 5]; split; (lia || reflexivity).
Qed.

Lemma nondecreasing_head a l x : nondecreasing (a :: l) -> In x l -> (a <= x)%Z.
Proof.
  revert a. induction l as [|b l IH]; intros a H Hx; [contradiction|].
  cbn [nondecreasing] in H. destruct H as [Hab H].
  destruct Hx as [<- | Hx]; [exact Hab|].
  specialize (IH b H Hx). lia.
Qed.

(** The worker's values start at 10: once it has set one, a 0 makes the
    values decrease. *)
Lemma zero_after_first_value failure pv l1 l2 :
  worker_progress failure pv -> l1 ++ l2 = pv -> l1 <> [] ->
  ~ nondecreasing (l1 ++ 0 :: l2)%Z.
Proof.
  intros Hw Hsplit Hne Hn.
  assert (Hhead : exists l, l1 = 10%Z :: l).
  { destruct l1 as [|a l1]; [congruence|]. exists l1. f_equal.
    unfold worker_progress in Hw. destruct failure.
    - rewrite Hw in Hsplit. injection Hsplit as Ha _. exact Ha.
    - destruct Hw as [n [[Hn1 _] Hpv]]. rewrite Hpv in Hsplit.
      destruct n as [|n]; [lia|]. injection Hsplit as Ha _. exact Ha. }
  destruct Hhead as [l ->]. cbn [app] in Hn.
  assert (H0 : (10 <= 0)%Z).
  { apply (nondecreasing_head _ _ _ Hn). apply in_or_app. right. left. reflexivity. }
  lia.
Qed.

(** An accepted click sets the progress bar to 0 twice: once itself, once
    when it clears the results. *)
Lemma tk_click_progress E (w : ui Tk.row) :
  snd (Tk.start_processing E w) = true ->
  progress_set (fst (Tk.start_processing E w)) = progress_set w ++ [0; 0]%Z.
Proof.
  unfold Tk.start_processing.
  destruct (path_unset (input_file_path w) || _); [discriminate|].
  destruct (path_unset (output_file_path w)); [discriminate|].
  intros _. cbn. rewrite <- app_assoc. reflexivity.
Qed.

Lemma qt_click_progress E (w : ui Qt.row) :
  snd (Qt.start_processing E w) = true ->
  progress_set (fst (Qt.start_processing E w)) = progress_set w ++ [0; 0]%Z.
Proof.
  unfold Qt.start_processing.
  destruct (path_unset (input_file_path w) || _); [discriminate|].
  destruct (path_unset (output_file_path w)); [discriminate|].
  intros _. cbn. rewrite <- app_assoc. reflexivity.
Qed.

(** C3, as the code has it.  An accepted click on Start sets progress to 0
    (twice).  The worker then sets 10, 20, 30 and, when the processor
    reports failure, 0 again; in every other run it sets the checkpoints
    10, 20, 30, 80, 100 up to the one it reaches, which together with the
    click's zeros never decrease.  The progress bar receives the worker's
    values in this order.  Clear Results, which stays enabled while a run
    is on, sets progress to 0 at whatever point of the run it is clicked,
    and once the worker has set a value that makes the values decrease. *)
Theorem progress_of_a_run Et (wt : ui Tk.row) Eq (wq : ui Qt.row) :
  snd (Tk.start_processing Et wt) = true ->
  snd (Qt.start_processing Eq wq) = true ->
  (progress_set (fst (Tk.start_processing Et wt)) = progress_set wt ++ [0; 0]%Z
   /\ (forall w,
          let failure :=
            reports_failure
              (pipeline_answer Et (selected_model w) None (input_file_path w)) in
          let pv := progress_values (Tk.process_data Et w) in
          worker_progress failure pv
          /\ (failure = false -> nondecreasing (0 :: 0 :: pv)%Z)
          /\ forall sched w0,
               progress_set (Tk.deliver sched (Tk.process_data Et w) w0)
               = progress_set w0 ++ pv)
   /\ forall w t1 t2 s1 s2 w0,
        Tk.process_data Et w = t1 ++ t2 ->
        progress_set (Tk.deliver s2 t2 (clear_results (Tk.deliver s1 t1 w0)))
        = progress_set w0 ++ progress_values t1 ++ 0%Z :: progress_values t2
        /\ (progress_values t1 <> [] ->
            ~ nondecreasing (progress_values t1 ++ 0%Z :: progress_values t2)))
  /\ (progress_set (fst (Qt.start_processing Eq wq)) = progress_set wq ++ [0; 0]%Z
      /\ (forall w,
             let failure :=
               reports_failure
                 (pipeline_answer Eq (selected_model w) (Some (use_8bit w))
                                  (input_file_path w)) in
             let pv := progress_values (Qt.process_data Eq w) in
             worker_progress failure pv
             /\ (failure = false -> nondecreasing (0 :: 0 :: pv)%Z)
             /\ forall w0,
                  progress_set (Qt.deliver (Qt.process_data Eq w) w0)
                  = progress_set w0 ++ pv)
      /\ forall w t1 t2 w0,
           Qt.process_data Eq w = t1 ++ t2 ->
           progress_set (Qt.deliver t2 (clear_results (Qt.deliver t1 w0)))
           = progress_set w0 ++ progress_values t1 ++ 0%Z :: progress_values t2
           /\ (progress_values t1 <> [] ->
               ~ nondecreasing (progress_values t1 ++ 0%Z :: progress_values t2))).
Proof.
  intros Ht Hq. split.
  - split; [exact (tk_click_progress Et wt Ht)|split].
    + intros w. cbv zeta.
      destruct (worker_progress_cases _ _ (tk_progress_cases Et w)) as [H1 H2].
      split; [exact H1|split; [exact H2|]].
      intros sched w0.
      exact (proj1 (tk_deliver_progress sched _ w0 (tk_trace_sets_progress Et w))).
    + intros w t1 t2 s1 s2 w0 Hsplit. split.
      * pose proof (tk_trace_sets_progress Et w) as Hd. rewrite Hsplit in Hd.
        rewrite existsb_app in Hd. apply orb_false_iff in Hd. destruct Hd as [Hd1 Hd2].
        rewrite (proj1 (tk_deliver_progress s2 t2 _ Hd2)).
        change (progress_set (clear_results (Tk.deliver s1 t1 w0)))
          with (progress_set (Tk.deliver s1 t1 w0) ++ [0%Z]).
        rewrite (proj1 (tk_deliver_progress s1 t1 _ Hd1)).
        rewrite <- !app_assoc. reflexivity.
      * apply (zero_after_first_value _ _ _ _
                 (proj1 (worker_progress_cases _ _ (tk_progress_cases Et w)))).
        rewrite <- progress_values_app, <- Hsplit. reflexivity.
  - split; [exact (qt_click_progress Eq wq Hq)|split].
    + intros w. cbv zeta.
      destruct (worker_progress_cases _ _ (qt_progress_cases Eq w)) as [H1 H2].
      split; [exact H1|split; [exact H2|]].
      intros w0. apply qt_deliver_progress.
    + intros w t1 t2 w0 Hsplit. split.
      * rewrite qt_deliver_progress.
        change (progress_set (clear_results (Qt.deliver t1 w0)))
          with (progress_set (Qt.deliver t1 w0) ++ [0%Z]).
        rewrite qt_deliver_progress, <- !app_assoc. reflexivity.
      * apply (zero_after_first_value _ _ _ _
                 (proj1 (worker_progress_cases _ _ (qt_progress_cases Eq w)))).
        rewrite <- progress_values_app, <- Hsplit. reflexivity.
Qed.

Lemma progress_of_a_run_witness :
  progress_set (fst (Tk.start_processing
                       (sample_env (Ok invoice_answer) (Ok (PyBool true))) ready))
  = [] ++ [0; 0]%Z
  /\ progress_set (fst (Qt.start_processing
                          (sample_env (Ok invoice_answer) (Ok (PyBool true))) ready))
     = [] ++ [0; 0]%Z.
Proof.
  pose proof (progress_of_a_run
                (sample_env (Ok invoice_answer) (Ok (PyBool true))) ready
                (sample_env (Ok invoice_answer) (Ok (PyBool true))) ready
                eq_refl eq_refl) as H.
  exact (conj (proj1 (proj1 H)) (proj1 (proj2 H))).
Defined.

(** A run in which the processor reports failure sets 30 and then 0: the
    values set from the click on Start to the end of the worker do
    decrease, in both front-ends. *)
Lemma progress_drops_on_failure :
  progress_set
    (Tk.deliver []
       (Tk.process_data (sample_env (Ok failed_answer) (Ok (PyBool true)))
          (fst (Tk.start_processing
                  (sample_env (Ok failed_answer) (Ok (PyBool true))) ready)))
       (fst (Tk.start_processing
               (sample_env (Ok failed_answer) (Ok (PyBool true))) ready)))
  = [0; 0; 10; 20; 30; 0]%Z
  /\ progress_set
       (Qt.deliver
          (Qt.process_data (sample_env (Ok failed_answer) (Ok (PyBool true)))
             (fst (Qt.start_processing
                     (sample_env (Ok failed_answer) (Ok (PyBool true))) ready)))
          (fst (Qt.start_processing
                  (sample_env (Ok failed_answer) (Ok (PyBool true))) ready)))
     = [0; 0; 10; 20; 30; 0]%Z
  /\ ~ nondecreasing [0; 0; 10; 20; 30; 0]%Z.
Proof.
  split; [reflexivity|split; [reflexivity|]].
  cbn. intros H. lia.
Qed.

(** A click on Clear Results between two effects of a run that succeeds:
    the values set decrease there too. *)
Example clear_during_run :
  let E := sample_env (Ok invoice_answer) (Ok (PyBool true)) in
  let w := fst (Qt.start_processing E ready) in
  let t := Qt.process_data E w in
  progress_set (Qt.deliver (skipn 5 t) (clear_results (Qt.deliver (firstn 5 t) w)))
  = [0; 0; 10; 20; 0; 30; 80; 100]%Z.
Proof. reflexivity. Qed.
(** ** Validation *)

(** C4. When the input path is unset or names nothing that exists, or the
    output path is empty, [start_processing] starts no thread and leaves
    the Start and Stop buttons, the progress bar and the results as they
    were; the run ends there: all the click does is log an error (and, in
    the PyQt6 front-end, show it in a dialog). *)
Theorem invalid_inputs_start_nothing Et (wt : ui Tk.row) Eq (wq : ui Qt.row) :
  invalid_inputs Et wt ->
  invalid_inputs Eq wq ->
  (snd (Tk.start_processing Et wt) = false
   /\ same_widgets wt (fst (Tk.start_processing Et wt))
   /\ exists msg, fst (Tk.start_processing Et wt) = append_log ERROR msg wt)
  /\ (snd (Qt.start_processing Eq wq) = false
      /\ same_widgets wq (fst (Qt.start_processing Eq wq))
      /\ exists title shown msg,
           fst (Qt.start_processing Eq wq)
           = message_box Critical title shown (append_log ERROR msg wq)).
Proof.
  intros Ht Hq. split.
  - assert (H : path_unset (input_file_path wt)
                || negb (os_path_exists Et (str_path (input_file_path wt))) = true
                \/ path_unset (output_file_path wt) = true).
    { destruct Ht as [H | [[p [H [-> | Hp]]] | [H | H]]]; rewrite H; cbn; auto.
      rewrite Hp. left. apply orb_true_r. }
    unfold Tk.start_processing, same_widgets.
    destruct (path_unset (input_file_path wt) || _); [cbn; eauto 10|].
    destruct H as [H | H]; [discriminate H|]. rewrite H. cbn. eauto 10.
  - assert (H : path_unset (input_file_path wq)
                || negb (os_path_exists Eq (str_path (input_file_path wq))) = true
                \/ path_unset (output_file_path wq) = true).
    { destruct Hq as [H | [[p [H [-> | Hp]]] | [H | H]]]; rewrite H; cbn; auto.
      rewrite Hp. left. apply orb_true_r. }
    unfold Qt.start_processing, same_widgets.
    destruct (path_unset (input_file_path wq) || _); [cbn; eauto 12|].
    destruct H as [H | H]; [discriminate H|]. rewrite H. cbn. eauto 12.
Qed.

Lemma invalid_inputs_start_nothing_witness :
  snd (Tk.start_processing (sample_env (Ok invoice_answer) (Ok PyNone)) initial) = false
  /\ snd (Qt.start_processing (sample_env (Ok invoice_answer) (Ok PyNone))
                              (set_input "/x/y/report.xlsx" initial)) = false.
Proof.
  pose proof (invalid_inputs_start_nothing
                (sample_env (Ok invoice_answer) (Ok PyNone)) initial
                (sample_env (Ok invoice_answer) (Ok PyNone))
                (set_input "/x/y/report.xlsx" initial)
                (or_introl eq_refl)
                (or_intror (or_intror (or_introl eq_refl)))) as H.
  exact (conj (proj1 (proj1 H)) (proj1 (proj2 H))).
Defined.

(** The input path may also name a file that is not there. *)
Example missing_input_file :
  let E := mk_env unit unit (fun _ _ => Ok tt) (fun _ => Ok tt)
                  (fun _ _ => Ok invoice_answer) (fun _ _ => Ok (PyBool true))
                  (fun _ => false) in
  Qt.start_processing E ready
  = (message_box Critical "Input Error" [Lit "Please select a valid input Excel file"]
       (append_log ERROR [Lit "Input file not found or not specified"] ready),
     false).
Proof. reflexivity. Qed.

(** With valid inputs the click disables Start, enables Stop, resets the
    progress bar, empties the results and starts the thread. *)
Lemma valid_inputs_start E (w : ui Qt.row) p o :
  input_file_path w = Some p -> p <> "" -> os_path_exists E p = true ->
  output_file_path w = Some o -> o <> "" ->
  let '(w', started) := Qt.start_processing E w in
  started = true /\ start_button w' = false /\ stop_button w' = true
  /\ progress_bar w' = 0%Z /\ results_tree w' = [].
Proof.
  intros Hp Hp' He Ho Ho'. unfold Qt.start_processing. rewrite Hp, Ho. cbn.
  apply String.eqb_neq in Hp', Ho'. rewrite Hp', He, Ho'. cbn. auto 10.
Qed.

(** ** A failure reported by the processor *)

Ltac find_in := cbn [In]; repeat (try (left; reflexivity); right).

(** C5. When the result of the processor has a false [success], the worker
    logs the error and shows an error dialog with the same text, the
    progress bar ends at 0, [export_to_excel] is never called and the
    results table is never filled. *)
Theorem failure_skips_export Et (wt : ui Tk.row) Eq (wq : ui Qt.row) :
  reports_failure
    (pipeline_answer Et (selected_model wt) None (input_file_path wt)) = true ->
  reports_failure
    (pipeline_answer Eq (selected_model wq) (Some (use_8bit wq)) (input_file_path wq))
  = true ->
  (let t := Tk.process_data Et wt in
   (exists msg,
       In (Posted (AppendLog ERROR msg)) t
       /\ In (Posted (MessageBox Critical "Processing Error" msg)) t)
   /\ existsb is_export t = false
   /\ existsb is_render t = false
   /\ forall sched w, progress_bar (Tk.deliver sched t w) = 0%Z
                      /\ results_tree (Tk.deliver sched t w) = results_tree w)
  /\ (let t := Qt.process_data Eq wq in
      (exists msg,
          In (Posted (AppendLog ERROR msg)) t
          /\ In (Direct (MessageBox Critical "Processing Error" msg)) t)
      /\ existsb is_export t = false
      /\ existsb is_render t = false
      /\ forall w, progress_bar (Qt.deliver t w) = 0%Z
                   /\ results_tree (Qt.deliver t w) = results_tree w).
Proof.
  intros Ht Hq. cbv zeta. split.
  - clear Hq.
    assert (Hr : existsb is_render (Tk.process_data Et wt) = false).
    { revert Ht. unfold Tk.process_data, Tk.process_data_try.
      worker_cases; intros H; try discriminate H; reflexivity. }
    split; [|split; [|split; [exact Hr|]]].
    + revert Ht. unfold Tk.process_data, Tk.process_data_try.
      worker_cases; intros H; try discriminate H; eexists; split; find_in.
    + revert Ht. unfold Tk.process_data, Tk.process_data_try.
      worker_cases; intros H; try discriminate H; reflexivity.
    + intros sched w. split; [|exact (tk_deliver_no_render sched _ w Hr)].
      rewrite (proj2 (tk_deliver_progress sched _ w (tk_trace_sets_progress Et wt))).
      pose proof (tk_progress_cases Et wt) as Hc. cbv zeta in Hc.
      rewrite Ht in Hc. rewrite Hc. reflexivity.
  - clear Ht. revert Hq. unfold Qt.process_data, Qt.process_data_try.
    worker_cases; intros H; try discriminate H;
      (split; [eexists; split; find_in
              |split; [reflexivity|split; [reflexivity|intros w; split; reflexivity]]]).
Qed.

Lemma failure_skips_export_witness :
  existsb is_export
    (Tk.process_data (sample_env (Ok failed_answer) (Ok (PyBool true))) ready) = false
  /\ existsb is_export
       (Qt.process_data (sample_env (Ok failed_answer) (Ok (PyBool true))) ready) = false.
Proof.
  pose proof (failure_skips_export
                (sample_env (Ok failed_answer) (Ok (PyBool true))) ready
                (sample_env (Ok failed_answer) (Ok (PyBool true))) ready
                eq_refl eq_refl) as H.
  exact (conj (proj1 (proj2 (proj1 H))) (proj1 (proj2 (proj2 H)))).
Defined.

(** The trace of such a run in the PyQt6 front-end. *)
Example failure_trace_qt :
  Qt.process_data (sample_env (Ok failed_answer) (Ok (PyBool true))) ready
  = [Posted (AppendLog INFO [Lit "Initializing LLM processor with model: ";
                             Lit "mistralai/Mistral-7B-Instruct-v0.2"]);
     Posted (SetProgress 10);
     Extern (NewLocalLLMProcessor "mistralai/Mistral-7B-Instruct-v0.2" (Some true));
     Posted (AppendLog INFO [Lit "Initializing data processor"]);
     Posted (SetProgress 20);
     Extern NewDataProcessor;
     Posted (AppendLog INFO [Lit "Processing Excel file: "; Lit "/x/y/report.xlsx"]);
     Posted (SetProgress 30);
     Extern (ProcessExcel (Some "/x/y/report.xlsx"));
     Posted (AppendLog ERROR [Lit "Failed to process Excel file: "; Lit "no sheet"]);
     Direct ProcessEvents;
     Direct (MessageBox Critical "Processing Error"
                        [Lit "Failed to process Excel file: "; Lit "no sheet"]);
     Posted (SetProgress 0);
     Direct (SetStartEnabled true);
     Direct (SetStopEnabled false);
     Direct (SetStartEnabled true);
     Direct (SetStopEnabled false)].
Proof. reflexivity. Qed.

(** ** The quantization flag *)

(** C7, in the PyQt6 front-end: the model runner is built from the selected
    model and the state of the checkbox. *)
Lemma qt_passes_quantization_flag E (w : ui Qt.row) :
  In (Extern (NewLocalLLMProcessor (selected_model w) (Some (use_8bit w))))
     (Qt.process_data E w).
Proof.
  unfold Qt.process_data, Qt.process_data_try. worker_cases; find_in.
Qed.

(** C7, in the Tkinter front-end: the model runner is built from the
    selected model alone.  The checkbox changes nothing of what the worker
    does, and no call carries its state. *)
Theorem tk_ignores_quantization_flag E (w : ui Tk.row) :
  Tk.process_data E (toggle_use_8bit w) = Tk.process_data E w
  /\ In (Extern (NewLocalLLMProcessor (selected_model w) None)) (Tk.process_data E w)
  /\ forall model_name b,
       ~ In (Extern (NewLocalLLMProcessor model_name (Some b))) (Tk.process_data E w).
Proof.
  split; [reflexivity|]. split.
  - unfold Tk.process_data, Tk.process_data_try. worker_cases; find_in.
  - intros model_name b.
    unfold Tk.process_data, Tk.process_data_try, Tk.process_data_except,
           Tk.process_data_finally.
    worker_cases; cbn [In]; intros H;
      repeat (destruct H as [H | H]; [discriminate H|]); exact H.
Qed.

(** With the checkbox unchecked the Tkinter worker still builds the runner
    without the flag. *)
Example tk_unchecked_flag :
  let w := toggle_use_8bit (ready : ui Tk.row) in
  use_8bit w = false
  /\ filter (fun e => match e with Extern (NewLocalLLMProcessor _ _) => true | _ => false end)
            (Tk.process_data (sample_env (Ok invoice_answer) (Ok (PyBool true))) w)
     = [Extern (NewLocalLLMProcessor "mistralai/Mistral-7B-Instruct-v0.2" None)].
Proof. split; reflexivity. Qed.

(** ** Threads *)

(** C9 fails in both front-ends.  The PyQt6 worker enables Start and
    disables Stop itself, at the end of every run; the Tkinter worker sets
    the progress bar itself, at the start of every run. *)
Theorem worker_touches_widgets E (wt : ui Tk.row) (wq : ui Qt.row) :
  In (Direct (SetProgress 10)) (Tk.process_data E wt)
  /\ In (Direct (SetStartEnabled true)) (Qt.process_data E wq)
  /\ In (Direct (SetStopEnabled false)) (Qt.process_data E wq).
Proof.
  split; [|split].
  - unfold Tk.process_data, Tk.process_data_try. worker_cases; find_in.
  - unfold Qt.process_data. destruct (Qt.process_data_try E wq) as [t r].
    apply in_or_app. right. apply in_or_app. right. find_in.
  - unfold Qt.process_data. destruct (Qt.process_data_try E wq) as [t r].
    apply in_or_app. right. apply in_or_app. right. find_in.
Qed.

(** In a successful run the PyQt6 worker also fills the table and shows the
    dialog itself. *)
Example qt_direct_calls :
  filter (fun e => match e with Direct _ => true | _ => false end)
         (Qt.process_data (sample_env (Ok invoice_answer) (Ok (PyBool true))) ready)
  = [Direct ProcessEvents;
     Direct (UpdateResultsTree invoice_answer);
     Direct (MessageBox Information "Success"
               [Lit "Processing completed successfully. Results exported to ";
                Lit "/x/y/report_results.xlsx"]);
     Direct (SetStartEnabled true);
     Direct (SetStopEnabled false)].
Proof. reflexivity. Qed.

(** ** File selection *)

Lemma join_nonempty a b : b <> "" -> posixpath.join a b <> "".
Proof.
  intros Hb. unfold posixpath.join.
  destruct (posixpath.startswith_sep b); [exact Hb|].
  destruct (String.eqb a "" || posixpath.endswith_sep a).
  - destruct a; [exact Hb|discriminate].
  - destruct a; discriminate.
Qed.

Lemma suggestion_nonempty file_path :
  posixpath.join (posixpath.dirname file_path)
     (fst (posixpath.splitext (posixpath.basename file_path)) ++ "_results.xlsx") <> "".
Proof.
  apply join_nonempty.
  destruct (fst (posixpath.splitext (posixpath.basename file_path))); discriminate.
Qed.

(** What [browse_input_file] does to the paths when a file was chosen: it
    goes by the text of the output entry. *)
Lemma browse_input_file_paths {R} (w : ui R) (file_path : string) :
  file_path <> "" ->
  let w' := browse_input_file file_path w in
  let suggestion :=
    posixpath.join (posixpath.dirname file_path)
      (fst (posixpath.splitext (posixpath.basename file_path)) ++ "_results.xlsx") in
  input_file_path w' = Some file_path
  /\ (output_file_entry w = "" ->
      output_file_path w' = Some suggestion /\ output_file_entry w' = suggestion)
  /\ (output_file_entry w <> "" ->
      output_file_path w' = output_file_path w
      /\ output_file_entry w' = output_file_entry w).
Proof.
  intros Hf. cbv zeta. unfold browse_input_file.
  apply String.eqb_neq in Hf. rewrite Hf. cbn [negb].
  change (output_file_entry (set_input file_path w)) with (output_file_entry w).
  destruct (String.eqb (output_file_entry w) "") eqn:He.
  - apply String.eqb_eq in He. split; [reflexivity|].
    split; intros H; [split; reflexivity|congruence].
  - apply String.eqb_neq in He. split; [reflexivity|].
    split; intros H; [congruence|split; reflexivity].
Qed.

Lemma browse_input_file_shown {R} (w : ui R) (file_path : string) :
  file_path <> "" -> output_shown w -> output_shown (browse_input_file file_path w).
Proof.
  intros Hf Hs.
  destruct (browse_input_file_paths w file_path Hf) as [_ [Hempty Hset]].
  unfold output_shown in *.
  destruct (output_file_path w) as [p|] eqn:Hp.
  - destruct Hs as [He Hne]. destruct Hset as [H1 H2]; [congruence|].
    rewrite H1, H2. split; assumption.
  - destruct (Hempty Hs) as [H1 H2]. rewrite H1, H2.
    split; [reflexivity|apply suggestion_nonempty].
Qed.

(** The handlers keep the entry of the output file showing the stored
    path: the sample window has it so, and each choice of a file keeps it
    so.  Only an edit of the entry itself, which the Tkinter window allows,
    breaks it. *)
Lemma output_shown_initial {R} : output_shown (@initial R).
Proof. reflexivity. Qed.

Lemma output_shown_browse_input {R} (w : ui R) file_path :
  output_shown w -> output_shown (browse_input_file file_path w).
Proof.
  intros Hs. destruct (String.eqb file_path "") eqn:Hf.
  - unfold browse_input_file. rewrite Hf. exact Hs.
  - apply String.eqb_neq in Hf. exact (browse_input_file_shown w file_path Hf Hs).
Qed.

Lemma output_shown_browse_output_tk (w : ui Tk.row) file_path :
  output_shown w -> output_shown (Tk.browse_output_file file_path w).
Proof.
  intros Hs. unfold Tk.browse_output_file.
  destruct (String.eqb file_path "") eqn:Hf; [exact Hs|].
  apply String.eqb_neq in Hf. split; [reflexivity|exact Hf].
Qed.

Lemma output_shown_browse_output_qt (w : ui Qt.row) file_path :
  output_shown w -> output_shown (Qt.browse_output_file file_path w).
Proof.
  intros Hs. unfold Qt.browse_output_file.
  destruct (String.eqb file_path "") eqn:Hf; [exact Hs|].
  apply String.eqb_neq in Hf. split; [reflexivity|].
  destruct (negb _); [|exact Hf]. destruct file_path; [congruence|discriminate].
Qed.

Example output_extension_added :
  output_file_path (Qt.browse_output_file "/x/out" initial) = Some "/x/out.xlsx"
  /\ output_file_path (Qt.browse_output_file "/x/OUT.XLSX" initial) = Some "/x/OUT.XLSX".
Proof. split; reflexivity. Qed.

(** Some more suggestions. *)
Example suggestions :
  map (fun p => output_file_path (browse_input_file p (@initial Tk.row)))
      ["report.xlsx"; "/report.xls"; "/x/y.d/report"; "/x/.hidden"; "/x/a.b.xlsx"]
  = [Some "report_results.xlsx"; Some "/report_results.xlsx";
     Some "/x/y.d/report_results.xlsx"; Some "/x/.hidden_results.xlsx";
     Some "/x/a.b_results.xlsx"].
Proof. reflexivity. Qed.

(** ** Paths of the form [dir/stem.ext] *)

Section PlainPaths.
Import posixpath.
Local Open Scope string_scope.

Lemma rfind_append c a b :
  rfind c (a ++ b)
  = match rfind c b with
    | Some i => Some (String.length a + i)
    | None => rfind c a
    end.
Proof.
  induction a as [|x a IH]; cbn [append rfind String.length].
  - destruct (rfind c b); reflexivity.
  - rewrite IH. destruct (rfind c b); reflexivity.
Qed.

Lemma append_assoc a b c : (a ++ b) ++ c = a ++ b ++ c.
Proof. induction a as [|x a IH]; cbn [append]; [reflexivity|now rewrite IH]. Qed.

Lemma length_append_sep a : String.length (a ++ "/") = S (String.length a).
Proof. induction a as [|x a IH]; cbn [append String.length]; [reflexivity|now rewrite IH]. Qed.

Lemma substring_whole s : substring 0 (String.length s) s = s.
Proof. induction s as [|x s IH]; cbn; [reflexivity|now rewrite IH]. Qed.

Lemma take_append a b : take (String.length a) (a ++ b) = a.
Proof.
  unfold take. induction a as [|x a IH]; cbn.
  - destruct b; reflexivity.
  - now rewrite IH.
Qed.

Lemma drop_append a b : drop (String.length a) (a ++ b) = b.
Proof.
  unfold drop. induction a as [|x a IH]; cbn [append String.length substring Nat.sub].
  - rewrite Nat.sub_0_r. apply substring_whole.
  - exact IH.
Qed.

Lemma rfind_none_head c x s : rfind c (String x s) = None -> Ascii.eqb x c = false.
Proof.
  cbn. destruct (rfind c s); [discriminate|].
  destruct (Ascii.eqb x c); [discriminate|reflexivity].
Qed.

Lemma all_char_append_sep a :
  endswith_sep a = false -> a <> "" -> all_char sep (a ++ "/") = false.
Proof.
  induction a as [|x a IH]; intros He Hn; [congruence|].
  cbn [append all_char]. destruct a as [|y a].
  - cbn in He. rewrite He. reflexivity.
  - rewrite IH; [apply andb_false_r|exact He|discriminate].
Qed.

Lemma rstrip_append_sep a :
  endswith_sep a = false -> rstrip sep (a ++ "/") = a.
Proof.
  induction a as [|x a IH]; intros He; [reflexivity|].
  cbn [append rstrip]. destruct a as [|y a].
  - cbn in He |- *. rewrite He. reflexivity.
  - rewrite IH by exact He. reflexivity.
Qed.

(** X15. For an input [dir/stem.ext], where [dir] does not end with a
    slash, [stem] is not made of dots only and neither [stem] nor [ext]
    holds a slash, nor [ext] a dot, the output path suggested while the
    output entry is empty is [dir/stem_results.xlsx]: the same directory,
    the name up to its last dot, and the extension [.xlsx] whatever the
    extension of the input was. *)
Lemma suggestion_of_plain_path {R} (w : ui R) dir stem ext :
  endswith_sep dir = false ->
  rfind sep stem = None ->
  all_char extsep stem = false ->
  rfind sep ext = None ->
  rfind extsep ext = None ->
  output_file_entry w = "" ->
  output_file_path
    (browse_input_file (dir ++ "/" ++ stem ++ "." ++ ext) w)
  = Some (dir ++ "/" ++ stem ++ "_results.xlsx").
Proof.
  intros Hdir Hstem Hdots Hext Hext' Hentry.
  set (file := stem ++ "." ++ ext).
  assert (Hfile : rfind sep file = None).
  { unfold file. rewrite rfind_append. cbn [append rfind]. rewrite Hext.
    cbn. exact Hstem. }
  assert (Hdot : rfind extsep file = Some (String.length stem)).
  { unfold file. rewrite rfind_append. cbn [append rfind]. rewrite Hext'.
    cbn. now rewrite Nat.add_0_r. }
  assert (Hp : dir ++ "/" ++ file = (dir ++ "/") ++ file).
  { symmetry. apply append_assoc. }
  assert (Hlen : after_sep ((dir ++ "/") ++ file) = String.length (dir ++ "/")).
  { unfold after_sep. rewrite rfind_append, Hfile, rfind_append. cbn [rfind].
    change (Ascii.eqb "/" sep) with true. cbv iota.
    rewrite Nat.add_0_r. symmetry. apply length_append_sep. }
  assert (Hbase : basename (dir ++ "/" ++ file) = file).
  { unfold basename. rewrite Hp, Hlen. apply drop_append. }
  assert (Hstemtxt : fst (splitext file) = stem).
  { unfold splitext, after_sep. rewrite Hdot, Hfile. cbn [Nat.leb andb].
    rewrite Nat.sub_0_r.
    change (substring 0 (String.length stem) file) with (take (String.length stem) file).
    unfold file at 1. rewrite take_append, Hdots. cbn [negb fst].
    unfold file. apply take_append. }
  assert (Hstart : startswith_sep (stem ++ "_results.xlsx") = false).
  { destruct stem as [|x stem]; [discriminate Hdots|].
    cbn. exact (rfind_none_head _ _ _ Hstem). }
  assert (Hne : String.eqb (dir ++ "/" ++ file) "" = false).
  { destruct dir; reflexivity. }
  unfold browse_input_file. rewrite Hne. cbn [negb].
  change (output_file_entry (set_input (dir ++ "/" ++ file) w)) with (output_file_entry w).
  rewrite Hentry. cbn [String.eqb].
  cbn [output_file_path set_output]. f_equal.
  rewrite Hbase, Hstemtxt. unfold dirname. rewrite Hp, Hlen, take_append.
  unfold join. rewrite Hstart.
  destruct dir as [|x dir].
  - reflexivity.
  - rewrite (all_char_append_sep _ Hdir) by discriminate.
    replace (String.eqb (String x dir ++ "/") "") with false by reflexivity.
    cbn [negb andb]. rewrite (rstrip_append_sep _ Hdir), Hdir.
    replace (String.eqb (String x dir) "") with false by reflexivity.
    cbn [orb]. reflexivity.
Qed.

End PlainPaths.

Lemma suggestion_of_plain_path_witness :
  output_file_path (browse_input_file ("/x/y.d" ++ "/" ++ "report.v2" ++ "." ++ "xls")%string
                                      (@initial Qt.row))
  = Some ("/x/y.d" ++ "/" ++ "report.v2" ++ "_results.xlsx")%string.
Proof.
  exact (suggestion_of_plain_path initial "/x/y.d" "report.v2" "xls"
           eq_refl eq_refl eq_refl eq_refl eq_refl eq_refl).
Defined.

(** ** The suggestion and the input *)

Section Suggestion.
Import posixpath.
Local Open Scope string_scope.

Lemma rfind_split c s i :
  rfind c s = Some i ->
  exists u v, s = u ++ String c v /\ String.length u = i /\ rfind c v = None.
Proof.
  revert i. induction s as [|x s IH]; intros i H; [discriminate H|].
  cbn [rfind] in H. destruct (rfind c s) as [j|] eqn:Hj.
  - injection H as <-. destruct (IH j eq_refl) as [u [v [Hs [Hl Hv]]]].
    exists (String x u), v. cbn [append String.length]. rewrite <- Hs, Hl. auto.
  - destruct (Ascii.eqb x c) eqn:Hx; [|discriminate H]. injection H as <-.
    apply Ascii.eqb_eq in Hx. subst x. exists "", s. auto.
Qed.

Lemma append_nil_r s : s ++ "" = s.
Proof. induction s as [|x s IH]; cbn [append]; [reflexivity|now rewrite IH]. Qed.

Lemma append_inj a x y : a ++ x = a ++ y -> x = y.
Proof.
  induction a as [|c a IH]; cbn [append]; intros H; [exact H|].
  injection H as H. exact (IH H).
Qed.

Lemma rfind_prefix_none c u v : rfind c (u ++ v) = None -> rfind c u = None.
Proof. rewrite rfind_append. destruct (rfind c v); [discriminate|auto]. Qed.

Lemma startswith_sep_rfind c : rfind sep c = None -> startswith_sep c = false.
Proof.
  destruct c as [|x c]; [reflexivity|]. intros H. exact (rfind_none_head _ _ _ H).
Qed.

Lemma endswith_sep_split a : endswith_sep a = true -> exists u, a = u ++ "/".
Proof.
  induction a as [|x a IH]; [discriminate|]. destruct a as [|y a].
  - cbn. intros H. apply Ascii.eqb_eq in H. subst x. exists "". reflexivity.
  - intros H. destruct (IH H) as [u Hu]. exists (String x u).
    cbn [append]. now rewrite <- Hu.
Qed.

Lemma basename_after_slash u c :
  rfind sep c = None -> basename ((u ++ "/") ++ c) = c.
Proof.
  intros Hc. unfold basename, after_sep. rewrite rfind_append, Hc, rfind_append.
  cbn [rfind]. change (Ascii.eqb "/" sep) with true. cbv iota.
  rewrite Nat.add_0_r, <- length_append_sep. apply drop_append.
Qed.

(** The last component of a path holds no slash. *)
Lemma basename_no_sep p : rfind sep (basename p) = None.
Proof.
  unfold basename, after_sep. destruct (rfind sep p) as [i|] eqn:Hi.
  - destruct (rfind_split _ _ _ Hi) as [u [v [Hp [Hl Hv]]]].
    assert (Hp' : p = (u ++ "/") ++ v) by (rewrite append_assoc; exact Hp).
    rewrite Hp', <- Hl, <- length_append_sep, drop_append. exact Hv.
  - unfold drop. rewrite Nat.sub_0_r, substring_whole. exact Hi.
Qed.

(** [splitext] cuts its argument in two, the extension being empty or
    starting with a dot. *)
Lemma splitext_parts b :
  b = fst (splitext b) ++ snd (splitext b)
  /\ (snd (splitext b) = "" \/ exists v, snd (splitext b) = String extsep v).
Proof.
  unfold splitext. destruct (rfind extsep b) as [i|] eqn:Hi.
  - destruct (_ && _); cbn [fst snd].
    + destruct (rfind_split _ _ _ Hi) as [u [v [Hb [Hl Hv]]]]. subst i.
      rewrite Hb, take_append, drop_append. split; [reflexivity|].
      right. exists v. reflexivity.
    + rewrite append_nil_r. auto.
  - cbn [fst snd]. rewrite append_nil_r. auto.
Qed.

Lemma basename_join a c : rfind sep c = None -> basename (join a c) = c.
Proof.
  intros Hc. unfold join. rewrite (startswith_sep_rfind _ Hc).
  destruct (String.eqb a "") eqn:Ha.
  - apply String.eqb_eq in Ha. subst a. cbn [orb append].
    unfold basename, after_sep. rewrite Hc. unfold drop.
    rewrite Nat.sub_0_r. apply substring_whole.
  - cbn [orb]. destruct (endswith_sep a) eqn:He.
    + destruct (endswith_sep_split _ He) as [u ->]. apply basename_after_slash, Hc.
    + replace (a ++ String sep c) with ((a ++ "/") ++ c)
        by (rewrite append_assoc; reflexivity).
      apply basename_after_slash, Hc.
Qed.

Lemma suggestion_basename p :
  basename (join (dirname p) (fst (splitext (basename p)) ++ "_results.xlsx"))
  = fst (splitext (basename p)) ++ "_results.xlsx".
Proof.
  apply basename_join. rewrite rfind_append.
  change (rfind sep "_results.xlsx") with (@None nat). cbv iota.
  pose proof (basename_no_sep p) as Hn.
  rewrite (proj1 (splitext_parts (basename p))) in Hn.
  exact (rfind_prefix_none _ _ _ Hn).
Qed.

Lemma suggestion_differs p :
  join (dirname p) (fst (splitext (basename p)) ++ "_results.xlsx") <> p.
Proof.
  intros H. pose proof (suggestion_basename p) as Hb. rewrite H in Hb.
  destruct (splitext_parts (basename p)) as [Hp He].
  rewrite Hp in Hb at 1. apply append_inj in Hb.
  destruct He as [He | [v He]]; rewrite He in Hb; discriminate Hb.
Qed.

(** X17. The output path suggested for a chosen input is never the input
    itself: whatever the input path, the suggestion names a file whose
    name is the input's name up to its extension followed by
    [_results.xlsx], so a run with the suggested output does not write
    over its input. *)
Theorem suggestion_is_not_input {R} (w : ui R) file_path :
  file_path <> "" ->
  output_file_entry w = "" ->
  exists p,
    output_file_path (browse_input_file file_path w) = Some p
    /\ p <> file_path
    /\ basename p = fst (splitext (basename file_path)) ++ "_results.xlsx".
Proof.
  intros Hf He.
  destruct (browse_input_file_paths w file_path Hf) as [_ [Hempty _]].
  destruct (Hempty He) as [Hp _].
  eexists. split; [exact Hp|]. split.
  - apply suggestion_differs.
  - apply suggestion_basename.
Qed.

End Suggestion.

Lemma suggestion_is_not_input_witness :
  exists p,
    output_file_path (browse_input_file "/x/a_results.xlsx" (@initial Tk.row)) = Some p
    /\ p <> "/x/a_results.xlsx"
    /\ posixpath.basename p = "a_results_results.xlsx".
Proof.
  assert (Hf : "/x/a_results.xlsx" <> "") by discriminate.
  exact (suggestion_is_not_input initial "/x/a_results.xlsx" Hf eq_refl).
Defined.


(** ** The suggestion, part by part *)

Section SuggestionParts.
Import posixpath.
Local Open Scope string_scope.

Lemma occurs_rfind c s : occurs c s = false <-> rfind c s = None.
Proof.
  induction s as [|x s IH]; cbn [occurs rfind]; [tauto|].
  destruct (rfind c s) as [i|].
  - split; [|discriminate]. intros H. apply orb_false_iff in H. destruct H as [_ H].
    apply IH in H. discriminate H.
  - destruct (Ascii.eqb x c); cbn [orb].
    + split; discriminate.
    + split; [reflexivity|]. intros _. apply IH. reflexivity.
Qed.

Lemma length_copies n c : String.length (copies n c) = n.
Proof. induction n as [|n IH]; cbn; [reflexivity|now rewrite IH]. Qed.

Lemma copies_shift n c v : copies n c ++ String c v = copies (S n) c ++ v.
Proof.
  induction n as [|n IH]; [reflexivity|].
  change (String c (copies n c ++ String c v) = String c (copies (S n) c ++ v)).
  now rewrite IH.
Qed.

Lemma copies_snoc n c : copies (S n) c = copies n c ++ String c "".
Proof. rewrite copies_shift. symmetry. apply append_nil_r. Qed.

Lemma all_char_copies n c : all_char c (copies n c) = true.
Proof. induction n as [|n IH]; cbn; [reflexivity|]. now rewrite Ascii.eqb_refl. Qed.

Lemma all_char_is_copies c s : all_char c s = true -> s = copies (String.length s) c.
Proof.
  induction s as [|x s IH]; cbn; [reflexivity|]. intros H.
  apply andb_true_iff in H. destruct H as [H1 H2].
  apply Ascii.eqb_eq in H1. subst x. f_equal. exact (IH H2).
Qed.

Lemma all_char_append c a b : all_char c (a ++ b) = all_char c a && all_char c b.
Proof.
  induction a as [|x a IH]; cbn [append all_char]; [reflexivity|].
  now rewrite IH, andb_assoc.
Qed.

Lemma rfind_copies n c : rfind c (copies (S n) c) = Some n.
Proof.
  induction n as [|n IH].
  - cbn. now rewrite Ascii.eqb_refl.
  - change (copies (S (S n)) c) with (String c (copies (S n) c)).
    cbn [rfind]. now rewrite IH.
Qed.

Lemma take_copies n c s : take n (copies n c ++ s) = copies n c.
Proof.
  pose proof (take_append (copies n c) s) as H. now rewrite length_copies in H.
Qed.

Lemma endswith_sep_append_sep u : endswith_sep (u ++ "/") = true.
Proof.
  induction u as [|x u IH]; [reflexivity|]. cbn [append].
  destruct u; [reflexivity|exact IH].
Qed.

Lemma endswith_sep_in_words dir :
  endswith_sep dir = false <-> forall u, dir <> u ++ "/".
Proof.
  split.
  - intros H u ->. rewrite endswith_sep_append_sep in H. discriminate H.
  - intros H. destruct (endswith_sep dir) eqn:He; [|reflexivity].
    destruct (endswith_sep_split _ He) as [u Hu]. elim (H u Hu).
Qed.

Lemma all_char_endswith a :
  a <> "" -> endswith_sep a = false -> all_char sep a = false.
Proof.
  induction a as [|x a IH]; intros Hn He; [congruence|].
  cbn [all_char]. destruct a as [|y a].
  - cbn in He. rewrite He. reflexivity.
  - rewrite IH; [apply andb_false_r|discriminate|exact He].
Qed.

Lemma rstrip_snoc c s : rstrip c (s ++ String c "") = rstrip c s.
Proof.
  induction s as [|x s IH]; cbn [append rstrip].
  - now rewrite Ascii.eqb_refl.
  - now rewrite IH.
Qed.

Lemma rstrip_copies a n :
  endswith_sep a = false -> rstrip sep (a ++ copies n sep) = a.
Proof.
  intros He. induction n as [|n IH].
  - cbn [copies]. rewrite append_nil_r, <- (rstrip_snoc sep a).
    exact (rstrip_append_sep a He).
  - rewrite copies_snoc, <- append_assoc, rstrip_snoc. exact IH.
Qed.

(** A string is a part that does not end with a slash, or is empty,
    followed by slashes. *)
Lemma trailing_slashes u :
  exists d n, u = d ++ copies n sep /\ (d = "" \/ (d <> "" /\ endswith_sep d = false)).
Proof.
  induction u as [|x u [d [n [Hu Hd]]]].
  - exists "", 0. auto.
  - destruct Hd as [-> | [Hne He]].
    + cbn [append] in Hu. destruct (Ascii.eqb x sep) eqn:Hx.
      * apply Ascii.eqb_eq in Hx. subst x u. exists "", (S n). auto.
      * exists (String x ""), n. subst u. split; [reflexivity|].
        right. split; [discriminate|exact Hx].
    + exists (String x d), n. subst u. split; [reflexivity|].
      right. split; [discriminate|]. destruct d; [congruence|exact He].
Qed.

(** Where the last component of a path starts. *)
Lemma after_sep_slash u c :
  rfind sep c = None -> after_sep ((u ++ "/") ++ c) = String.length (u ++ "/").
Proof.
  intros Hc. unfold after_sep. rewrite rfind_append, Hc, rfind_append.
  cbn [rfind]. change (Ascii.eqb "/" sep) with true. cbv iota.
  rewrite Nat.add_0_r. symmetry. apply length_append_sep.
Qed.

Lemma after_sep_none c : rfind sep c = None -> after_sep c = 0.
Proof. intros Hc. unfold after_sep. now rewrite Hc. Qed.

Lemma drop_0 s : drop 0 s = s.
Proof. unfold drop. rewrite Nat.sub_0_r. apply substring_whole. Qed.

Lemma take_0 s : take 0 s = "".
Proof. unfold take. destruct s; reflexivity. Qed.

(** [splitext] finds the stem of a file name. *)
Lemma splitext_stem name stem :
  rfind sep name = None -> stem_of name stem -> fst (splitext name) = stem.
Proof.
  intros Hsep Hstem. unfold splitext, extsep.
  destruct Hstem as [stem ext Hname Hext Hdots | k rest Hname Hrest].
  - apply occurs_rfind in Hext.
    assert (Hd : all_char "." stem = false).
    { destruct (all_char "." stem) eqn:Ha; [|reflexivity].
      elim (Hdots _ (all_char_is_copies _ _ Ha)). }
    assert (Hdot : rfind "." name = Some (String.length stem)).
    { rewrite Hname, rfind_append. cbn [append rfind]. rewrite Hext.
      cbn. now rewrite Nat.add_0_r. }
    rewrite Hdot, (after_sep_none _ Hsep). cbn [Nat.leb andb].
    rewrite Nat.sub_0_r.
    change (substring 0 (String.length stem) name) with (take (String.length stem) name).
    rewrite Hname at 1. rewrite take_append, Hd. cbn [negb fst].
    rewrite Hname. apply take_append.
  - apply occurs_rfind in Hrest. destruct k as [|k].
    + cbn [copies append] in Hname. rewrite Hname, Hrest. reflexivity.
    + assert (Hdot : rfind "." name = Some k).
      { rewrite Hname, rfind_append, Hrest. apply rfind_copies. }
      rewrite Hdot, (after_sep_none _ Hsep). cbn [Nat.leb andb].
      rewrite Nat.sub_0_r.
      change (substring 0 k name) with (take k name).
      rewrite Hname at 1. rewrite copies_snoc, append_assoc, take_copies.
      rewrite all_char_copies. reflexivity.
Qed.

(** Every file name has a stem. *)
Lemma stem_exists name : exists stem, stem_of name stem.
Proof.
  unfold extsep. destruct (rfind "." name) as [i|] eqn:Hd.
  - destruct (rfind_split _ _ _ Hd) as [u [v [Hname [_ Hv]]]].
    apply occurs_rfind in Hv.
    destruct (all_char "." u) eqn:Ha.
    + exists name. apply (stem_whole_name name (S (String.length u)) v); [|exact Hv].
      rewrite <- copies_shift, <- (all_char_is_copies _ _ Ha). exact Hname.
    + exists u. apply (stem_before_extension name u v); [exact Hname|exact Hv|].
      intros k Hk. rewrite Hk, all_char_copies in Ha. discriminate Ha.
  - exists name. apply (stem_whole_name name 0 name); [reflexivity|].
    apply occurs_rfind, Hd.
Qed.

Lemma stem_no_sep name stem :
  rfind sep name = None -> stem_of name stem ->
  startswith_sep (stem ++ "_results.xlsx") = false.
Proof.
  intros Hsep Hstem. apply startswith_sep_rfind. rewrite rfind_append.
  change (rfind sep "_results.xlsx") with (@None nat). cbv iota.
  destruct Hstem as [stem ext Hname _ _ | k rest _ _]; [|exact Hsep].
  rewrite Hname in Hsep. exact (rfind_prefix_none _ _ _ Hsep).
Qed.

(** The handler's expression gives the path the specification words
    describe. *)
Lemma suggested_sound path out :
  suggested path out ->
  join (dirname path) (fst (splitext (basename path)) ++ "_results.xlsx") = out.
Proof.
  intros H. destruct H as [name stem Hn Hs | n name stem Hn Hs | dir n name stem Hne Hend Hn Hs];
    apply occurs_rfind in Hn; pose proof (stem_no_sep _ _ Hn Hs) as Hstart.
  - unfold basename, dirname. rewrite (after_sep_none _ Hn), drop_0, take_0.
    cbn [String.eqb negb andb]. rewrite (splitext_stem _ _ Hn Hs).
    unfold join. rewrite Hstart. reflexivity.
  - assert (Hp : copies (S n) "/" ++ name = (copies n "/" ++ "/") ++ name)
      by (now rewrite <- copies_snoc).
    assert (Hb : basename (copies (S n) "/" ++ name) = name).
    { rewrite Hp. apply basename_after_slash, Hn. }
    assert (Hd : dirname (copies (S n) "/" ++ name) = copies (S n) "/").
    { unfold dirname. rewrite Hp, (after_sep_slash _ _ Hn), take_append.
      rewrite <- copies_snoc.
      change (all_char sep (copies (S n) "/")) with (all_char "/" (copies (S n) "/")).
      rewrite all_char_copies. now rewrite andb_false_r. }
    assert (He : endswith_sep (copies (S n) "/") = true)
      by (rewrite copies_snoc; apply endswith_sep_append_sep).
    rewrite Hb, Hd, (splitext_stem _ _ Hn Hs). unfold join.
    rewrite Hstart, He, orb_true_r. reflexivity.
  - apply endswith_sep_in_words in Hend.
    assert (Hp : dir ++ copies (S n) "/" ++ name
                 = ((dir ++ copies n "/") ++ "/") ++ name).
    { rewrite copies_snoc, !append_assoc. reflexivity. }
    assert (Hh : (dir ++ copies n "/") ++ "/" = dir ++ copies (S n) "/").
    { rewrite copies_snoc, append_assoc. reflexivity. }
    assert (Hb : basename (dir ++ copies (S n) "/" ++ name) = name).
    { rewrite Hp. apply basename_after_slash, Hn. }
    assert (Hd : dirname (dir ++ copies (S n) "/" ++ name) = dir).
    { unfold dirname. rewrite Hp, (after_sep_slash _ _ Hn), take_append, Hh.
      rewrite all_char_append, (all_char_endswith _ Hne Hend).
      replace (String.eqb (dir ++ copies (S n) "/") "") with false
        by (destruct dir; [congruence|reflexivity]).
      cbn [negb andb]. apply (rstrip_copies dir (S n) Hend). }
    rewrite Hb, Hd, (splitext_stem _ _ Hn Hs). unfold join. rewrite Hstart, Hend.
    replace (String.eqb dir "") with false by (destruct dir; [congruence|reflexivity]).
    reflexivity.
Qed.

(** Every path has a suggestion. *)
Lemma suggested_exists path : exists out, suggested path out.
Proof.
  destruct (rfind sep path) as [i|] eqn:Hs.
  - destruct (rfind_split _ _ _ Hs) as [u [name [Hpath [_ Hname]]]].
    apply occurs_rfind in Hname.
    destruct (stem_exists name) as [stem Hstem].
    destruct (trailing_slashes u) as [d [n [Hu Hd]]].
    assert (Hp : path = d ++ copies (S n) "/" ++ name).
    { rewrite Hpath, Hu, append_assoc. f_equal. apply copies_shift. }
    rewrite Hp. destruct Hd as [-> | [Hne He]].
    + eexists. exact (suggested_under_root n name stem Hname Hstem).
    + eexists. apply (suggested_in_directory d n name stem Hne); try assumption.
      apply endswith_sep_in_words, He.
  - destruct (stem_exists path) as [stem Hstem].
    eexists. apply (suggested_bare path stem); [|exact Hstem].
    apply occurs_rfind, Hs.
Qed.

End SuggestionParts.

Lemma suggested_report : suggested "/x/y/report.xlsx" "/x/y/report_results.xlsx".
Proof.
  apply (suggested_in_directory "/x/y" 0 "report.xlsx" "report").
  - discriminate.
  - apply endswith_sep_in_words. reflexivity.
  - reflexivity.
  - apply (stem_before_extension "report.xlsx" "report" "xlsx");
      [reflexivity|reflexivity|].
    intros [|k]; discriminate.
Qed.

(** C8, as the code has it.  Choosing an input file stores its path.  The
    handler goes by the text of the output entry, not by the stored output
    path.  When the entry is empty, the output path becomes the stem of
    the input's file name followed by "_results.xlsx", in the directory of
    the input, and the entry shows it: every input path has such a
    suggestion, and whatever path answers this description is the one
    stored; for /x/y/report.xlsx it is /x/y/report_results.xlsx.  When the
    entry holds some text, the output path and the entry stay as they
    are.  On a window whose entry shows the stored output path this is the
    rule by the stored path: none stored, the suggestion is stored; one
    stored, it stays; and the entry shows the stored path afterwards
    too. *)
Theorem suggested_output_path {R} (w : ui R) (file_path : string) :
  file_path <> "" ->
  let w' := browse_input_file file_path w in
  input_file_path w' = Some file_path
  /\ (output_file_entry w = "" ->
      (exists out, suggested file_path out)
      /\ forall out, suggested file_path out ->
           output_file_path w' = Some out /\ output_file_entry w' = out)
  /\ (output_file_entry w <> "" ->
      output_file_path w' = output_file_path w
      /\ output_file_entry w' = output_file_entry w)
  /\ (output_shown w ->
      (output_file_path w = None ->
       exists out, suggested file_path out /\ output_file_path w' = Some out)
      /\ (forall p, output_file_path w = Some p -> output_file_path w' = Some p)
      /\ output_shown w')
  /\ suggested "/x/y/report.xlsx" "/x/y/report_results.xlsx"
  /\ output_file_path (browse_input_file "/x/y/report.xlsx" (@initial R))
     = Some "/x/y/report_results.xlsx".
Proof.
  intros Hf. cbv zeta.
  destruct (browse_input_file_paths w file_path Hf) as [H1 [Hempty Hset]].
  split; [exact H1|]. split; [|split; [exact Hset|split; [|split]]].
  - intros He. split; [apply suggested_exists|].
    intros out Hout. rewrite <- (suggested_sound _ _ Hout). exact (Hempty He).
  - intros Hs. split; [|split].
    + intros Hp. unfold output_shown in Hs. rewrite Hp in Hs.
      destruct (suggested_exists file_path) as [out Hout]. exists out.
      split; [exact Hout|]. rewrite <- (suggested_sound _ _ Hout).
      exact (proj1 (Hempty Hs)).
    + intros p Hp. unfold output_shown in Hs. rewrite Hp in Hs.
      destruct Hs as [He Hne]. rewrite <- Hp. apply Hset. congruence.
    + exact (browse_input_file_shown w file_path Hf Hs).
  - exact suggested_report.
  - reflexivity.
Qed.

Lemma suggested_output_path_witness :
  output_file_path (browse_input_file "/x/y/report.xlsx" (@initial Tk.row))
  = Some "/x/y/report_results.xlsx"
  /\ output_file_entry (browse_input_file "/x/y/report.xlsx" (@initial Tk.row))
     = "/x/y/report_results.xlsx".
Proof.
  assert (Hf : "/x/y/report.xlsx" <> "") by discriminate.
  pose proof (suggested_output_path (@initial Tk.row) "/x/y/report.xlsx" Hf) as H.
  cbv zeta in H. destruct H as [_ [Hempty [_ [_ [Hs _]]]]].
  exact (proj2 (Hempty eq_refl) _ Hs).
Defined.

(** In the Tkinter window the output entry can be edited.  An output path
    that is set is replaced once its text has been deleted from the entry,
    and with some text typed into the entry no output path is suggested
    although none is set. *)
Lemma output_entry_decides :
  output_file_path
    (Tk.edit_output_entry "" (Tk.browse_output_file "/o/out.xlsx" initial))
  = Some "/o/out.xlsx"
  /\ output_file_path
       (browse_input_file "/x/y/report.xlsx"
          (Tk.edit_output_entry "" (Tk.browse_output_file "/o/out.xlsx" initial)))
     = Some "/x/y/report_results.xlsx"
  /\ output_file_path (Tk.edit_output_entry "out" initial) = None
  /\ output_file_path
       (browse_input_file "/x/y/report.xlsx" (Tk.edit_output_entry "out" initial))
     = None.
Proof. repeat split; reflexivity. Qed.

(** The suggestions of some more paths, in the words of the specification:
    a bare file name, a file under the root, a hidden file, a name with
    two dots. *)
Example suggested_samples :
  suggested "report.xlsx" "report_results.xlsx"
  /\ suggested "/report.xls" "/report_results.xlsx"
  /\ suggested "/x/.hidden" "/x/.hidden_results.xlsx"
  /\ suggested "/x//a.b.xlsx" "/x/a.b_results.xlsx".
Proof.
  split; [|split; [|split]].
  - apply (suggested_bare "report.xlsx" "report"); [reflexivity|].
    apply (stem_before_extension _ "report" "xlsx"); [reflexivity|reflexivity|].
    intros [|k]; discriminate.
  - apply (suggested_under_root 0 "report.xls" "report"); [reflexivity|].
    apply (stem_before_extension _ "report" "xls"); [reflexivity|reflexivity|].
    intros [|k]; discriminate.
  - apply (suggested_in_directory "/x" 0 ".hidden" ".hidden");
      [discriminate|apply endswith_sep_in_words; reflexivity|reflexivity|].
    apply (stem_whole_name _ 1 "hidden"); reflexivity.
  - apply (suggested_in_directory "/x" 1 "a.b.xlsx" "a.b");
      [discriminate|apply endswith_sep_in_words; reflexivity|reflexivity|].
    apply (stem_before_extension _ "a.b" "xlsx"); [reflexivity|reflexivity|].
    intros [|[|k]]; discriminate.
Qed.
(** * Further properties *)

(** ** The results table on any result *)

Section Numbering.
Context {R : Type}.
Variable doc_row : Z -> PyVal -> PyVal -> result R.
Variable col : R -> string.
Hypothesis col_row : forall k n d r, doc_row k n d = Ok r -> col r = str_int k.

Lemma numbered_snoc rows row_id r n d :
  numbered col rows row_id -> doc_row row_id n d = Ok r ->
  numbered col (rows ++ [r]) (row_id + 1).
Proof.
  intros [Hm Hid] Hr. split.
  - rewrite map_app, length_app, Nat.add_1_r, seq_S, map_app, Hm.
    cbn [map]. rewrite (col_row _ _ _ _ Hr), Hid. reflexivity.
  - rewrite length_app, Nat.add_1_r, Hid. lia.
Qed.

Lemma insert_docs_numbered name docs :
  forall row_id rows,
    numbered col rows row_id ->
    let out := insert_docs doc_row name docs row_id rows in
    (exists k, numbered col (fst out) k)
    /\ forall z, snd out = Ok z -> numbered col (fst out) z.
Proof.
  induction docs as [|doc docs IH]; intros row_id rows Hn; cbn [insert_docs].
  - split; [exists row_id; exact Hn|]. intros z Hz. injection Hz as <-. exact Hn.
  - destruct (doc_row row_id name doc) as [r|e] eqn:Hr.
    + apply IH. exact (numbered_snoc _ _ _ _ _ Hn Hr).
    + split; [exists row_id; exact Hn|]. intros z Hz. discriminate Hz.
Qed.

Lemma insert_elements_numbered elements :
  forall row_id rows,
    numbered col rows row_id ->
    let out := insert_elements doc_row elements row_id rows in
    (exists k, numbered col (fst out) k)
    /\ forall z, snd out = Ok z -> numbered col (fst out) z.
Proof.
  induction elements as [|el elements IH]; intros row_id rows Hn;
    cbn [insert_elements].
  - split; [exists row_id; exact Hn|]. intros z Hz. injection Hz as <-. exact Hn.
  - destruct (element_parts el) as [[name docs]|e].
    + pose proof (insert_docs_numbered name docs row_id rows Hn) as [Hex Hok].
      destruct (insert_docs doc_row name docs row_id rows) as [rows' [z|e]].
      * apply IH. exact (Hok z eq_refl).
      * split; [exact Hex|]. intros z Hz. discriminate Hz.
    + split; [exists row_id; exact Hn|]. intros z Hz. discriminate Hz.
Qed.

Lemma fill_tree_numbered results :
  map col (fst (fill_tree doc_row results))
  = map (fun k => str_int (Z.of_nat k))
        (seq 1 (length (fst (fill_tree doc_row results)))).
Proof.
  unfold fill_tree.
  destruct (rbind (as_dict results) _) as [elements|e]; [|reflexivity].
  assert (H0 : numbered col [] 1%Z) by (split; reflexivity).
  destruct (insert_elements_numbered elements 1%Z [] H0) as [[k [Hm _]] _].
  exact Hm.
Qed.

End Numbering.

Lemma tk_tree_is_filled results (w : ui Tk.row) :
  results_tree (Tk.update_results_tree results w) = fst (fill_tree Tk.doc_row results).
Proof.
  unfold Tk.update_results_tree.
  destruct (fill_tree Tk.doc_row results) as [rows [z|e]]; reflexivity.
Qed.

Lemma qt_tree_is_filled results (w : ui Qt.row) :
  results_tree (Qt.update_results_tree results w) = fst (fill_tree Qt.doc_row results).
Proof.
  unfold Qt.update_results_tree.
  destruct (fill_tree Qt.doc_row results) as [rows [z|e]]; reflexivity.
Qed.

(** X1. Whatever object [update_results_tree] is given, well-formed or
    not, the rows it leaves are numbered 1, 2, 3, ... without a gap, also
    when an exception stopped the filling. *)
Theorem rows_numbered_from_one results (wt : ui Tk.row) (wq : ui Qt.row) :
  let tk := results_tree (Tk.update_results_tree results wt) in
  let qt := results_tree (Qt.update_results_tree results wq) in
  map Tk.row_text tk = map (fun k => str_int (Z.of_nat k)) (seq 1 (length tk))
  /\ map Qt.row_text qt = map (fun k => str_int (Z.of_nat k)) (seq 1 (length qt)).
Proof.
  cbv zeta. rewrite tk_tree_is_filled, qt_tree_is_filled. split.
  - exact (fill_tree_numbered Tk.doc_row Tk.row_text tk_doc_row_text results).
  - exact (fill_tree_numbered Qt.doc_row Qt.row_text qt_doc_row_text results).
Qed.

Section Stopping.
Context {R : Type}.
Variable doc_row : Z -> PyVal -> PyVal -> result R.

Lemma insert_docs_stops name good bad rest ex :
  (forall k doc, In doc good -> exists r, doc_row k name doc = Ok r) ->
  (forall k, doc_row k name bad = Raise ex) ->
  forall row_id rows,
  exists new,
    insert_docs doc_row name (good ++ bad :: rest) row_id rows = (rows ++ new, Raise ex)
    /\ rows_match doc_row row_id (map (pair name) good) new.
Proof.
  intros Hgood Hbad. induction good as [|doc good IH]; intros row_id rows.
  - exists []. cbn [app insert_docs map rows_match]. rewrite Hbad, app_nil_r.
    split; [reflexivity|exact I].
  - destruct (Hgood row_id doc (or_introl eq_refl)) as [r Hr].
    destruct (IH (fun k d H => Hgood k d (or_intror H)) (row_id + 1)%Z (rows ++ [r]))
      as [new [Hins Hm]].
    exists (r :: new). cbn [app insert_docs]. rewrite Hr, Hins. split.
    + rewrite <- app_assoc. reflexivity.
    + cbn [map rows_match]. split; assumption.
Qed.

Lemma insert_elements_app a b :
  forall row_id rows,
    insert_elements doc_row (a ++ b) row_id rows
    = match insert_elements doc_row a row_id rows with
      | (rows', Ok k) => insert_elements doc_row b k rows'
      | (rows', Raise e) => (rows', Raise e)
      end.
Proof.
  induction a as [|el a IH]; intros row_id rows; cbn [app insert_elements].
  - reflexivity.
  - destruct (element_parts el) as [[name docs]|e]; [|reflexivity].
    destruct (insert_docs doc_row name docs row_id rows) as [rows' [k|e]];
      [apply IH|reflexivity].
Qed.

Lemma insert_elements_stops before el after name good bad rest ex :
  (forall x, In x before ->
     element_parts x = Ok (name_of x, docs_of x)
     /\ forall k doc, In doc (docs_of x) -> exists r, doc_row k (name_of x) doc = Ok r) ->
  element_parts el = Ok (name, good ++ bad :: rest) ->
  (forall k doc, In doc good -> exists r, doc_row k name doc = Ok r) ->
  (forall k, doc_row k name bad = Raise ex) ->
  forall row_id rows,
  exists new,
    insert_elements doc_row (before ++ el :: after) row_id rows = (rows ++ new, Raise ex)
    /\ rows_match doc_row row_id
         (flat_map (fun x => map (pair (name_of x)) (docs_of x)) before
          ++ map (pair name) good) new.
Proof.
  intros Hbefore Hparts Hgood Hbad row_id rows.
  destruct (insert_elements_ok doc_row before Hbefore row_id rows) as [new1 [H1 M1]].
  set (items := flat_map (fun x => map (pair (name_of x)) (docs_of x)) before) in *.
  destruct (insert_docs_stops name good bad rest ex Hgood Hbad
              (row_id + Z.of_nat (length items))%Z (rows ++ new1)) as [new2 [H2 M2]].
  exists (new1 ++ new2). rewrite insert_elements_app, H1.
  cbn [insert_elements]. rewrite Hparts, H2. split.
  - rewrite <- app_assoc. reflexivity.
  - apply rows_match_app; assumption.
Qed.

End Stopping.

(** A document result that breaks the contract raises, whatever the
    counter. *)
Lemma tk_doc_row_bad name doc :
  wf_doc doc = false -> exists ex, forall k, Tk.doc_row k name doc = Raise ex.
Proof.
  intros H. unfold Tk.doc_row.
  destruct doc; try (eexists; intros k; reflexivity).
  cbn [as_dict rbind]. unfold wf_doc in H.
  destruct (dict_get d "document_path" (PyStr "")) eqn:Hp;
    try (eexists; intros k; reflexivity).
  cbn [andb os_path_basename rbind] in *. unfold doc_cells.
  destruct (py_truthy (dict_get d "success" (PyBool false))); [|discriminate H].
  unfold has_key, py_getitem.
  destruct (assoc "extraction" d) as [v|]; [|discriminate H]. cbn [andb rbind].
  destruct v; try discriminate H; eexists; intros k; reflexivity.
Qed.

Lemma qt_doc_row_bad name doc :
  match name with PyStr _ => true | _ => false end = true ->
  wf_doc doc = false -> exists ex, forall k, Qt.doc_row k name doc = Raise ex.
Proof.
  intros Hn H. unfold Qt.doc_row.
  destruct doc; try (eexists; intros k; reflexivity).
  cbn [as_dict rbind]. unfold wf_doc in H.
  destruct (dict_get d "document_path" (PyStr "")) eqn:Hp;
    try (eexists; intros k; reflexivity).
  destruct name; try discriminate Hn.
  cbn [andb os_path_basename Qt.qstring rbind] in *. unfold doc_cells.
  destruct (py_truthy (dict_get d "success" (PyBool false))); [|discriminate H].
  unfold has_key, py_getitem.
  destruct (assoc "extraction" d) as [v|]; [|discriminate H]. cbn [andb rbind].
  destruct v; try discriminate H; eexists; intros k; reflexivity.
Qed.

(** X2. When the first document result that breaks the contract (it is no
    dict, its path is no string, or it succeeded with an extraction that
    is no dict) comes after well-formed ones, the table keeps one row for
    each document result before it and none from it on, and one ERROR
    line with the exception is logged: the rows are not rolled back. *)
Theorem table_stops_at_bad_document d before e after good bad rest
        (wt : ui Tk.row) (wq : ui Qt.row) :
  dict_get d "results" (PyList []) = PyList (before ++ PyDict e :: after) ->
  forallb wf_element before = true ->
  dict_get e "document_results" (PyList []) = PyList (good ++ bad :: rest) ->
  forallb wf_doc good = true ->
  wf_doc bad = false ->
  let shown :=
    flat_map (fun x => map (pair (name_of x)) (docs_of x)) before
    ++ map (pair (name_of (PyDict e))) good in
  let tk := Tk.update_results_tree (PyDict d) wt in
  let qt := Qt.update_results_tree (PyDict d) wq in
  (exists ex,
      rows_match Tk.doc_row 1 shown (results_tree tk)
      /\ length (results_tree tk) = length shown
      /\ log_text tk
         = log_text wt ++ [(ERROR, [Lit "Error updating results tree: "; ExnStr ex])])
  /\ (forallb qt_name (before ++ [PyDict e]) = true ->
      exists ex,
        rows_match Qt.doc_row 1 shown (results_tree qt)
        /\ length (results_tree qt) = length shown
        /\ log_text qt
           = log_text wq ++ [(ERROR, [Lit "Error updating results tree: "; ExnStr ex])]).
Proof.
  intros Hres Hbefore Hdocs Hgood Hbad shown tk qt.
  assert (Hparts : element_parts (PyDict e)
                   = Ok (name_of (PyDict e), good ++ bad :: rest)).
  { unfold element_parts, name_of. cbn [as_dict rbind]. rewrite Hdocs. reflexivity. }
  rewrite forallb_forall in Hbefore, Hgood.
  split.
  - destruct (tk_doc_row_bad (name_of (PyDict e)) bad Hbad) as [ex Hex].
    exists ex.
    assert (Hb : forall x, In x before ->
              element_parts x = Ok (name_of x, docs_of x)
              /\ forall k doc, In doc (docs_of x) ->
                   exists r, Tk.doc_row k (name_of x) doc = Ok r).
    { intros x Hx. split; [apply wf_element_parts, Hbefore, Hx|].
      intros k doc Hd. eexists. apply tk_doc_row_wf.
      exact (wf_element_docs _ _ (Hbefore _ Hx) Hd). }
    assert (Hg : forall k doc, In doc good ->
              exists r, Tk.doc_row k (name_of (PyDict e)) doc = Ok r).
    { intros k doc Hd. eexists. apply tk_doc_row_wf, Hgood, Hd. }
    destruct (insert_elements_stops Tk.doc_row before (PyDict e) after _ good bad rest ex
                Hb Hparts Hg Hex 1%Z []) as [new [Hins Hm]].
    fold shown in Hm. subst tk.
    unfold Tk.update_results_tree, fill_tree. cbn [as_dict rbind].
    rewrite Hres. cbn [py_iter]. rewrite Hins.
    cbn [app results_tree log_text append_log set_results_tree].
    split; [exact Hm|]. split; [exact (rows_match_length _ _ _ _ Hm)|reflexivity].
  - intros Hq. rewrite forallb_forall in Hq.
    assert (Hne : match name_of (PyDict e) with PyStr _ => true | _ => false end = true).
    { apply (Hq (PyDict e)). apply in_or_app. right. left. reflexivity. }
    destruct (qt_doc_row_bad (name_of (PyDict e)) bad Hne Hbad) as [ex Hex].
    exists ex.
    assert (Hb : forall x, In x before ->
              element_parts x = Ok (name_of x, docs_of x)
              /\ forall k doc, In doc (docs_of x) ->
                   exists r, Qt.doc_row k (name_of x) doc = Ok r).
    { intros x Hx. split; [apply wf_element_parts, Hbefore, Hx|].
      intros k doc Hd. eexists. apply qt_doc_row_wf.
      - exact (wf_element_docs _ _ (Hbefore _ Hx) Hd).
      - assert (Hx' : qt_name x = true) by (apply Hq, in_or_app; left; exact Hx).
        unfold qt_name in Hx'. destruct (name_of x); try discriminate Hx'; reflexivity. }
    assert (Hg : forall k doc, In doc good ->
              exists r, Qt.doc_row k (name_of (PyDict e)) doc = Ok r).
    { intros k doc Hd. eexists. apply qt_doc_row_wf; [apply Hgood, Hd|].
      destruct (name_of (PyDict e)); try discriminate Hne; reflexivity. }
    destruct (insert_elements_stops Qt.doc_row before (PyDict e) after _ good bad rest ex
                Hb Hparts Hg Hex 1%Z []) as [new [Hins Hm]].
    fold shown in Hm. subst qt.
    unfold Qt.update_results_tree, fill_tree. cbn [as_dict rbind].
    rewrite Hres. cbn [py_iter]. rewrite Hins.
    cbn [app results_tree log_text append_log set_results_tree].
    split; [exact Hm|]. split; [exact (rows_match_length _ _ _ _ Hm)|reflexivity].
Qed.

Lemma table_stops_at_bad_document_witness :
  exists ex,
    length (results_tree
              (Tk.update_results_tree
                 (PyDict [("results",
                           PyList [PyDict [("element_name", PyStr "Total");
                                           ("document_results",
                                            PyList [PyDict [("document_path", PyStr "/a/b.xlsx")];
                                                    PyNone;
                                                    PyDict []])]])])
                 initial)) = 1
    /\ log_text
         (Tk.update_results_tree
            (PyDict [("results",
                      PyList [PyDict [("element_name", PyStr "Total");
                                      ("document_results",
                                       PyList [PyDict [("document_path", PyStr "/a/b.xlsx")];
                                               PyNone;
                                               PyDict []])]])])
            initial)
       = [] ++ [(ERROR, [Lit "Error updating results tree: "; ExnStr ex])].
Proof.
  destruct (proj1 (table_stops_at_bad_document
             [("results",
               PyList [PyDict [("element_name", PyStr "Total");
                               ("document_results",
                                PyList [PyDict [("document_path", PyStr "/a/b.xlsx")];
                                        PyNone;
                                        PyDict []])]])]
             []
             [("element_name", PyStr "Total");
              ("document_results",
               PyList [PyDict [("document_path", PyStr "/a/b.xlsx")]; PyNone; PyDict []])]
             []
             [PyDict [("document_path", PyStr "/a/b.xlsx")]] PyNone [PyDict []]
             initial initial eq_refl eq_refl eq_refl eq_refl eq_refl))
    as [ex [_ [Hl Hlog]]].
  exists ex. split; [exact Hl|exact Hlog].
Defined.

(** X3. A document result that succeeded and carries an extraction is
    shown with the extraction's [value] and [confidence], each replaced by
    "N/A" when the extraction lacks the key; the [found] flag of the
    extraction plays no part. *)
Theorem extraction_cells results (wt : ui Tk.row) (wq : ui Qt.row) i name d e :
  wf_results results = true ->
  nth_error (flat_docs results) i = Some (name, PyDict d) ->
  py_truthy (dict_get d "success" (PyBool false)) = true ->
  assoc "extraction" d = Some (PyDict e) ->
  let value := dict_get e "value" (PyStr "N/A") in
  let confidence := dict_get e "confidence" (PyStr "N/A") in
  (exists r,
      nth_error (results_tree (Tk.update_results_tree results wt)) i = Some r
      /\ Tk.row_value r = value /\ Tk.row_confidence r = confidence)
  /\ (forallb qt_name (elements_of results) = true ->
      exists r,
        nth_error (results_tree (Qt.update_results_tree results wq)) i = Some r
        /\ Qt.row_value r = py_str value /\ Qt.row_confidence r = py_str confidence).
Proof.
  intros H Hi Hs Hx value confidence.
  assert (Hc : shown_cells (PyDict d) = (value, confidence)).
  { unfold shown_cells, doc_success, doc_has_extraction, has_key, doc_extraction.
    rewrite Hs, Hx. reflexivity. }
  split.
  - eexists. split; [exact (tk_row_at results wt i name _ H Hi)|].
    cbn [Tk.row_value Tk.row_confidence]. rewrite Hc. split; reflexivity.
  - intros Hq. eexists. split; [exact (qt_row_at results wq i name _ H Hq Hi)|].
    cbn [Qt.row_value Qt.row_confidence]. rewrite Hc. split; reflexivity.
Qed.

Lemma extraction_cells_witness :
  exists r,
    nth_error (results_tree (Tk.update_results_tree invoice_answer initial)) 0 = Some r
    /\ Tk.row_value r = PyStr "2024-01-05"
    /\ Tk.row_confidence r = PyFloat 0.92%float.
Proof.
  exact (proj1 (extraction_cells invoice_answer initial initial 0
                  (PyStr "Invoice Date")
                  [("document_path", PyStr "/a/inv1.xlsx");
                   ("success", PyBool true);
                   ("extraction",
                    PyDict [("value", PyStr "2024-01-05");
                            ("found", PyBool true);
                            ("confidence", PyFloat 0.92%float)])]
                  [("value", PyStr "2024-01-05");
                   ("found", PyBool true);
                   ("confidence", PyFloat 0.92%float)]
                  eq_refl eq_refl eq_refl eq_refl)).
Defined.

(** ** Element names that are no text *)

Lemma qt_doc_row_name k name doc :
  wf_doc doc = true -> qt_text name = false ->
  Qt.doc_row k name doc = Raise (TypeError name).
Proof.
  intros Hd Hn. unfold Qt.doc_row.
  destruct doc; try discriminate Hd. cbn [as_dict rbind]. unfold wf_doc in Hd.
  destruct (dict_get d "document_path" (PyStr "")); try discriminate Hd.
  cbn [os_path_basename rbind].
  destruct name; try discriminate Hn; reflexivity.
Qed.

(** The PyQt6 table stops at the first element whose name is no text;
    the Tkinter table does not. *)
Lemma qt_table_cut d before e after doc rest
        (wt : ui Tk.row) (wq : ui Qt.row) :
  wf_results (PyDict d) = true ->
  dict_get d "results" (PyList []) = PyList (before ++ PyDict e :: after) ->
  forallb qt_name before = true ->
  dict_get e "document_results" (PyList []) = PyList (doc :: rest) ->
  qt_text (name_of (PyDict e)) = false ->
  let shown := flat_map (fun x => map (pair (name_of x)) (docs_of x)) before in
  let tk := Tk.update_results_tree (PyDict d) wt in
  let qt := Qt.update_results_tree (PyDict d) wq in
  (rows_match Tk.doc_row 1 (flat_docs (PyDict d)) (results_tree tk)
   /\ log_text tk = log_text wt)
  /\ (rows_match Qt.doc_row 1 shown (results_tree qt)
      /\ length (results_tree qt) = length shown
      /\ (length (results_tree qt) < length (results_tree tk))%nat
      /\ log_text qt
         = log_text wq
           ++ [(ERROR, [Lit "Error updating results tree: ";
                        ExnStr (TypeError (name_of (PyDict e)))])]).
Proof.
  intros Hwf Hres Hq Hdocs Hn shown tk qt.
  destruct (tk_table (PyDict d) wt Hwf) as [Htk Hlog]. fold tk in Htk, Hlog.
  split; [split; assumption|].
  assert (Hels : elements_of (PyDict d) = before ++ PyDict e :: after).
  { unfold elements_of. rewrite Hres. reflexivity. }
  assert (Hwe : forall x, In x (before ++ PyDict e :: after) -> wf_element x = true).
  { intros x Hx. apply (wf_results_elements _ _ Hwf). rewrite Hels. exact Hx. }
  assert (Hde : docs_of (PyDict e) = doc :: rest).
  { unfold docs_of. rewrite Hdocs. reflexivity. }
  assert (Hdoc : wf_doc doc = true).
  { apply (wf_element_docs (PyDict e)).
    - apply Hwe, in_or_app. right. left. reflexivity.
    - rewrite Hde. left. reflexivity. }
  assert (Hparts : element_parts (PyDict e) = Ok (name_of (PyDict e), [] ++ doc :: rest)).
  { unfold element_parts, name_of. cbn [as_dict rbind]. rewrite Hdocs. reflexivity. }
  rewrite forallb_forall in Hq.
  assert (Hb : forall x, In x before ->
            element_parts x = Ok (name_of x, docs_of x)
            /\ forall k doc, In doc (docs_of x) ->
                 exists r, Qt.doc_row k (name_of x) doc = Ok r).
  { intros x Hx.
    assert (Hx' : wf_element x = true) by (apply Hwe, in_or_app; left; exact Hx).
    split; [apply wf_element_parts, Hx'|].
    intros k doc' Hd. eexists. apply qt_doc_row_wf.
    - exact (wf_element_docs _ _ Hx' Hd).
    - specialize (Hq _ Hx). unfold qt_name in Hq.
      destruct (name_of x); try discriminate Hq; reflexivity. }
  destruct (insert_elements_stops Qt.doc_row before (PyDict e) after _ [] doc rest
              (TypeError (name_of (PyDict e))) Hb Hparts
              (fun k doc' (H : In doc' []) => match H with end)
              (fun k => qt_doc_row_name k _ _ Hdoc Hn) 1%Z [])
    as [new [Hins Hm]].
  cbn [map] in Hm. rewrite app_nil_r in Hm. fold shown in Hm.
  assert (Hqt : results_tree qt = new
                /\ log_text qt
                   = log_text wq
                     ++ [(ERROR, [Lit "Error updating results tree: ";
                                  ExnStr (TypeError (name_of (PyDict e)))])]).
  { subst qt. unfold Qt.update_results_tree, fill_tree. cbn [as_dict rbind].
    rewrite Hres. cbn [py_iter]. rewrite Hins. split; reflexivity. }
  destruct Hqt as [Hrows Hlogq]. rewrite Hrows.
  pose proof (rows_match_length _ _ _ _ Hm) as Hlen.
  pose proof (rows_match_length _ _ _ _ Htk) as Hlent.
  split; [exact Hm|]. split; [exact Hlen|]. split; [|exact Hlogq].
  rewrite Hlen, Hlent. unfold flat_docs. rewrite Hels, flat_map_app.
  cbn [flat_map]. rewrite Hde. fold shown.
  rewrite !length_app. cbn [map length]. lia.
Qed.

(** X16. An element whose name is neither a string nor [None] (a number
    read from a sheet, say) cuts the PyQt6 table: in a well-formed result
    the table keeps the rows of the elements before it and none from it
    on, and the [TypeError] of [setText] is logged.  The Tkinter table
    shows every row of the same result and logs nothing. *)
Theorem element_name_must_be_text d before e after doc rest
        (wt : ui Tk.row) (wq : ui Qt.row) :
  wf_results (PyDict d) = true ->
  dict_get d "results" (PyList []) = PyList (before ++ PyDict e :: after) ->
  forallb qt_name before = true ->
  dict_get e "document_results" (PyList []) = PyList (doc :: rest) ->
  qt_text (name_of (PyDict e)) = false ->
  let shown := flat_map (fun x => map (pair (name_of x)) (docs_of x)) before in
  let tk := Tk.update_results_tree (PyDict d) wt in
  let qt := Qt.update_results_tree (PyDict d) wq in
  (rows_match Tk.doc_row 1 (flat_docs (PyDict d)) (results_tree tk)
   /\ log_text tk = log_text wt)
  /\ (rows_match Qt.doc_row 1 shown (results_tree qt)
      /\ length (results_tree qt) = length shown
      /\ (length (results_tree qt) < length (results_tree tk))%nat
      /\ log_text qt
         = log_text wq
           ++ [(ERROR, [Lit "Error updating results tree: ";
                        ExnStr (TypeError (name_of (PyDict e)))])]).
Proof.
  intros Hwf Hres Hq Hdocs Hn.
  exact (qt_table_cut d before e after doc rest wt wq Hwf Hres Hq Hdocs Hn).
Qed.

Lemma element_name_must_be_text_witness :
  length (results_tree (Tk.update_results_tree year_answer initial)) = 1
  /\ results_tree (Qt.update_results_tree year_answer initial) = []
  /\ log_text (Qt.update_results_tree year_answer initial)
     = [(ERROR, [Lit "Error updating results tree: "; ExnStr (TypeError (PyInt 2024))])].
Proof.
  pose proof (element_name_must_be_text
                [("success", PyBool true);
                 ("results",
                  PyList [PyDict [("element_name", PyInt 2024);
                                  ("document_results",
                                   PyList [PyDict [("document_path", PyStr "/a/b.xlsx")]])]])]
                []
                [("element_name", PyInt 2024);
                 ("document_results",
                  PyList [PyDict [("document_path", PyStr "/a/b.xlsx")]])]
                [] (PyDict [("document_path", PyStr "/a/b.xlsx")]) []
                initial initial eq_refl eq_refl eq_refl eq_refl eq_refl) as H.
  cbv zeta in H. fold year_answer in H. destruct H as [[Ht _] [_ [Hl [_ Hlog]]]].
  split; [exact (rows_match_length _ _ _ _ Ht)|].
  split; [|exact Hlog].
  destruct (results_tree (Qt.update_results_tree year_answer initial));
    [reflexivity|discriminate Hl].
Defined.


(** ** The number of rows *)

(** C1.  For a well-formed result with N element results, the i-th with Mi
    document results, the Tkinter [update_results_tree] leaves exactly the
    sum of the Mi rows, whatever the tree held before; their first column
    counts 1, 2, ... up to that sum with one counter for the whole table,
    and the rows follow the element results in their order, each with its
    document results in their order.  The PyQt6 [update_results_tree] does
    the same when every element name is a string.  It does not otherwise:
    at the first element whose name is no text and that has a document
    result, [setText] raises, and the table is left with fewer rows than
    the sum. *)
Theorem results_table_rows results (wt : ui Tk.row) (wq : ui Qt.row) :
  wf_results results = true ->
  let n := list_sum (map (fun el => length (docs_of el)) (elements_of results)) in
  let ids := map (fun k => str_int (Z.of_nat k)) (seq 1 n) in
  let tk := results_tree (Tk.update_results_tree results wt) in
  let qt := results_tree (Qt.update_results_tree results wq) in
  (length tk = n
   /\ map Tk.row_text tk = ids
   /\ map (fun r => (Tk.row_element r, Tk.row_document r)) tk
      = map (fun it => (fst it, doc_basename (snd it))) (flat_docs results))
  /\ (forallb qt_name (elements_of results) = true ->
      length qt = n
      /\ map Qt.row_text qt = ids
      /\ map (fun r => (Qt.row_element r, Qt.row_document r)) qt
         = map (fun it => (name_text (fst it), doc_basename (snd it)))
               (flat_docs results))
  /\ (forall before el after,
        elements_of results = before ++ el :: after ->
        forallb qt_name before = true ->
        qt_text (name_of el) = false ->
        docs_of el <> [] ->
        (length qt < n)%nat
        /\ log_text (Qt.update_results_tree results wq)
           = log_text wq
             ++ [(ERROR, [Lit "Error updating results tree: ";
                          ExnStr (TypeError (name_of el))])]).
Proof.
  intros H n ids tk qt.
  assert (Htk : length tk = n).
  { destruct (tk_table results wt H) as [Hm _]. fold tk in Hm.
    pose proof (rows_match_length _ _ _ _ Hm) as Hl.
    rewrite flat_docs_length in Hl. exact Hl. }
  split; [|split].
  - destruct (tk_table results wt H) as [Hm _]. fold tk in Hm.
    split; [exact Htk|]. split.
    + rewrite (rows_match_ids Tk.doc_row Tk.row_text tk_doc_row_text
                              (flat_docs results) tk 1 Hm).
      rewrite flat_docs_length. reflexivity.
    + apply rows_match_column with (doc_row := Tk.doc_row) (k := 1%Z); [|exact Hm].
      intros k n0 d r Hin Hr.
      rewrite tk_doc_row_wf in Hr by exact (flat_docs_wf _ _ _ H Hin).
      injection Hr as <-. reflexivity.
  - intros Hq. destruct (qt_table results wq H Hq) as [Hm _]. fold qt in Hm.
    pose proof (rows_match_length _ _ _ _ Hm) as Hl.
    rewrite flat_docs_length in Hl. fold n in Hl.
    split; [exact Hl|]. split.
    + rewrite (rows_match_ids Qt.doc_row Qt.row_text qt_doc_row_text
                              (flat_docs results) qt 1 Hm).
      rewrite flat_docs_length. reflexivity.
    + apply rows_match_column with (doc_row := Qt.doc_row) (k := 1%Z); [|exact Hm].
      intros k n0 d r Hin Hr.
      rewrite qt_doc_row_wf in Hr.
      * injection Hr as <-. reflexivity.
      * exact (flat_docs_wf _ _ _ H Hin).
      * exact (flat_docs_qt_name _ _ _ Hq Hin).
  - intros before el after Hels Hq Hn Hdocs.
    assert (Hel : wf_element el = true).
    { apply (wf_results_elements _ _ H). rewrite Hels.
      apply in_or_app. right. left. reflexivity. }
    destruct results as [| | | | | |d]; try discriminate H.
    destruct el as [| | | | | |e]; try discriminate Hel.
    unfold elements_of in Hels. unfold wf_results in H.
    destruct (dict_get d "results" (PyList [])) as [| | | | |elements|] eqn:Hres;
      try discriminate H.
    subst elements.
    unfold docs_of in Hdocs.
    destruct (dict_get e "document_results" (PyList [])) as [| | | | |docs|] eqn:Hd;
      try (elim Hdocs; reflexivity).
    destruct docs as [|doc rest]; [elim Hdocs; reflexivity|].
    assert (Hwf : wf_results (PyDict d) = true) by (unfold wf_results; rewrite Hres; exact H).
    destruct (qt_table_cut d before e after doc rest wt wq Hwf Hres Hq Hd Hn)
      as [_ [_ [_ [Hlt Hlog]]]].
    fold tk qt in Hlt. rewrite Htk in Hlt. split; [exact Hlt|exact Hlog].
Qed.

Lemma results_table_rows_witness :
  wf_results invoice_answer = true
  /\ length (results_tree (Tk.update_results_tree invoice_answer initial)) = 2
  /\ map Tk.row_text (results_tree (Tk.update_results_tree invoice_answer initial))
     = ["1"; "2"].
Proof.
  split; [reflexivity|].
  pose proof (results_table_rows invoice_answer initial initial eq_refl) as H.
  destruct H as [[Hl [Hi _]] _]. split; [exact Hl|exact Hi].
Defined.

(** The result [year_answer] is well formed and has one document result;
    the Tkinter table shows it, the PyQt6 table stays empty. *)
Example year_rows :
  wf_results year_answer = true
  /\ length (flat_docs year_answer) = 1
  /\ length (results_tree (Tk.update_results_tree year_answer initial)) = 1
  /\ results_tree (Qt.update_results_tree year_answer initial) = [].
Proof. repeat split; reflexivity. Qed.
(** ** Starting a run *)

Lemma path_unset_false p : path_unset p = false <-> exists s, p = Some s /\ s <> "".
Proof.
  destruct p as [s|]; cbn.
  - rewrite String.eqb_neq. split.
    + intros H. exists s. auto.
    + intros [s' [Hs Hn]]. injection Hs as ->. exact Hn.
  - split; [discriminate|]. intros [s [Hs _]]. discriminate Hs.
Qed.

(** X4. [start_processing] starts a thread exactly when the input path is
    set and exists and the output path is set; it then disables Start,
    enables Stop, sets the progress bar to 0 and empties the results, and
    keeps the chosen files, the model and the checkbox. *)
Theorem start_processing_exact Et (wt : ui Tk.row) Eq (wq : ui Qt.row) :
  (snd (Tk.start_processing Et wt) = true <-> valid_inputs Et wt)
  /\ (snd (Tk.start_processing Et wt) = true ->
      just_started wt (fst (Tk.start_processing Et wt)))
  /\ (snd (Qt.start_processing Eq wq) = true <-> valid_inputs Eq wq)
  /\ (snd (Qt.start_processing Eq wq) = true ->
      just_started wq (fst (Qt.start_processing Eq wq))).
Proof.
  unfold just_started.
  assert (Hv : forall R (E : Env) (w : ui R),
            (path_unset (input_file_path w)
             || negb (os_path_exists E (str_path (input_file_path w))) = false
             /\ path_unset (output_file_path w) = false)
            <-> valid_inputs E w).
  { intros R E w. unfold valid_inputs. rewrite orb_false_iff, negb_false_iff, !path_unset_false. split.
    - intros [[[p [Hp Hn]] He] [o [Ho Hm]]]. rewrite Hp in He. exists p, o. auto 10.
    - intros [p [o [Hp [Hn [He [Ho Hm]]]]]]. rewrite Hp. cbn [str_path].
      repeat split; eauto. }
  split; [|split; [|split]].
  - rewrite <- Hv. unfold Tk.start_processing.
    destruct (path_unset (input_file_path wt) || _); cbn [snd];
      [split; [discriminate|intros [H _]; discriminate H]|].
    destruct (path_unset (output_file_path wt)); cbn [snd];
      [split; [discriminate|intros [_ H]; discriminate H]|].
    split; auto.
  - unfold Tk.start_processing.
    destruct (path_unset (input_file_path wt) || _); cbn [snd]; [discriminate|].
    destruct (path_unset (output_file_path wt)); cbn [snd]; [discriminate|].
    intros _. cbn. auto 12.
  - rewrite <- Hv. unfold Qt.start_processing.
    destruct (path_unset (input_file_path wq) || _); cbn [snd];
      [split; [discriminate|intros [H _]; discriminate H]|].
    destruct (path_unset (output_file_path wq)); cbn [snd];
      [split; [discriminate|intros [_ H]; discriminate H]|].
    split; auto.
  - unfold Qt.start_processing.
    destruct (path_unset (input_file_path wq) || _); cbn [snd]; [discriminate|].
    destruct (path_unset (output_file_path wq)); cbn [snd]; [discriminate|].
    intros _. cbn. auto 12.
Qed.

Lemma start_processing_exact_witness :
  just_started (ready : ui Tk.row)
    (fst (Tk.start_processing (sample_env (Ok invoice_answer) (Ok PyNone)) ready))
  /\ just_started (ready : ui Qt.row)
       (fst (Qt.start_processing (sample_env (Ok invoice_answer) (Ok PyNone)) ready)).
Proof.
  pose proof (start_processing_exact
                (sample_env (Ok invoice_answer) (Ok PyNone)) ready
                (sample_env (Ok invoice_answer) (Ok PyNone)) ready) as H.
  exact (conj (proj1 (proj2 H) eq_refl) (proj2 (proj2 (proj2 H)) eq_refl)).
Defined.

(** X5. When both the input and the output are invalid only the input is
    reported.  A refused click adds one ERROR line to the log; the PyQt6
    window also shows one error dialog, titled after the file at fault,
    and the Tkinter window shows none. *)
Theorem refused_click_report Et (wt : ui Tk.row) Eq (wq : ui Qt.row) :
  let tk := fst (Tk.start_processing Et wt) in
  let qt := fst (Qt.start_processing Eq wq) in
  (snd (Tk.start_processing Et wt) = false ->
   dialogs tk = dialogs wt
   /\ log_text tk
      = log_text wt
        ++ [(ERROR, [Lit (if input_refused Et wt
                          then "Input file not found or not specified"
                          else "Output file not specified")])])
  /\ (snd (Qt.start_processing Eq wq) = false ->
      log_text qt
      = log_text wq
        ++ [(ERROR, [Lit (if input_refused Eq wq
                          then "Input file not found or not specified"
                          else "Output file not specified")])]
      /\ dialogs qt
         = dialogs wq
           ++ [if input_refused Eq wq
               then mk_dialog Critical "Input Error"
                              [Lit "Please select a valid input Excel file"]
               else mk_dialog Critical "Output Error"
                              [Lit "Please specify an output Excel file"]]).
Proof.
  cbv zeta. unfold input_refused. split.
  - unfold Tk.start_processing.
    destruct (path_unset (input_file_path wt) || _); cbn [fst snd];
      [intros _; split; reflexivity|].
    destruct (path_unset (output_file_path wt)); cbn [fst snd];
      [intros _; split; reflexivity|discriminate].
  - unfold Qt.start_processing.
    destruct (path_unset (input_file_path wq) || _); cbn [fst snd];
      [intros _; split; reflexivity|].
    destruct (path_unset (output_file_path wq)); cbn [fst snd];
      [intros _; split; reflexivity|discriminate].
Qed.

Lemma refused_click_report_witness :
  dialogs (fst (Tk.start_processing (sample_env (Ok invoice_answer) (Ok PyNone)) initial))
  = []
  /\ dialogs (fst (Qt.start_processing (sample_env (Ok invoice_answer) (Ok PyNone))
                                       (set_input "/x/y/report.xlsx" initial)))
     = [] ++ [mk_dialog Critical "Output Error" [Lit "Please specify an output Excel file"]].
Proof.
  pose proof (refused_click_report
                (sample_env (Ok invoice_answer) (Ok PyNone)) initial
                (sample_env (Ok invoice_answer) (Ok PyNone))
                (set_input "/x/y/report.xlsx" initial)) as H.
  cbv zeta in H.
  exact (conj (proj1 (proj1 H eq_refl)) (proj2 (proj2 H eq_refl))).
Defined.

(** ** What reaches the window *)

Lemma last_render_app t1 t2 :
  last_render (t1 ++ t2)
  = match last_render t2 with
    | Some results => Some results
    | None => last_render t1
    end.
Proof.
  induction t1 as [|e t1 IH]; cbn [app last_render].
  - destruct (last_render t2); reflexivity.
  - rewrite IH. destruct (last_render t2); reflexivity.
Qed.

Lemma dialogs_of_app t1 t2 : dialogs_of (t1 ++ t2) = dialogs_of t1 ++ dialogs_of t2.
Proof. apply flat_map_app. Qed.

Lemma calls_of_app t1 t2 : calls_of (t1 ++ t2) = calls_of t1 ++ calls_of t2.
Proof. apply flat_map_app. Qed.

(** What one effect does to each part of the PyQt6 window. *)
Lemma qt_apply_effect_parts (w : ui Qt.row) e :
  let w' := Qt.apply_effect w e in
  same_selection w w'
  /\ dialogs w' = dialogs w ++ dialog_of e
  /\ progress_bar w' = last (progress_of e) (progress_bar w)
  /\ results_tree w'
     = match last_render [e] with
       | Some results => fst (fill_tree Qt.doc_row results)
       | None => results_tree w
       end.
Proof.
  unfold same_selection.
  destruct e as [op|op|c]; [destruct op|destruct op|];
    cbn [Qt.apply_effect Qt.apply_op dialog_of progress_of last last_render];
    rewrite ?app_nil_r;
    try (cbn; repeat split; reflexivity);
    unfold Qt.update_results_tree;
    destruct (fill_tree Qt.doc_row results) as [rows [z|ex]]; cbn;
    repeat split; reflexivity.
Qed.

Lemma last_app_default {A} (l1 l2 : list A) d : last (l1 ++ l2) d = last l2 (last l1 d).
Proof.
  revert l1. induction l2 as [|x l2 IH] using rev_ind; intros l1.
  - now rewrite app_nil_r.
  - rewrite app_assoc, !last_last. reflexivity.
Qed.

(** The PyQt6 window after a trace, part by part: the selection is
    untouched, the dialogs are those of the trace, the progress bar holds
    the last value set, and the table is the one of the last result
    rendered. *)
Lemma qt_deliver_parts t (w : ui Qt.row) :
  let w' := Qt.deliver t w in
  same_selection w w'
  /\ dialogs w' = dialogs w ++ dialogs_of t
  /\ progress_bar w' = last (progress_values t) (progress_bar w)
  /\ results_tree w'
     = match last_render t with
       | Some results => fst (fill_tree Qt.doc_row results)
       | None => results_tree w
       end.
Proof.
  cbv zeta. revert w. induction t as [|e t IH]; intros w.
  - unfold same_selection. cbn. rewrite app_nil_r. repeat split; reflexivity.
  - cbn [Qt.deliver fold_left]. fold (Qt.deliver t (Qt.apply_effect w e)).
    destruct (IH (Qt.apply_effect w e)) as [[S1 [S2 [S3 [S4 [S5 S6]]]]] [Hd [Hp Hr]]].
    destruct (qt_apply_effect_parts w e)
      as [[T1 [T2 [T3 [T4 [T5 T6]]]]] [Hd' [Hp' Hr']]].
    split; [unfold same_selection; repeat split; congruence|].
    split; [|split].
    + rewrite Hd, Hd'. unfold dialogs_of. cbn [flat_map]. now rewrite app_assoc.
    + rewrite Hp, Hp'. unfold progress_values. cbn [flat_map].
      now rewrite last_app_default.
    + rewrite Hr, Hr'. change (e :: t) with ([e] ++ t). rewrite last_render_app.
      destruct (last_render t); reflexivity.
Qed.

(** ** The worker, stage by stage *)

Ltac not_in H := cbn [In] in H; repeat (destruct H as [H | H]; [discriminate H|]); exact H.

Lemma tk_calls E (w : ui Tk.row) :
  calls_of (Tk.process_data E w)
  = calls_made E (selected_model w) None (input_file_path w) (output_file_path w).
Proof.
  unfold Tk.process_data, Tk.process_data_try, Tk.process_data_except,
         Tk.process_data_finally, calls_made, processed.
  worker_cases; reflexivity.
Qed.

Lemma qt_calls E (w : ui Qt.row) :
  calls_of (Qt.process_data E w)
  = calls_made E (selected_model w) (Some (use_8bit w))
               (input_file_path w) (output_file_path w).
Proof.
  unfold Qt.process_data, Qt.process_data_try, Qt.process_data_except,
         Qt.process_data_finally, calls_made, processed.
  worker_cases; reflexivity.
Qed.

(** X6. The worker calls its collaborators in one order and stops at the
    first that raises or reports failure.  It always builds the model
    runner, from the selected model (and, in the PyQt6 front-end, the
    checkbox); it builds the data processor exactly when the runner was
    built; it calls [process_excel] on the input path exactly when the data
    processor was built; it calls [export_to_excel], on the answer of
    [process_excel] and the output path, exactly when that answer has a
    true [success].  It makes no other call and none twice. *)
Theorem calls_in_order Et (wt : ui Tk.row) Eq (wq : ui Qt.row) :
  calls_of (Tk.process_data Et wt)
  = calls_made Et (selected_model wt) None (input_file_path wt) (output_file_path wt)
  /\ calls_of (Qt.process_data Eq wq)
     = calls_made Eq (selected_model wq) (Some (use_8bit wq))
                  (input_file_path wq) (output_file_path wq).
Proof. split; [apply tk_calls|apply qt_calls]. Qed.

(** Three runs: the runner cannot be built, the processor reports failure,
    all goes well. *)
Example calls_samples :
  let E1 := mk_env unit unit (fun _ _ => Raise (Raised true "no such model"))
                   (fun _ => Ok tt) (fun _ _ => Ok invoice_answer)
                   (fun _ _ => Ok (PyBool true)) (fun _ => true) in
  let E2 := sample_env (Ok failed_answer) (Ok (PyBool true)) in
  let E3 := sample_env (Ok invoice_answer) (Ok (PyBool true)) in
  let build := NewLocalLLMProcessor "mistralai/Mistral-7B-Instruct-v0.2" (Some true) in
  calls_of (Qt.process_data E1 ready) = [build]
  /\ calls_of (Qt.process_data E2 ready)
     = [build; NewDataProcessor; ProcessExcel (Some "/x/y/report.xlsx")]
  /\ calls_of (Qt.process_data E3 ready)
     = [build; NewDataProcessor; ProcessExcel (Some "/x/y/report.xlsx");
        ExportToExcel invoice_answer (Some "/x/y/report_results.xlsx")].
Proof. repeat split; reflexivity. Qed.

Lemma tk_render_export E (w : ui Tk.row) :
  let t := Tk.process_data E w in
  let answer := pipeline_answer E (selected_model w) None (input_file_path w) in
  last_render t = processed answer
  /\ forall r o, In (Extern (ExportToExcel r o)) t
                 <-> processed answer = Some r /\ o = output_file_path w.
Proof.
  cbv zeta.
  unfold Tk.process_data, Tk.process_data_try, Tk.process_data_except,
         Tk.process_data_finally, processed.
  worker_cases; (split; [reflexivity|]); intros r o;
    (split; [intros H; first [ exfalso; not_in H
                             | cbn [In] in H;
                               repeat (destruct H as [H | H];
                                       [try discriminate H|]);
                               try contradiction;
                               injection H as <- <-; split; reflexivity ]
            |intros [H ->]; try discriminate H; injection H as <-; find_in]).
Qed.

Lemma qt_render_export E (w : ui Qt.row) :
  let t := Qt.process_data E w in
  let answer :=
    pipeline_answer E (selected_model w) (Some (use_8bit w)) (input_file_path w) in
  last_render t = processed answer
  /\ forall r o, In (Extern (ExportToExcel r o)) t
                 <-> processed answer = Some r /\ o = output_file_path w.
Proof.
  cbv zeta.
  unfold Qt.process_data, Qt.process_data_try, Qt.process_data_except,
         Qt.process_data_finally, processed.
  worker_cases; (split; [reflexivity|]); intros r o;
    (split; [intros H; first [ exfalso; not_in H
                             | cbn [In] in H;
                               repeat (destruct H as [H | H];
                                       [try discriminate H|]);
                               try contradiction;
                               injection H as <- <-; split; reflexivity ]
            |intros [H ->]; try discriminate H; injection H as <-; find_in]).
Qed.

(** X7. The worker fills the table and calls the exporter exactly when the
    processor answered with a true [success]; both then get that very
    answer, and the exporter the stored output path.  Otherwise neither
    happens. *)
Theorem shown_and_exported Et (wt : ui Tk.row) Eq (wq : ui Qt.row) :
  (let t := Tk.process_data Et wt in
   let answer := pipeline_answer Et (selected_model wt) None (input_file_path wt) in
   last_render t = processed answer
   /\ forall r o, In (Extern (ExportToExcel r o)) t
                  <-> processed answer = Some r /\ o = output_file_path wt)
  /\ (let t := Qt.process_data Eq wq in
      let answer :=
        pipeline_answer Eq (selected_model wq) (Some (use_8bit wq)) (input_file_path wq) in
      last_render t = processed answer
      /\ forall r o, In (Extern (ExportToExcel r o)) t
                     <-> processed answer = Some r /\ o = output_file_path wq).
Proof. split; [apply tk_render_export|apply qt_render_export]. Qed.

(** ** The outcomes of a run *)

(** Case analysis on the answers up to [process_excel]. *)
Ltac stage_cases :=
  unfold processed, pipeline_answer, py_getitem, as_dict,
         logging_info, logging_error, tell, extern, lift, wret;
  worker_simpl;
  repeat match goal with
    | |- context [LocalLLMProcessor ?E ?m ?f] =>
        destruct (LocalLLMProcessor E m f); worker_simpl
    | |- context [DataProcessor ?E ?l] =>
        destruct (DataProcessor E l); worker_simpl
    | |- context [process_excel ?E ?p ?i] =>
        destruct (process_excel E p i) as [[]|]; worker_simpl
    | |- context [assoc "success" ?d] =>
        destruct (assoc "success" d) as [?success|]; worker_simpl
    end.

Lemma tk_export_trace E (w : ui Tk.row) results x :
  processed (pipeline_answer E (selected_model w) None (input_file_path w))
  = Some results ->
  export_to_excel E results (output_file_path w) = Ok x ->
  let t := Tk.process_data E w in
  progress_values t = [10; 20; 30; 80; 100]%Z
  /\ last_render t = Some results
  /\ dialogs_of t = [export_dialog x (output_file_path w)].
Proof.
  cbv zeta.
  unfold Tk.process_data, Tk.process_data_try, Tk.process_data_finally, export_dialog.
  stage_cases; try (intros H; discriminate H).
  destruct (py_truthy success); worker_simpl; intros H Hx; [|discriminate H].
  injection H as <-. rewrite Hx. worker_simpl.
  destruct (py_truthy x); repeat split; reflexivity.
Qed.

Lemma qt_export_trace E (w : ui Qt.row) results x :
  processed (pipeline_answer E (selected_model w) (Some (use_8bit w)) (input_file_path w))
  = Some results ->
  export_to_excel E results (output_file_path w) = Ok x ->
  let t := Qt.process_data E w in
  progress_values t = [10; 20; 30; 80; 100]%Z
  /\ last_render t = Some results
  /\ dialogs_of t = [export_dialog x (output_file_path w)].
Proof.
  cbv zeta.
  unfold Qt.process_data, Qt.process_data_try, Qt.process_data_finally, export_dialog.
  stage_cases; try (intros H; discriminate H).
  destruct (py_truthy success); worker_simpl; intros H Hx; [|discriminate H].
  injection H as <-. rewrite Hx. worker_simpl.
  destruct (py_truthy x); repeat split; reflexivity.
Qed.

(** X8. When the processor's answer has a true [success] and the exporter
    returns, the worker sets the progress values 10, 20, 30, 80 and 100,
    the result it hands to [update_results_tree] is that answer, and it
    shows exactly one dialog: Success, naming the output path, when the
    exporter returned a true value, and Export Error otherwise.  A failed
    export changes the dialog and nothing else of these. *)
Theorem export_outcome Et (wt : ui Tk.row) rt xt Eq (wq : ui Qt.row) rq xq :
  processed (pipeline_answer Et (selected_model wt) None (input_file_path wt))
  = Some rt ->
  export_to_excel Et rt (output_file_path wt) = Ok xt ->
  processed (pipeline_answer Eq (selected_model wq) (Some (use_8bit wq))
                             (input_file_path wq))
  = Some rq ->
  export_to_excel Eq rq (output_file_path wq) = Ok xq ->
  (let t := Tk.process_data Et wt in
   progress_values t = [10; 20; 30; 80; 100]%Z
   /\ last_render t = Some rt
   /\ dialogs_of t = [export_dialog xt (output_file_path wt)])
  /\ (let t := Qt.process_data Eq wq in
      progress_values t = [10; 20; 30; 80; 100]%Z
      /\ last_render t = Some rq
      /\ dialogs_of t = [export_dialog xq (output_file_path wq)]).
Proof.
  intros Hpt Hxt Hpq Hxq.
  split; [exact (tk_export_trace _ _ _ _ Hpt Hxt)|exact (qt_export_trace _ _ _ _ Hpq Hxq)].
Qed.

Lemma export_outcome_witness :
  dialogs_of
    (Tk.process_data (sample_env (Ok invoice_answer) (Ok (PyBool false))) ready)
  = [mk_dialog Critical "Export Error" [Lit "Failed to export results to Excel file"]]
  /\ dialogs_of
       (Qt.process_data (sample_env (Ok invoice_answer) (Ok (PyBool true))) ready)
     = [mk_dialog Information "Success"
          [Lit "Processing completed successfully. Results exported to ";
           Lit "/x/y/report_results.xlsx"]].
Proof.
  pose proof (export_outcome
                (sample_env (Ok invoice_answer) (Ok (PyBool false))) ready
                invoice_answer (PyBool false)
                (sample_env (Ok invoice_answer) (Ok (PyBool true))) ready
                invoice_answer (PyBool true)
                eq_refl eq_refl eq_refl eq_refl) as H.
  exact (conj (proj2 (proj2 (proj1 H))) (proj2 (proj2 (proj2 H)))).
Defined.

(** Case analysis on the two constructors only. *)
Ltac pipeline_cases :=
  unfold pipeline_answer, logging_info, logging_error, tell, extern, lift, wret;
  worker_simpl;
  repeat match goal with
    | |- context [LocalLLMProcessor ?E ?m ?f] =>
        destruct (LocalLLMProcessor E m f); worker_simpl
    | |- context [DataProcessor ?E ?l] =>
        destruct (DataProcessor E l); worker_simpl
    end.

(** Case analysis on the rest of the [try] block. *)
Ltac export_cases :=
  repeat match goal with
    | |- context [py_truthy ?s] => destruct (py_truthy s); worker_simpl
    | |- context [export_to_excel ?E ?r ?o] =>
        destruct (export_to_excel E r o); worker_simpl
    end.

Lemma tk_exception_trace E (w : ui Tk.row) e :
  snd (Tk.process_data_try E w) = Raise e ->
  let t := Tk.process_data E w in
  stalled (progress_values t)
  /\ (is_Exception e = true -> In (exception_log e) t)
  /\ (is_Exception e = false -> existsb is_report t = false /\ dialogs_of t = []).
Proof.
  cbv zeta.
  unfold Tk.process_data, Tk.process_data_try, Tk.process_data_finally.
  stage_cases; export_cases; cbn [snd]; intros H; try discriminate H;
    injection H as <-;
    unfold Tk.process_data_except, stalled, exception_log;
    (split;
     [ destruct (is_Exception _); cbn; auto 10
     | split;
       [ intros He; rewrite He; cbn; find_in
       | intros He; rewrite He; split; reflexivity ] ]).
Qed.

Lemma qt_exception_trace E (w : ui Qt.row) e :
  snd (Qt.process_data_try E w) = Raise e ->
  let t := Qt.process_data E w in
  stalled (progress_values t)
  /\ existsb is_report t = is_Exception e
  /\ dialogs_of t = (if is_Exception e then [exception_dialog e] else [])
  /\ (is_Exception e = true -> In (exception_log e) t).
Proof.
  cbv zeta.
  unfold Qt.process_data, Qt.process_data_try, Qt.process_data_finally.
  stage_cases; export_cases; cbn [snd]; intros H; try discriminate H;
    injection H as <-;
    unfold Qt.process_data_except, stalled, exception_log, exception_dialog;
    (split;
     [ destruct (is_Exception _); cbn; auto 10
     | split;
       [ destruct (is_Exception _); reflexivity
       | split;
         [ destruct (is_Exception _); reflexivity
         | intros He; rewrite He; cbn; find_in ] ] ]).
Qed.

(** X9. When the [try] block of the worker raises, the progress bar stays
    at the checkpoint reached (10, 20, 30 or 80): it is neither reset nor
    completed.  An exception that is an [Exception] is logged with its
    text, and the PyQt6 worker shows it in one error dialog; any other
    exception is reported nowhere, neither in the log nor in a dialog. *)
Theorem exception_report Et (wt : ui Tk.row) e_tk Eq (wq : ui Qt.row) e_qt :
  snd (Tk.process_data_try Et wt) = Raise e_tk ->
  snd (Qt.process_data_try Eq wq) = Raise e_qt ->
  (let t := Tk.process_data Et wt in
   stalled (progress_values t)
   /\ (is_Exception e_tk = true -> In (exception_log e_tk) t)
   /\ (is_Exception e_tk = false -> existsb is_report t = false /\ dialogs_of t = []))
  /\ (let t := Qt.process_data Eq wq in
      stalled (progress_values t)
      /\ existsb is_report t = is_Exception e_qt
      /\ dialogs_of t = (if is_Exception e_qt then [exception_dialog e_qt] else [])
      /\ (is_Exception e_qt = true -> In (exception_log e_qt) t)).
Proof.
  intros Ht Hq. split; [exact (tk_exception_trace _ _ _ Ht)|exact (qt_exception_trace _ _ _ Hq)].
Qed.

Lemma exception_report_witness :
  existsb is_report
    (Tk.process_data (sample_env (Raise (Raised false "interrupted")) (Ok PyNone)) ready)
  = false
  /\ dialogs_of
       (Qt.process_data (sample_env (Raise (Raised true "out of memory")) (Ok PyNone)) ready)
     = [mk_dialog Critical "Processing Error"
          [Lit "An error occurred: "; ExnStr (Raised true "out of memory")]].
Proof.
  pose proof (exception_report
                (sample_env (Raise (Raised false "interrupted")) (Ok PyNone)) ready
                (Raised false "interrupted")
                (sample_env (Raise (Raised true "out of memory")) (Ok PyNone)) ready
                (Raised true "out of memory")
                eq_refl eq_refl) as H.
  exact (conj (proj1 (proj2 (proj2 (proj1 H)) eq_refl))
              (proj1 (proj2 (proj2 (proj2 H))))).
Defined.

(** An answer the worker cannot read. *)
Lemma getitem_raises v k e :
  py_getitem v k = Raise e ->
  is_Exception e = true /\ (e = KeyError k \/ e = TypeError v).
Proof.
  unfold py_getitem. destruct v; try (intros H; injection H as <-; cbn; auto).
  destruct (assoc k d); [discriminate|].
  intros H; injection H as <-; cbn; auto.
Qed.

Lemma tk_unreadable_trace E (w : ui Tk.row) results e :
  pipeline_answer E (selected_model w) None (input_file_path w) = Ok results ->
  py_getitem results "success" = Raise e ->
  let t := Tk.process_data E w in
  progress_values t = [10; 20; 30]%Z
  /\ calls_of t = [NewLocalLLMProcessor (selected_model w) None;
                   NewDataProcessor;
                   ProcessExcel (input_file_path w)]
  /\ last_render t = None
  /\ In (exception_log e) t.
Proof.
  intros Ha Hg. destruct (getitem_raises _ _ _ Hg) as [He _].
  cbv zeta. revert Ha.
  unfold Tk.process_data, Tk.process_data_try, Tk.process_data_finally,
         Tk.process_data_except.
  pipeline_cases; intros Ha; try discriminate Ha.
  rewrite Ha. worker_simpl. rewrite Hg. worker_simpl. rewrite He.
  unfold exception_log. repeat split; try reflexivity. find_in.
Qed.

Lemma qt_unreadable_trace E (w : ui Qt.row) results e :
  pipeline_answer E (selected_model w) (Some (use_8bit w)) (input_file_path w)
  = Ok results ->
  py_getitem results "success" = Raise e ->
  let t := Qt.process_data E w in
  progress_values t = [10; 20; 30]%Z
  /\ calls_of t = [NewLocalLLMProcessor (selected_model w) (Some (use_8bit w));
                   NewDataProcessor;
                   ProcessExcel (input_file_path w)]
  /\ last_render t = None
  /\ In (exception_log e) t
  /\ dialogs_of t = [exception_dialog e].
Proof.
  intros Ha Hg. destruct (getitem_raises _ _ _ Hg) as [He _].
  cbv zeta. revert Ha.
  unfold Qt.process_data, Qt.process_data_try, Qt.process_data_finally,
         Qt.process_data_except.
  pipeline_cases; intros Ha; try discriminate Ha.
  rewrite Ha. worker_simpl. rewrite Hg. worker_simpl. rewrite He.
  unfold exception_log, exception_dialog. repeat split; try reflexivity. find_in.
Qed.

(** X10. An answer of [process_excel] that has no [success] key, or is no
    dict at all, is handled as an exception: the lookup raises a
    [KeyError] or a [TypeError], the worker stops after its three calls
    with the progress bar at 30, fills no table, exports nothing, and logs
    the exception; the PyQt6 worker shows it in its one dialog. *)
Theorem answer_without_success Et (wt : ui Tk.row) rt e_tk Eq (wq : ui Qt.row) rq e_qt :
  pipeline_answer Et (selected_model wt) None (input_file_path wt) = Ok rt ->
  py_getitem rt "success" = Raise e_tk ->
  pipeline_answer Eq (selected_model wq) (Some (use_8bit wq)) (input_file_path wq)
  = Ok rq ->
  py_getitem rq "success" = Raise e_qt ->
  ((e_tk = KeyError "success" \/ e_tk = TypeError rt)
   /\ let t := Tk.process_data Et wt in
      progress_values t = [10; 20; 30]%Z
      /\ calls_of t = [NewLocalLLMProcessor (selected_model wt) None;
                       NewDataProcessor;
                       ProcessExcel (input_file_path wt)]
      /\ last_render t = None
      /\ In (exception_log e_tk) t)
  /\ ((e_qt = KeyError "success" \/ e_qt = TypeError rq)
      /\ let t := Qt.process_data Eq wq in
         progress_values t = [10; 20; 30]%Z
         /\ calls_of t = [NewLocalLLMProcessor (selected_model wq) (Some (use_8bit wq));
                          NewDataProcessor;
                          ProcessExcel (input_file_path wq)]
         /\ last_render t = None
         /\ In (exception_log e_qt) t
         /\ dialogs_of t = [exception_dialog e_qt]).
Proof.
  intros Hat Hgt Haq Hgq. split; split.
  - exact (proj2 (getitem_raises _ _ _ Hgt)).
  - exact (tk_unreadable_trace _ _ _ _ Hat Hgt).
  - exact (proj2 (getitem_raises _ _ _ Hgq)).
  - exact (qt_unreadable_trace _ _ _ _ Haq Hgq).
Qed.

Lemma answer_without_success_witness :
  progress_values (Tk.process_data (sample_env (Ok (PyDict [])) (Ok PyNone)) ready)
  = [10; 20; 30]%Z
  /\ dialogs_of (Qt.process_data (sample_env (Ok PyNone) (Ok PyNone)) ready)
     = [mk_dialog Critical "Processing Error"
          [Lit "An error occurred: "; ExnStr (TypeError PyNone)]].
Proof.
  pose proof (answer_without_success
                (sample_env (Ok (PyDict [])) (Ok PyNone)) ready
                (PyDict []) (KeyError "success")
                (sample_env (Ok PyNone) (Ok PyNone)) ready
                PyNone (TypeError PyNone)
                eq_refl eq_refl eq_refl eq_refl) as H.
  exact (conj (proj1 (proj2 (proj1 H)))
              (proj2 (proj2 (proj2 (proj2 (proj2 (proj2 H))))))).
Defined.

(** ** A click on Stop *)

(** The effects of [stop_processing] are invisible to what a trace leaves
    in the progress bar, the table and the two buttons. *)
Lemma stop_effects_transparent a b :
  progress_values (a ++ stop_effects ++ b) = progress_values (a ++ b)
  /\ last_render (a ++ stop_effects ++ b) = last_render (a ++ b)
  /\ forallb restores (a ++ stop_effects ++ b) = forallb restores (a ++ b)
  /\ (existsb sets_start (a ++ b) = true ->
      existsb sets_start (a ++ stop_effects ++ b) = true)
  /\ (existsb sets_stop (a ++ b) = true ->
      existsb sets_stop (a ++ stop_effects ++ b) = true)
  /\ dialogs_of (a ++ stop_effects ++ b)
     = dialogs_of a ++ dialogs_of stop_effects ++ dialogs_of b.
Proof.
  split; [|split; [|split; [|split; [|split]]]].
  - now rewrite !progress_values_app.
  - rewrite !last_render_app. destruct (last_render b); reflexivity.
  - rewrite !forallb_app. reflexivity.
  - rewrite !existsb_app. intros H. apply orb_true_iff in H.
    destruct H as [H | H]; rewrite H; [reflexivity|].
    now rewrite !orb_true_r.
  - rewrite !existsb_app. intros H. apply orb_true_iff in H.
    destruct H as [H | H]; rewrite H; [reflexivity|].
    now rewrite !orb_true_r.
  - now rewrite !dialogs_of_app.
Qed.

Lemma qt_apply_effect_log (w : ui Qt.row) e :
  log_text (Qt.apply_effect w e) = log_text w ++ qt_log_of e.
Proof.
  destruct e as [op|op|c]; [destruct op|destruct op|];
    cbn [Qt.apply_effect Qt.apply_op qt_log_of]; rewrite ?app_nil_r;
    try reflexivity;
    unfold Qt.update_results_tree;
    destruct (fill_tree Qt.doc_row results) as [rows [z|ex]]; cbn;
    rewrite ?app_nil_r; reflexivity.
Qed.

(** The log of the PyQt6 window after a trace. *)
Lemma qt_deliver_logs t (w : ui Qt.row) :
  log_text (Qt.deliver t w) = log_text w ++ qt_logs t.
Proof.
  revert w. induction t as [|e t IH]; intros w.
  - cbn. now rewrite app_nil_r.
  - cbn [Qt.deliver fold_left]. fold (Qt.deliver t (Qt.apply_effect w e)).
    rewrite IH, qt_apply_effect_log. unfold qt_logs. cbn [flat_map].
    now rewrite app_assoc.
Qed.

Lemma qt_logs_app t1 t2 : qt_logs (t1 ++ t2) = qt_logs t1 ++ qt_logs t2.
Proof. apply flat_map_app. Qed.

Lemma qt_stopped_run E (w w0 : ui Qt.row) n :
  let t := Qt.process_data E w in
  let stopped :=
    Qt.deliver (skipn n t) (Qt.stop_processing true (Qt.deliver (firstn n t) w0)) in
  let quiet := Qt.deliver t w0 in
  start_button stopped = true /\ stop_button stopped = false
  /\ progress_bar stopped = progress_bar quiet
  /\ progress_set stopped = progress_set quiet
  /\ results_tree stopped = results_tree quiet
  /\ dialogs stopped
     = dialogs w0 ++ dialogs_of (firstn n t) ++ dialogs_of stop_effects
       ++ dialogs_of (skipn n t)
  /\ log_text stopped
     = log_text w0 ++ qt_logs (firstn n t)
       ++ (INFO, [Lit "Processing stopped by user"]) :: qt_logs (skipn n t).
Proof.
  cbv zeta. set (t := Qt.process_data E w).
  change (Qt.stop_processing true (Qt.deliver (firstn n t) w0))
    with (Qt.deliver stop_effects (Qt.deliver (firstn n t) w0)).
  rewrite <- !qt_deliver_app, <- ?app_assoc.
  assert (Hq : Qt.deliver t w0 = Qt.deliver (firstn n t ++ skipn n t) w0)
    by now rewrite firstn_skipn.
  rewrite Hq. clear Hq.
  destruct (stop_effects_transparent (firstn n t) (skipn n t))
    as [Hv [Hr [Ha [Hs [Hp Hd]]]]].
  destruct (qt_trace_restores E w) as [Ta [Ts Tp]]. fold t in Ta, Ts, Tp.
  rewrite <- (firstn_skipn n t) in Ta, Ts, Tp.
  destruct (qt_buttons_after (firstn n t ++ stop_effects ++ skipn n t) w0) as [B1 B2];
    [now rewrite Ha|right; now apply Hs|right; now apply Hp|].
  destruct (qt_deliver_parts (firstn n t ++ stop_effects ++ skipn n t) w0)
    as [_ [Hd1 [Hp1 Hr1]]].
  destruct (qt_deliver_parts (firstn n t ++ skipn n t) w0) as [_ [_ [Hp2 Hr2]]].
  split; [exact B1|]. split; [exact B2|].
  split; [now rewrite Hp1, Hp2, Hv|].
  split; [now rewrite !qt_deliver_progress, Hv|].
  split; [now rewrite Hr1, Hr2, Hr|].
  split; [now rewrite Hd1, Hd|].
  rewrite qt_deliver_logs, !qt_logs_app. reflexivity.
Qed.

(** X12. In the PyQt6 window a click on Stop while the worker runs logs
    one line, disables Stop and shows one dialog, and that is all: the
    worker goes on, and at whatever point of its trace the click comes, the
    trace ends with the progress bar, the values it went through and the
    table that it leaves without the click, with Start enabled and Stop
    disabled, with the dialog of the click between the dialogs of the
    trace, and with the line of the click between its log lines. *)
Theorem stop_click_during_run E (w w0 : ui Qt.row) n :
  let t := Qt.process_data E w in
  let stopped :=
    Qt.deliver (skipn n t) (Qt.stop_processing true (Qt.deliver (firstn n t) w0)) in
  let quiet := Qt.deliver t w0 in
  start_button stopped = true /\ stop_button stopped = false
  /\ progress_bar stopped = progress_bar quiet
  /\ progress_set stopped = progress_set quiet
  /\ results_tree stopped = results_tree quiet
  /\ dialogs stopped
     = dialogs w0 ++ dialogs_of (firstn n t) ++ dialogs_of stop_effects
       ++ dialogs_of (skipn n t)
  /\ log_text stopped
     = log_text w0 ++ qt_logs (firstn n t)
       ++ (INFO, [Lit "Processing stopped by user"]) :: qt_logs (skipn n t).
Proof. apply qt_stopped_run. Qed.

(** A run stopped after its third effect. *)
Example stopped_run :
  let E := sample_env (Ok invoice_answer) (Ok (PyBool true)) in
  let w := fst (Qt.start_processing E ready) in
  let t := Qt.process_data E w in
  let w' := Qt.deliver (skipn 3 t) (Qt.stop_processing true (Qt.deliver (firstn 3 t) w)) in
  (start_button w', stop_button w', progress_bar w', length (results_tree w'),
   map dialog_title (dialogs w'))
  = (true, false, 100%Z, 2, ["Processing Stopped"; "Success"]).
Proof. reflexivity. Qed.
(** ** The extension of the output file *)

Section Extension.
Local Open Scope string_scope.

Lemma lower_append a b : Qt.lower (a ++ b) = Qt.lower a ++ Qt.lower b.
Proof. induction a as [|x a IH]; cbn [append Qt.lower]; [reflexivity|now rewrite IH]. Qed.

Lemma length_of_append a b :
  String.length (a ++ b) = (String.length a + String.length b)%nat.
Proof. induction a as [|x a IH]; cbn [append String.length]; [reflexivity|now rewrite IH]. Qed.

Lemma substring_of_append a b :
  substring (String.length a) (String.length b) (a ++ b) = b.
Proof.
  induction a as [|x a IH]; cbn [append String.length substring].
  - apply substring_whole.
  - exact IH.
Qed.

Lemma endswith_append a b : Qt.endswith (a ++ b) b = true.
Proof.
  unfold Qt.endswith. rewrite length_of_append.
  replace (String.length a + String.length b - String.length b)%nat
    with (String.length a) by lia.
  rewrite substring_of_append, String.eqb_refl.
  replace (String.length b <=? String.length a + String.length b)%nat with true
    by (symmetry; apply Nat.leb_le; lia).
  reflexivity.
Qed.

Lemma ends_xlsx y : Qt.endswith (Qt.lower (y ++ ".xlsx")) ".xlsx" = true.
Proof. rewrite lower_append. apply endswith_append. Qed.

Lemma join_suffix a b s : exists y, posixpath.join a (b ++ s) = y ++ s.
Proof.
  unfold posixpath.join.
  destruct (posixpath.startswith_sep (b ++ s)); [exists b; reflexivity|].
  destruct (String.eqb a "" || posixpath.endswith_sep a).
  - exists (a ++ b). symmetry. apply append_assoc.
  - exists (a ++ String posixpath.sep b). rewrite append_assoc. reflexivity.
Qed.

Lemma suggestion_ends_xlsx file_path :
  Qt.endswith
    (Qt.lower
       (posixpath.join (posixpath.dirname file_path)
          (fst (posixpath.splitext (posixpath.basename file_path)) ++ "_results.xlsx")))
    ".xlsx" = true.
Proof.
  set (stem := fst (posixpath.splitext (posixpath.basename file_path))).
  replace (stem ++ "_results.xlsx") with ((stem ++ "_results") ++ ".xlsx")
    by apply append_assoc.
  destruct (join_suffix (posixpath.dirname file_path) (stem ++ "_results") ".xlsx")
    as [y Hy].
  rewrite Hy. apply ends_xlsx.
Qed.

(** X14. In the PyQt6 window the path chosen in the save dialog is stored
    with the extension [.xlsx]: as it is when it already ends in [.xlsx],
    in any case of the letters, and with [.xlsx] appended otherwise; the
    entry shows what is stored.  The Tkinter handler stores the path as the
    dialog returned it. *)
Theorem output_gets_extension (wq : ui Qt.row) (wt : ui Tk.row) file_path :
  file_path <> "" ->
  (exists p,
      output_file_path (Qt.browse_output_file file_path wq) = Some p
      /\ output_file_entry (Qt.browse_output_file file_path wq) = p
      /\ Qt.endswith (Qt.lower p) ".xlsx" = true
      /\ p = (if Qt.endswith (Qt.lower file_path) ".xlsx"
              then file_path else file_path ++ ".xlsx"))
  /\ output_file_path (Tk.browse_output_file file_path wt) = Some file_path.
Proof.
  intros Hf. apply String.eqb_neq in Hf.
  unfold Qt.browse_output_file, Tk.browse_output_file. rewrite Hf. cbn [negb].
  split; [|reflexivity].
  destruct (Qt.endswith (Qt.lower file_path) ".xlsx") eqn:He; cbn [negb].
  - exists file_path. repeat split. exact He.
  - exists (file_path ++ ".xlsx"). repeat split. apply ends_xlsx.
Qed.

End Extension.

Lemma output_gets_extension_witness :
  exists p,
    output_file_path (Qt.browse_output_file "/x/Out.XLS" initial) = Some p
    /\ output_file_entry (Qt.browse_output_file "/x/Out.XLS" initial) = p
    /\ Qt.endswith (Qt.lower p) ".xlsx" = true
    /\ p = "/x/Out.XLS.xlsx".
Proof.
  assert (Hf : "/x/Out.XLS" <> "") by discriminate.
  exact (proj1 (output_gets_extension initial initial "/x/Out.XLS" Hf)).
Defined.


(** ** Building the window *)

(** X19. Neither window can be built.  Both [__init__] build the frame of
    the model selection, which reads [self.selected_model], before they
    reach the statement that assigns it: the read raises, and the
    constructor ends there.  In both, [selected_model] is read at one place
    of the body, before which it is not assigned and after which it is. *)
Theorem constructor_raises :
  (Tk.new_window = Raise (NoAttribute "selected_model")
   /\ exists before after,
        Tk.init_body = before ++ Use "selected_model" :: after
        /\ ~ In (Assign "selected_model") before
        /\ In (Assign "selected_model") after)
  /\ (Qt.new_window = Raise (NoAttribute "selected_model")
      /\ exists before after,
           Qt.init_body = before ++ Use "selected_model" :: after
           /\ ~ In (Assign "selected_model") before
           /\ In (Assign "selected_model") after).
Proof.
  split; (split; [reflexivity|]).
  - exists (firstn 13 Tk.init_body), (skipn 14 Tk.init_body).
    split; [reflexivity|split].
    + cbn. intros H.
      repeat (destruct H as [H | H]; [discriminate H|]). exact H.
    + cbn. repeat (try (left; reflexivity); right).
  - exists (firstn 19 Qt.init_body), (skipn 20 Qt.init_body).
    split; [reflexivity|split].
    + cbn. intros H.
      repeat (destruct H as [H | H]; [discriminate H|]). exact H.
    + cbn. repeat (try (left; reflexivity); right).
Qed.
